(** * logworker_gcp: the pub/sub consumer of [consumers/gcpconsumer.go]

    A shallow embedding of [NewGCPclient], [Flush], [Consume] and
    [CreateMessageLogFiles], together with the parts of the Go runtime and
    standard library they call ([make], [append], [int(float32)],
    [bufio.Writer], [os.OpenFile], ...), and the properties the specification
    states about batching, acknowledgement and error reporting. *)

From Stdlib Require Import ZArith Lia List String.
From Stdlib Require Import Strings.Byte.
From Stdlib Require Import Floats.SpecFloat.
From Equations Require Import Equations.
From stdpp Require Import gmap strings list.

Local Open Scope string_scope.
Local Open Scope list_scope.
Local Open Scope Z_scope.

(** ** The Go values the program manipulates *)

Module Go.

(** A call either returns or panics (nil dereference, [makeslice]). *)
Inductive Outcome (A : Type) : Type :=
| Ret (a : A)
| Panic (reason : string).
Arguments Ret {A} a.
Arguments Panic {A} reason.

Definition bind {A B} (o : Outcome A) (k : A -> Outcome B) : Outcome B :=
  match o with
  | Ret a => k a
  | Panic r => Panic r
  end.

(** [error] values: the ones the package builds with [errors.New], the
    ones of the operating system, of [bufio]/[io], and of the pub/sub
    library. A nil [error] is [None] in [option error]. *)
Inductive error : Type :=
| errors_New (text : string)
| ENOENT
| EACCES
| ENOSPC
| ENOTDIR
| EBADF
| ErrClosed
| ErrShortWrite
| ErrExternal (text : string).

#[global] Instance error_eq_dec : EqDecision error.
Proof. solve_decision. Defined.

(** [os.IsNotExist] *)
Definition os_IsNotExist (e : option error) : bool :=
  match e with
  | Some ENOENT => true
  | _ => false
  end.

(** *** int64 and [time.Duration] *)

Definition int64_min : Z := - 2 ^ 63.
Definition int64_max : Z := 2 ^ 63 - 1.

Definition in_int64 (z : Z) : bool := (int64_min <=? z) && (z <=? int64_max).

(** Signed 64-bit wrap-around, as Go's [*] on [int64] has it. *)
Definition wrap64 (z : Z) : Z := (z + 2 ^ 63) mod 2 ^ 64 - 2 ^ 63.

(** [time.Duration] is an [int64] count of nanoseconds. *)
Definition Duration := Z.
Definition time_Minute : Duration := 60 * 1000000000.
Definition Duration_mul (a b : Duration) : Duration := wrap64 (a * b).

(** *** float32 *)

(** A [float32] is a binary32 datum: 24 bits of precision, infinities at
    exponent 128. *)
Definition float32 := spec_float.
Definition is_float32 (f : float32) : bool := valid_binary 24 128 f.

(** [f == 0]: both signed zeros compare equal to 0, nothing else does. *)
Definition float32_eq_zero (f : float32) : bool :=
  match f with
  | S754_zero _ => true
  | _ => false
  end.

(** The constant [3] as a binary32: 1.5 * 2^1. *)
Definition float32_three : float32 := S754_finite false 12582912 (-22).

(** What the conversion instruction of amd64 yields when the value does
    not fit ("integer indefinite"); the language leaves it to the
    implementation. *)
Definition int64_indefinite : Z := int64_min.

(** [int(f)]: the fraction is discarded (truncation towards zero). *)
Definition int_of_float32 (f : float32) : Z :=
  match f with
  | S754_zero _ => 0
  | S754_finite s m e =>
      let mag := if 0 <=? e then Z.pos m * 2 ^ e else Z.pos m / 2 ^ (- e) in
      let v := if s then - mag else mag in
      if in_int64 v then v else int64_indefinite
  | _ => int64_indefinite
  end.

(** *** Slices *)

(** A slice as [len]/[cap] see it: the elements and the reserved
    capacity. *)
Record Slice (A : Type) : Type := mkSlice { elems : list A; cap : Z }.
Arguments mkSlice {A} elems cap.
Arguments elems {A} s.
Arguments cap {A} s.

Definition len {A} (s : Slice A) : Z := Z.of_nat (length (elems s)).

(** The nil slice, the zero value of a slice field. *)
Definition nil_slice {A} : Slice A := mkSlice [] 0.

(** [runtime.makeslice] refuses a capacity that is negative or whose
    storage exceeds the addressable maximum (2^48 bytes of 8-byte
    pointers on amd64). *)
Definition max_slice_cap : Z := 2 ^ 45.

Definition make_slice {A} (c : Z) : Outcome (Slice A) :=
  if (c <? 0) || (max_slice_cap <? c)
  then Panic "makeslice: cap out of range"
  else Ret (mkSlice [] c).

(** [append(s, x)]: in place while there is room, otherwise into a larger
    array whose capacity the runtime chooses ([grow], given the old
    capacity). *)
Definition append {A} (grow : Z -> Z) (s : Slice A) (x : A) : Slice A :=
  if len s <? cap s
  then mkSlice (elems s ++ [x]) (cap s)
  else mkSlice (elems s ++ [x]) (grow (cap s)).

End Go.
Export Go.


(** ** The operating system: files, as [os] exposes them *)

Module OS.

(** The state of the file system the worker runs on. [fs_refused] holds the
    paths the system does not let the process look at (a directory on the
    way denies search): every operation on them fails, [Stat] included.
    [fs_readonly] holds the paths that can be looked at but neither created
    nor opened for writing (no write permission, a read-only mount).
    [fs_free] is the number of bytes that can still be written before the
    disk is full. *)
Record FileSys : Type := mkFS {
  fs_files : gmap string (list byte);
  fs_dirs : gset string;
  fs_refused : gset string;
  fs_readonly : gset string;
  fs_free : Z
}.

Definition O_WRONLY : Z := 1.
Definition O_RDWR : Z := 2.
Definition O_CREATE : Z := 64.
Definition O_TRUNC : Z := 512.
Definition O_APPEND : Z := 1024.

Definition has_flag (flag bit : Z) : bool := negb (Z.land flag bit =? 0).

(** An [os.File] behind its pointer. *)
Record File : Type := mkFile { f_name : string; f_flag : Z; f_closed : bool }.

Definition set_files (fs : FileSys) (m : gmap string (list byte)) : FileSys :=
  mkFS m (fs_dirs fs) (fs_refused fs) (fs_readonly fs) (fs_free fs).

(** The flags ask for writing. *)
Definition wants_write (flag : Z) : bool :=
  has_flag flag O_WRONLY || has_flag flag O_RDWR.

(** [os.MkdirAll(path, perm)]: nothing to do when the directory exists. *)
Definition os_MkdirAll (fs : FileSys) (path : string) : FileSys * option error :=
  if bool_decide (path = "") then (fs, Some ENOENT)
  else if bool_decide (path ∈ fs_refused fs) then (fs, Some EACCES)
  else match fs_files fs !! path with
       | Some _ => (fs, Some ENOTDIR)
       | None =>
           if bool_decide (path ∈ fs_dirs fs) then (fs, None)
           else if bool_decide (path ∈ fs_readonly fs) then (fs, Some EACCES)
           else (mkFS (fs_files fs) ({[path]} ∪ fs_dirs fs) (fs_refused fs)
                      (fs_readonly fs) (fs_free fs),
                 None)
       end.

(** [os.Stat(name)], of which the program reads the error only. *)
Definition os_Stat (fs : FileSys) (name : string) : option error :=
  if bool_decide (name ∈ fs_refused fs) then Some EACCES
  else match fs_files fs !! name with
       | Some _ => None
       | None => if bool_decide (name ∈ fs_dirs fs) then None else Some ENOENT
       end.

(** [os.OpenFile(name, flag, perm)]: a missing file is created only under
    [O_CREATE]; an existing one is emptied under [O_TRUNC]. Where the
    system allows no writing, a file is neither created nor opened for
    writing. *)
Definition os_OpenFile (fs : FileSys) (name : string) (flag : Z)
  : FileSys * (File + error) :=
  if bool_decide (name ∈ fs_refused fs) then (fs, inr EACCES)
  else match fs_files fs !! name with
       | Some _ =>
           if bool_decide (name ∈ fs_readonly fs) && wants_write flag
           then (fs, inr EACCES)
           else
             let fs' := if has_flag flag O_TRUNC
                        then set_files fs (<[name := []]> (fs_files fs))
                        else fs in
             (fs', inl (mkFile name flag false))
       | None =>
           if has_flag flag O_CREATE
           then if bool_decide (name ∈ fs_readonly fs) then (fs, inr EACCES)
                else (set_files fs (<[name := []]> (fs_files fs)),
                      inl (mkFile name flag false))
           else (fs, inr ENOENT)
       end.

(** [os.Create(name)] *)
Definition os_Create (fs : FileSys) (name : string)
  : FileSys * (File + error) :=
  os_OpenFile fs name (Z.lor O_RDWR (Z.lor O_CREATE O_TRUNC)).

(** [Close] of an [os.File]. *)
Definition File_Close (f : File) : File * option error :=
  if f_closed f then (f, Some ErrClosed)
  else (mkFile (f_name f) (f_flag f) true, None).

(** [Write] of an [os.File] opened for appending: the bytes go to the
    end of the file, as many of them as the disk still takes. *)
Definition File_Write (fs : FileSys) (f : File) (p : list byte)
  : FileSys * Z * option error :=
  if f_closed f then (fs, 0, Some ErrClosed)
  else if negb (has_flag (f_flag f) O_WRONLY || has_flag (f_flag f) O_RDWR)
  then (fs, 0, Some EBADF)
  else
    let n := Z.min (Z.of_nat (length p)) (Z.max 0 (fs_free fs)) in
    let old := default [] (fs_files fs !! f_name f) in
    (mkFS (<[f_name f := old ++ take (Z.to_nat n) p]> (fs_files fs))
          (fs_dirs fs) (fs_refused fs) (fs_readonly fs) (fs_free fs - n),
     n,
     if n <? Z.of_nat (length p) then Some ENOSPC else None).

(** [ioutil.ReadFile(name)] *)
Definition ioutil_ReadFile (fs : FileSys) (name : string) : list byte + error :=
  if bool_decide (name ∈ fs_refused fs) then inr EACCES
  else match fs_files fs !! name with
       | Some content => inl content
       | None => inr ENOENT
       end.

End OS.
Export OS.

(** ** [bufio.Writer] over an [os.File] *)

Module Bufio.

(** [bw_data] is [buf[0:n]], the bytes waiting in the buffer; [bw_size] is
    [len(buf)]. The error of a failed write to the file is kept: every later
    call returns it. *)
Record Writer : Type := mkWriter {
  bw_err : option error;
  bw_data : list byte;
  bw_size : positive;
  bw_wr : File
}.

Definition defaultBufSize : positive := 4096.

Definition NewWriter (f : File) : Writer := mkWriter None [] defaultBufSize f.

Definition Buffered (b : Writer) : Z := Z.of_nat (length (bw_data b)).
Definition Available (b : Writer) : Z := Z.pos (bw_size b) - Buffered b.

(** [Flush]: hand the buffered bytes to the file; what the file did not take
    stays in the buffer and the error sticks. *)
Definition Flush (fs : FileSys) (b : Writer) : FileSys * Writer * option error :=
  match bw_err b with
  | Some e => (fs, b, Some e)
  | None =>
      if Buffered b =? 0 then (fs, b, None)
      else
        let '(fs', n, e) := File_Write fs (bw_wr b) (bw_data b) in
        let e := match e with
                 | None => if n <? Buffered b then Some ErrShortWrite else None
                 | Some e => Some e
                 end in
        match e with
        | Some e =>
            (fs',
             mkWriter (Some e) (drop (Z.to_nat n) (bw_data b)) (bw_size b) (bw_wr b),
             Some e)
        | None => (fs', mkWriter None [] (bw_size b) (bw_wr b), None)
        end
  end.

(** [n := copy(b.buf[b.n:], s); b.n += n] *)
Definition copy_in (b : Writer) (s : list byte) : Writer * Z :=
  let n := Z.max 0 (Z.min (Available b) (Z.of_nat (length s))) in
  (mkWriter (bw_err b) (bw_data b ++ take (Z.to_nat n) s) (bw_size b) (bw_wr b), n).

(** [len(s) > b.Available() && b.err == nil] *)
Definition loop_cond (b : Writer) (s : list byte) : bool :=
  (Available b <? Z.of_nat (length s)) && bool_decide (bw_err b = None).

Definition loop_measure (b : Writer) (s : list byte) : nat :=
  match bw_err b with
  | Some _ => 0%nat
  | None => (1 + 2 * length s + (if (0 <? Available b)%Z then 0 else 1))%nat
  end.

Definition inspect {A} (a : A) : {b : A | a = b} := exist _ a eq_refl.

(** The loop of [WriteString]: while the string does not fit, fill the
    buffer and flush it. Returns the rest of the string and the count of
    bytes taken so far. *)
Equations? WriteString_loop (fs : FileSys) (b : Writer) (s : list byte) (nn : Z)
  : FileSys * Writer * list byte * Z by wf (loop_measure b s) lt :=
WriteString_loop fs b s nn with inspect (loop_cond b s) := {
  | exist _ false _ := (fs, b, s, nn)
  | exist _ true Hc :=
      let bn := copy_in b s in
      let r := Flush fs (fst bn) in
      WriteString_loop (fst (fst r)) (snd (fst r))
                       (drop (Z.to_nat (snd bn)) s) (nn + snd bn) }.
Proof.
  unfold loop_cond in Hc. apply andb_true_iff in Hc as [Hlt Herr].
  apply Z.ltb_lt in Hlt. apply bool_decide_eq_true in Herr.
  clear WriteString_loop. subst r bn.
  unfold loop_measure, Flush, copy_in, Available, Buffered in *.
  cbn [fst snd bw_err bw_data bw_size bw_wr]. rewrite !Herr.
  set (k := Z.to_nat _) in *.
  assert (Hk : k = Z.to_nat (Z.max 0 (Z.pos (bw_size b) - Z.of_nat (length (bw_data b)))))
    by (subst k; lia).
  clearbody k.
  destruct (Z.of_nat (length (bw_data b ++ take k s)) =? 0) eqn:Hz.
  - apply Z.eqb_eq in Hz. rewrite length_app, length_take in Hz.
    cbn [fst snd bw_err bw_data bw_size bw_wr]. rewrite ?Herr.
    rewrite length_app, length_take, length_drop.
    repeat match goal with
           | |- context [(?x <? ?y)%Z] => destruct (Z.ltb_spec x y)
           end; lia.
  - destruct (File_Write fs (bw_wr b) _) as [[fs' n] e].
    destruct e as [e|]; cbn [fst snd bw_err bw_data bw_size bw_wr]; [lia|].
    destruct (n <? _); cbn [fst snd bw_err bw_data bw_size bw_wr]; [lia|].
    rewrite length_drop. cbn [length].
    repeat match goal with
           | |- context [(?x <? ?y)%Z] => destruct (Z.ltb_spec x y)
           end; lia.
Qed.

(** [WriteString(s)]: the count of bytes taken and the error. *)
Definition WriteString (fs : FileSys) (b : Writer) (s : list byte)
  : FileSys * Writer * Z * option error :=
  let '(fs1, b1, s1, nn) := WriteString_loop fs b s 0 in
  match bw_err b1 with
  | Some e => (fs1, b1, nn, Some e)
  | None => let bn := copy_in b1 s1 in (fs1, fst bn, nn + snd bn, None)
  end.

End Bufio.

(** ** The consumer: [consumers/gcpconsumer.go] *)

(** A [pubsub.Message]: the program reads [Data] and calls [Ack] or [Nack]. *)
Record Message : Type := mkMessage { ID : string; Data : list byte }.

#[global] Instance byte_eq_dec : EqDecision byte.
Proof.
  intros x y. destruct (Byte.eqb x y) eqn:E.
  - left. by apply Byte.byte_dec_bl.
  - right. intros ->. rewrite Byte.byte_dec_lb in E; done.
Defined.

#[global] Instance Message_eq_dec : EqDecision Message.
Proof. solve_decision. Defined.

(** A [log.Logger] over the rotating file of [lumberjack]. *)
Record Logger : Type := mkLogger { lg_filename : string; lg_prefix : string }.

Record WorkerInfo : Type := mkWorkerInfo {
  Message_log_path : string;
  Worker_log_path : string;
  Batchsize : float32;
  Maxwaittime : Duration;
  Worker_logger_info : option Logger;
  Worker_logger_error : option Logger
}.

(** The mutex [mu] has no field here: it makes the bodies of the receive
    callback run one after the other, which is how [run_handlers] below
    runs them. *)
Record GCPInfo : Type := mkGCPInfo {
  Project : string;
  Topic : string;
  Subscription : string;
  Keyfile : string;
  Worker : WorkerInfo;
  batch : Slice Message;
  writer : option Bufio.Writer
}.

Definition set_batch (g : GCPInfo) (b : Slice Message) : GCPInfo :=
  mkGCPInfo (Project g) (Topic g) (Subscription g) (Keyfile g) (Worker g) b (writer g).

Definition set_writer (g : GCPInfo) (w : option Bufio.Writer) : GCPInfo :=
  mkGCPInfo (Project g) (Topic g) (Subscription g) (Keyfile g) (Worker g) (batch g) w.

Definition set_Worker (g : GCPInfo) (w : WorkerInfo) : GCPInfo :=
  mkGCPInfo (Project g) (Topic g) (Subscription g) (Keyfile g) w (batch g) (writer g).

(** What the calls of the program do to its collaborators, in order. *)
Inductive Event : Type :=
| EvLog (l : Logger) (line : string)
| EvReceive (subscription : string) (timeout : Duration)
| EvDeliver (m : Message)
| EvWriteString (s : list byte) (e : option error)
| EvAck (m : Message)
| EvNack (m : Message)
| EvWriterFlush (e : option error)
| EvClose (f : File).

(** The libraries the program is linked with and the runtime it runs on.
    [json_Unmarshal] decodes the tagged fields into a zero [GCPInfo];
    [pubsub_Receive] gives the messages of one session in the order in which
    the callback takes the lock for them, and the error [Receive] returns
    at the end; [growslice] is the capacity [append] picks when it must
    reallocate. [log_Println] is what one [Println] on a logger does to the
    disk: [log] puts the prefix and the time before the line and hands it to
    lumberjack, which creates the directory and the file when they are
    missing, appends the line, and rotates, compresses and removes old
    files as it sees fit; [Println] returns nothing, the error of the write
    is dropped. *)
Record World : Type := mkWorld {
  json_Unmarshal : list byte -> option GCPInfo;
  pubsub_NewClient : string -> string -> option error;
  pubsub_Receive : string -> Duration -> list Message * option error;
  growslice : Z -> Z;
  log_Println : Logger -> string -> FileSys -> FileSys
}.

Definition log_path (logpath filename : string) : string :=
  logpath +:+ "/" +:+ filename +:+ ".log".

Definition err_mkdir : error :=
  errors_New "Error: Unable to create target log files path".
Definition err_create : error :=
  errors_New "Error: Unable to create target log file".

(** [CreateMessageLogFiles] *)
Definition CreateMessageLogFiles (fs : FileSys) (logpath filename : string)
  : FileSys * option error :=
  let '(fs1, err) := os_MkdirAll fs logpath in
  match err with
  | Some _ => (fs1, Some err_mkdir)
  | None =>
      if os_IsNotExist (os_Stat fs1 (log_path logpath filename))
      then
        let '(fs2, r) := os_Create fs1 (log_path logpath filename) in
        (* defer file.Close(): on the nil file of a failed Create the call
           returns an error and does nothing *)
        match r with
        | inr _ => (fs2, Some err_create)
        | inl _ => (fs2, None)
        end
      else (fs1, None)
  end.

Definition err_read : error :=
  errors_New "ERROR: Unable to read the json file".
Definition err_unmarshal : error :=
  errors_New "ERROR: Unable to unmarshal config file contents. Check if valid json or if some parameter missing".
Definition err_msglog : error :=
  errors_New "ERROR: Unable to create message log files. Check permissions".
Definition err_client : error :=
  errors_New "ERROR: Unable to create a pub/sub client. Is the credentials file exported?".
Definition err_open : error :=
  errors_New "Unable to Open events output log file".
Definition err_receive : error :=
  errors_New "ERROR:error to receive messages, is the pub/sub up and does the user logmonitor has view permissions?".

(** The fields [encoding/json] cannot reach keep their zero value. *)
Definition decoded_into_zero (d : GCPInfo) : GCPInfo :=
  set_writer (set_batch d nil_slice) None.

(** [int(gcpinfo.Worker.Batchsize)], the threshold the callback compares
    with and the capacity [Flush] reserves. *)
Definition threshold (g : GCPInfo) : Z := int_of_float32 (Batchsize (Worker g)).

(** [NewGCPclient]: the pointer and the error it returns, [None] for nil. *)
Definition NewGCPclient (w : World) (fs : FileSys) (configfile : string)
  : FileSys * Outcome (option GCPInfo * option error) :=
  match ioutil_ReadFile fs configfile with
  | inr _ => (fs, Ret (None, Some err_read))
  | inl content =>
      match json_Unmarshal w content with
      | None => (fs, Ret (None, Some err_unmarshal))
      | Some decoded =>
          let g0 := decoded_into_zero decoded in
          let wk := Worker g0 in
          let wlp := if bool_decide (Worker_log_path wk = "")
                     then "/tmp/" else Worker_log_path wk in
          let l := wlp +:+ "/" +:+ configfile +:+ ".log" in
          let wk1 := mkWorkerInfo (Message_log_path wk) wlp (Batchsize wk)
                       (Maxwaittime wk)
                       (Some (mkLogger l "INFO: ")) (Some (mkLogger l "ERROR: ")) in
          let '(fs1, err) :=
            CreateMessageLogFiles fs (Message_log_path wk1) (Subscription g0) in
          match err with
          | Some _ => (fs1, Ret (None, Some err_msglog))
          | None =>
              (fs1,
               bind (make_slice (int_of_float32 (Batchsize wk1))) (fun b =>
                 let bs := if float32_eq_zero (Batchsize wk1)
                           then float32_three else Batchsize wk1 in
                 let mw := if Maxwaittime wk1 =? 0 then 10 else Maxwaittime wk1 in
                 let wk2 := mkWorkerInfo (Message_log_path wk1) (Worker_log_path wk1)
                              bs mw
                              (Worker_logger_info wk1) (Worker_logger_error wk1) in
                 Ret (Some (set_batch (set_Worker g0 wk2) b), None)))
          end
      end
  end.

(** [string(msg.Data) + "\n"] *)
Definition record_of (msg : Message) : list byte := Data msg ++ [x0a].

(** The [for _, msg := range gcpinfo.batch] of [Flush]. *)
Fixpoint Flush_loop (fs : FileSys) (bw : Bufio.Writer) (msgs : list Message)
  : FileSys * Bufio.Writer * list Event :=
  match msgs with
  | [] => (fs, bw, [])
  | msg :: rest =>
      let '(fs1, bw1, _, err) := Bufio.WriteString fs bw (record_of msg) in
      let verdict := match err with
                     | Some _ => EvNack msg
                     | None => EvAck msg
                     end in
      let '(fs2, bw2, evs) := Flush_loop fs1 bw1 rest in
      (fs2, bw2, EvWriteString (record_of msg) err :: verdict :: evs)
  end.

(** [Flush]. A nil [writer] is dereferenced by [WriteString] or, on an
    empty batch, by the writer's [Flush]. *)
Definition Flush (fs : FileSys) (g : GCPInfo)
  : Outcome (FileSys * GCPInfo * list Event) :=
  match writer g with
  | None => Panic "invalid memory address or nil pointer dereference"
  | Some bw =>
      let '(fs1, bw1, evs) := Flush_loop fs bw (elems (batch g)) in
      let '(fs2, bw2, ferr) := Bufio.Flush fs1 bw1 in
      bind (make_slice (threshold g)) (fun b =>
        Ret (fs2, set_batch (set_writer g (Some bw2)) b,
             evs ++ [EvWriterFlush ferr]))
  end.

(** The callback handed to [Subscription.Receive], between [Lock] and
    [Unlock]. *)
Definition handler (w : World) (fs : FileSys) (g : GCPInfo) (msg : Message)
  : Outcome (FileSys * GCPInfo * list Event) :=
  let g1 := set_batch g (append (growslice w) (batch g) msg) in
  if threshold g1 <? len (batch g1)
  then bind (Flush fs g1) (fun '(fs', g', evs) => Ret (fs', g', EvDeliver msg :: evs))
  else Ret (fs, g1, [EvDeliver msg]).

(** The callbacks of one session, in the order in which they take the
    lock. *)
Fixpoint run_handlers (w : World) (fs : FileSys) (g : GCPInfo) (msgs : list Message)
  : Outcome (FileSys * GCPInfo * list Event) :=
  match msgs with
  | [] => Ret (fs, g, [])
  | msg :: rest =>
      bind (handler w fs g msg) (fun '(fs1, g1, evs1) =>
        bind (run_handlers w fs1 g1 rest) (fun '(fs2, g2, evs2) =>
          Ret (fs2, g2, evs1 ++ evs2)))
  end.

Definition sink_path (g : GCPInfo) : string :=
  log_path (Message_log_path (Worker g)) (Subscription g).

Definition sink_flags : Z := Z.lor O_WRONLY O_APPEND.

(** [gcpinfo.Worker.Maxwaittime*time.Minute] *)
Definition session_timeout (g : GCPInfo) : Duration :=
  Duration_mul (Maxwaittime (Worker g)) time_Minute.

(** The deferred [file.Close()]: the writer keeps the closed file. *)
Definition close_writer_file (g : GCPInfo) : GCPInfo :=
  match writer g with
  | Some bw =>
      set_writer g (Some (Bufio.mkWriter (Bufio.bw_err bw) (Bufio.bw_data bw)
                            (Bufio.bw_size bw) (File_Close (Bufio.bw_wr bw)).1))
  | None => g
  end.

(** [Consume]: the error it returns, with the state it leaves and the calls
    it made. The two lines it logs go to the worker log, on the same disk
    as the sink. *)
Definition Consume (w : World) (fs : FileSys) (g : GCPInfo)
  : Outcome (FileSys * GCPInfo * option error * list Event) :=
  match Worker_logger_info (Worker g) with
  | None => Panic "invalid memory address or nil pointer dereference"
  | Some lg =>
      let started := EvLog lg "Starting Receiver" in
      let fs0 := log_Println w lg "Starting Receiver" fs in
      match pubsub_NewClient w (Project g) (Keyfile g) with
      | Some _ => Ret (fs0, g, Some err_client, [started])
      | None =>
          match os_OpenFile fs0 (sink_path g) sink_flags with
          | (fs1, inr _) => Ret (fs1, g, Some err_open, [started])
          | (fs1, inl file) =>
              let g1 := set_writer g (Some (Bufio.NewWriter file)) in
              let '(msgs, rerr) :=
                pubsub_Receive w (Subscription g1) (session_timeout g1) in
              bind (run_handlers w fs1 g1 msgs) (fun '(fs2, g2, evs) =>
                let called := started
                                :: EvReceive (Subscription g1) (session_timeout g1)
                                :: evs in
                match rerr with
                | Some _ =>
                    Ret (fs2, close_writer_file g2, Some err_receive,
                         called ++ [EvClose file])
                | None =>
                    Ret (log_Println w lg "Closing GCP Receiver" fs2,
                         close_writer_file g2, None,
                         called ++ [EvLog lg "Closing GCP Receiver"; EvClose file])
                end)
          end
      end
  end.

(** ** Reading a trace *)

(** The [Ack] ([true]) and [Nack] ([false]) calls, in order. *)
Definition verdict_of (ev : Event) : option (Message * bool) :=
  match ev with
  | EvAck m => Some (m, true)
  | EvNack m => Some (m, false)
  | _ => None
  end.
Definition verdicts (tr : list Event) : list (Message * bool) := omap verdict_of tr.

(** The [WriteString] calls with the error each returned. *)
Definition write_of (ev : Event) : option (list byte * option error) :=
  match ev with
  | EvWriteString s e => Some (s, e)
  | _ => None
  end.
Definition writes (tr : list Event) : list (list byte * option error) :=
  omap write_of tr.

(** The calls of the writer's [Flush] made by the program itself. *)
Definition writer_flush_of (ev : Event) : option (option error) :=
  match ev with
  | EvWriterFlush e => Some e
  | _ => None
  end.
Definition writer_flushes (tr : list Event) : list (option error) :=
  omap writer_flush_of tr.

(** The messages the callback was invoked on. *)
Definition delivery_of (ev : Event) : option Message :=
  match ev with
  | EvDeliver m => Some m
  | _ => None
  end.
Definition deliveries (tr : list Event) : list Message := omap delivery_of tr.

(** A nil error. *)
Definition succeeded (e : option error) : bool :=
  match e with
  | None => true
  | Some _ => false
  end.

(** What [Flush] does for one message whose [WriteString] returned [e]. *)
Definition message_events (m : Message) (e : option error) : list Event :=
  [EvWriteString (record_of m) e; if succeeded e then EvAck m else EvNack m].

(** [make] accepts the capacity [Flush] asks for. *)
Definition threshold_ok (g : GCPInfo) : bool :=
  (0 <=? threshold g) && (threshold g <=? max_slice_cap).

(** The bytes on their way to the sink: those in the file, then those still
    in the buffer. *)
Definition file_content (fs : FileSys) (name : string) : list byte :=
  default [] (fs_files fs !! name).

Definition sink_stream (fs : FileSys) (bw : Bufio.Writer) : list byte :=
  file_content fs (f_name (Bufio.bw_wr bw)) ++ Bufio.bw_data bw.

(** The file takes writes: it is open, and was opened for writing. *)
Definition writable (f : File) : bool :=
  negb (f_closed f)
  && (has_flag (f_flag f) O_WRONLY || has_flag (f_flag f) O_RDWR).

(** The free space of the disk once the buffered bytes are written. *)
Definition headroom (fs : FileSys) (bw : Bufio.Writer) : Z :=
  fs_free fs - Bufio.Buffered bw.

(** Nothing is left in the buffer that a [Flush] would still hand over. *)
Definition quiescent (bw : Bufio.Writer) : bool :=
  match Bufio.bw_err bw with
  | Some _ => true
  | None => bool_decide (Bufio.bw_data bw = [])
  end.



(** ** Reading a session *)

(** The files [Consume] closed. *)
Definition close_of (ev : Event) : option File :=
  match ev with
  | EvClose f => Some f
  | _ => None
  end.
Definition closes (tr : list Event) : list File := omap close_of tr.

(** The calls of [Receive], with the subscription and the time limit. *)
Definition receive_of (ev : Event) : option (string * Duration) :=
  match ev with
  | EvReceive sub limit => Some (sub, limit)
  | _ => None
  end.
Definition receives (tr : list Event) : list (string * Duration) :=
  omap receive_of tr.

(** The lines given to the loggers. *)
Definition log_of (ev : Event) : option (Logger * string) :=
  match ev with
  | EvLog l line => Some (l, line)
  | _ => None
  end.
Definition logs (tr : list Event) : list (Logger * string) := omap log_of tr.

(** The disk once the lines of a trace are logged, and nothing else is
    done to it. *)
Definition logged (w : World) (lines : list (Logger * string)) (fs : FileSys)
  : FileSys :=
  fold_left (fun fs1 (l : Logger * string) => log_Println w l.1 l.2 fs1) lines fs.

(** The logger [lg] leaves the file [name] alone: whatever line it logs,
    on whatever disk, the file is afterwards what it was before. That is so
    for a sink that is neither the worker log nor one of its backups. *)
Definition spares (w : World) (lg : Logger) (name : string) : Prop :=
  forall line fs, fs_files (log_Println w lg line fs) !! name = fs_files fs !! name.

(** The records of a list of messages, one after the other. *)
Definition records_of (msgs : list Message) : list byte :=
  concat (map record_of msgs).

(** From [fs] to [fs'] the file [name] only grew at its end, and nothing
    else on the disk changed but the free space. *)
Definition appended_to (name : string) (fs fs' : FileSys) : Prop :=
  (exists suffix, file_content fs' name = file_content fs name ++ suffix)
  /\ (forall p, p <> name -> fs_files fs' !! p = fs_files fs !! p)
  /\ fs_dirs fs' = fs_dirs fs
  /\ fs_refused fs' = fs_refused fs
  /\ fs_readonly fs' = fs_readonly fs.

(** A writer without error and with an empty buffer, over a file that
    takes writes. *)
Definition healthy (bw : Bufio.Writer) : bool :=
  succeeded (Bufio.bw_err bw)
  && bool_decide (Bufio.bw_data bw = [])
  && writable (Bufio.bw_wr bw).

(** ** A worker to run the definitions on *)

Module Sample.

Definition msg_a : Message := mkMessage "1" ["a"%byte].
Definition msg_b : Message := mkMessage "2" ["b"%byte; "c"%byte; "d"%byte].
Definition msg_c : Message := mkMessage "3" ["e"%byte].

(** A message whose record, six bytes, is larger than a 4-byte buffer. *)
Definition msg_long : Message :=
  mkMessage "4" ["f"%byte; "g"%byte; "h"%byte; "i"%byte; "j"%byte].

(** [2] as a binary32. *)
Definition float32_two : float32 := S754_finite false 8388608 (-22).

(** What [worker.json] decodes to: batch size 2, no waiting time given. *)
Definition config : GCPInfo :=
  mkGCPInfo "box-all-events" "AllEvents" "events" "key.json"
    (mkWorkerInfo "/var/log/events" "" float32_two 0 None None)
    nil_slice None.

(** The same without a batch size. *)
Definition config_no_batchsize : GCPInfo :=
  mkGCPInfo "box-all-events" "AllEvents" "events" "key.json"
    (mkWorkerInfo "/var/log/events" "" (S754_zero false) 0 None None)
    nil_slice None.

(** A logger that appends the prefixed line to its file, which it creates
    when missing, for as long as the disk takes it. *)
Definition println (lg : Logger) (line : string) (fs : FileSys) : FileSys :=
  match os_OpenFile fs (lg_filename lg) (Z.lor O_CREATE (Z.lor O_WRONLY O_APPEND)) with
  | (fs1, inl f) =>
      (File_Write fs1 f (list_byte_of_string (lg_prefix lg +:+ line) ++ [x0a])).1.1
  | (fs1, inr _) => fs1
  end.

Definition world (decoded : option GCPInfo) (client : option error)
    (msgs : list Message) (rerr : option error) : World :=
  mkWorld (fun _ => decoded) (fun _ _ => client) (fun _ _ => (msgs, rerr))
    (fun c => 2 * c + 1) println.

(** A disk with [worker.json] on it and [free] bytes left. *)
Definition disk (free : Z) : FileSys :=
  mkFS {[ "worker.json" := [] ]} ∅ ∅ ∅ free.

(** The disk once the sink file is there. *)
Definition disk_with_sink (free : Z) : FileSys :=
  mkFS {[ "worker.json" := []; "/var/log/events/events.log" := [] ]}
       {[ "/var/log/events" ]} ∅ ∅ free.

Definition sink_file : File :=
  mkFile "/var/log/events/events.log" sink_flags false.

Definition info_logger : Logger := mkLogger "/tmp//worker.json.log" "INFO: ".
Definition error_logger : Logger := mkLogger "/tmp//worker.json.log" "ERROR: ".

(** The client [NewGCPclient] builds from [config]. *)
Definition client : GCPInfo :=
  mkGCPInfo "box-all-events" "AllEvents" "events" "key.json"
    (mkWorkerInfo "/var/log/events" "/tmp/" float32_two 10
       (Some info_logger) (Some error_logger))
    (mkSlice [] 2) None.

(** The client in the middle of a session, with a writer whose buffer holds
    [size] bytes, and [msgs] in the batch. *)
Definition in_session (size : positive) (msgs : list Message) : GCPInfo :=
  set_batch
    (set_writer client (Some (Bufio.mkWriter None [] size sink_file)))
    (mkSlice msgs 4).

(** The session client once [Consume] has returned: the writer is still
    there, over the closed file. *)
Definition after_session (msgs : list Message) : GCPInfo :=
  close_writer_file (in_session 4096 msgs).

(** The session client with a writer that kept the error [e]. *)
Definition failed_writer (e : error) (msgs : list Message) : GCPInfo :=
  set_batch
    (set_writer client (Some (Bufio.mkWriter (Some e) [] 4096 sink_file)))
    (mkSlice msgs 4).

(** A nearly full disk whose sink file already holds a line. *)
Definition disk_with_old_sink : FileSys :=
  mkFS {[ "worker.json" := [];
          "/var/log/events/events.log" := ["o"%byte; "l"%byte; "d"%byte; x0a] ]}
       {[ "/var/log/events" ]} ∅ ∅ 3.




(** [worker.json] with batch size -1 and a waiting time of 30 minutes. *)
Definition config_negative : GCPInfo :=
  mkGCPInfo "box-all-events" "AllEvents" "events" "key.json"
    (mkWorkerInfo "/var/log/events" "" (S754_finite true 8388608 (-23)) 30 None None)
    nil_slice None.

(** [worker.json] with a waiting time of 153722868 minutes. *)
Definition config_long_wait : GCPInfo :=
  mkGCPInfo "box-all-events" "AllEvents" "events" "key.json"
    (mkWorkerInfo "/var/log/events" "" float32_two 153722868 None None)
    nil_slice None.

(** A disk on which the log directory exists and nothing can be created. *)
Definition disk_readonly : FileSys :=
  mkFS {[ "worker.json" := [] ]} {[ "/var/log/events" ]} ∅
       {[ "/var/log/events/events.log" ]} 100.

(** [worker.json] without a message log path. *)
Definition config_no_path : GCPInfo :=
  mkGCPInfo "box-all-events" "AllEvents" "events" "key.json"
    (mkWorkerInfo "" "" float32_two 0 None None)
    nil_slice None.

End Sample.

(** * Properties *)

(** ** Slices and conversions *)

Lemma make_slice_ok {A} (c : Z) :
  (0 <=? c) && (c <=? max_slice_cap) = true ->
  make_slice (A := A) c = Ret (mkSlice [] c).
Proof.
  intros H. apply andb_true_iff in H as [H1 H2].
  apply Z.leb_le in H1, H2. unfold make_slice.
  destruct (Z.ltb_spec c 0); [lia|].
  destruct (Z.ltb_spec max_slice_cap c); [lia|]. reflexivity.
Qed.

Lemma make_slice_ret {A} (c : Z) (s : Slice A) :
  make_slice c = Ret s -> s = mkSlice [] c /\ 0 <= c <= max_slice_cap.
Proof.
  unfold make_slice.
  destruct (Z.ltb_spec c 0); [discriminate|].
  destruct (Z.ltb_spec max_slice_cap c); [discriminate|].
  simpl. intros [= <-]. split; [reflexivity | lia].
Qed.

Lemma len_append {A} grow (s : Slice A) (x : A) :
  len (append grow s x) = len s + 1.
Proof.
  unfold append, len. destruct (_ <? _); simpl; rewrite length_app; simpl; lia.
Qed.

Lemma elems_append {A} grow (s : Slice A) (x : A) :
  elems (append grow s x) = elems s ++ [x].
Proof. unfold append. destruct (_ <? _); reflexivity. Qed.

Lemma float32_three_is_3 :
  is_float32 float32_three = true /\ int_of_float32 float32_three = 3.
Proof. split; reflexivity. Qed.

(** ** Construction: [NewGCPclient] *)

(** Every return of [NewGCPclient] is one of four: the three errors, each
    with a nil pointer, or a client with a nil error. *)
Lemma NewGCPclient_returns w fs configfile fs' p e :
  NewGCPclient w fs configfile = (fs', Ret (p, e)) ->
  (p = None /\ (e = Some err_read \/ e = Some err_unmarshal \/ e = Some err_msglog))
  \/ (exists g, p = Some g /\ e = None).
Proof.
  unfold NewGCPclient.
  destruct (ioutil_ReadFile fs configfile) as [content|]; [|intros [= <- <- <-]; auto].
  destruct (json_Unmarshal w content) as [d|]; [|intros [= <- <- <-]; auto 6].
  destruct (CreateMessageLogFiles _ _ _) as [fs1 [err|]]; [intros [= <- <- <-]; auto 6|].
  cbn [Worker_log_path Message_log_path Batchsize Maxwaittime].
  destruct (make_slice _) as [b|]; simpl; [|discriminate].
  intros [= <- <- <-]. right. eauto.
Qed.

(** C9. Whenever [NewGCPclient] returns a non-nil error, the client pointer
    it returns with it is nil. *)
Theorem NewGCPclient_error_nil_client w fs configfile fs' p e :
  NewGCPclient w fs configfile = (fs', Ret (p, e)) ->
  e <> None ->
  p = None.
Proof.
  intros H He. apply NewGCPclient_returns in H as [[Hp _]|(g & _ & ->)].
  - exact Hp.
  - contradiction.
Qed.

Lemma NewGCPclient_error_nil_client_witness :
  NewGCPclient (Sample.world (Some Sample.config) None [] None) (Sample.disk 100)
               "missing.json"
  = (Sample.disk 100, Ret (None, Some err_read))
  /\ (None : option GCPInfo) = None.
Proof.
  split; [vm_compute; reflexivity|].
  apply (NewGCPclient_error_nil_client
           (Sample.world (Some Sample.config) None [] None) (Sample.disk 100)
           "missing.json" (Sample.disk 100) None (Some err_read));
    [vm_compute; reflexivity | discriminate].
Defined.

(** What a successful construction did: it read and decoded the file,
    created the message log, made the batch with the capacity the decoded
    batch size converts to, and only then put the defaults in. *)
Lemma NewGCPclient_client w fs configfile fs' g :
  NewGCPclient w fs configfile = (fs', Ret (Some g, None)) ->
  exists content d,
    ioutil_ReadFile fs configfile = inl content
    /\ json_Unmarshal w content = Some d
    /\ CreateMessageLogFiles fs (Message_log_path (Worker d)) (Subscription d)
       = (fs', None)
    /\ batch g = mkSlice [] (int_of_float32 (Batchsize (Worker d)))
    /\ 0 <= int_of_float32 (Batchsize (Worker d)) <= max_slice_cap
    /\ Batchsize (Worker g)
       = (if float32_eq_zero (Batchsize (Worker d))
          then float32_three else Batchsize (Worker d))
    /\ Maxwaittime (Worker g)
       = (if Maxwaittime (Worker d) =? 0 then 10 else Maxwaittime (Worker d))
    /\ writer g = None
    /\ Subscription g = Subscription d
    /\ Message_log_path (Worker g) = Message_log_path (Worker d)
    /\ is_Some (Worker_logger_info (Worker g)).
Proof.
  unfold NewGCPclient.
  destruct (ioutil_ReadFile fs configfile) as [content|] eqn:Hrd; [|discriminate].
  destruct (json_Unmarshal w content) as [d|] eqn:Hd; [|discriminate].
  cbn [Worker_log_path Message_log_path Batchsize Maxwaittime Worker
       Subscription decoded_into_zero set_writer set_batch].
  destruct (CreateMessageLogFiles _ _ _) as [fs1 [err|]] eqn:Hcr; [discriminate|].
  destruct (make_slice _) as [b|] eqn:Hb; simpl; [|discriminate].
  intros [= <- <-]. apply make_slice_ret in Hb as [-> Hr].
  exists content, d. simpl. repeat split; try lia; eauto.
Qed.

(** The capacity [Flush] will ask [make] for is one [make] accepts. *)
Lemma NewGCPclient_threshold_ok w fs configfile fs' g :
  NewGCPclient w fs configfile = (fs', Ret (Some g, None)) ->
  threshold_ok g = true.
Proof.
  intros H. apply NewGCPclient_client in H
    as (content & d & _ & _ & _ & _ & Hr & Hb & _).
  unfold threshold_ok, threshold. rewrite Hb.
  destruct (float32_eq_zero _); [reflexivity|].
  apply andb_true_iff. split; apply Z.leb_le; lia.
Qed.

(** With a batch size in the configuration, the batch is created empty with
    the threshold as its capacity. *)
Lemma NewGCPclient_capacity_configured w fs configfile fs' g content d :
  NewGCPclient w fs configfile = (fs', Ret (Some g, None)) ->
  ioutil_ReadFile fs configfile = inl content ->
  json_Unmarshal w content = Some d ->
  float32_eq_zero (Batchsize (Worker d)) = false ->
  elems (batch g) = [] /\ cap (batch g) = threshold g.
Proof.
  intros H Hc Hd Hz. apply NewGCPclient_client in H
    as (content' & d' & Hc' & Hd' & _ & Hbatch & _ & Hb & _).
  rewrite Hc in Hc'. injection Hc' as <-. rewrite Hd in Hd'. injection Hd' as <-.
  unfold threshold. rewrite Hb, Hz, Hbatch. split; reflexivity.
Qed.

(** Without one, the batch is made before the default is put in: its
    capacity is 0 while the threshold becomes 3. *)
Lemma NewGCPclient_capacity_default w fs configfile fs' g content d :
  NewGCPclient w fs configfile = (fs', Ret (Some g, None)) ->
  ioutil_ReadFile fs configfile = inl content ->
  json_Unmarshal w content = Some d ->
  float32_eq_zero (Batchsize (Worker d)) = true ->
  elems (batch g) = [] /\ cap (batch g) = 0 /\ threshold g = 3.
Proof.
  intros H Hc Hd Hz. apply NewGCPclient_client in H
    as (content' & d' & Hc' & Hd' & _ & Hbatch & _ & Hb & _).
  rewrite Hc in Hc'. injection Hc' as <-. rewrite Hd in Hd'. injection Hd' as <-.
  unfold threshold. rewrite Hb, Hz, Hbatch.
  destruct (Batchsize (Worker d)); try discriminate. repeat split; reflexivity.
Qed.

(** C6. The batch is created empty, but its capacity is the threshold only
    when a batch size is configured: on a configuration without batch size
    [NewGCPclient] returns a client whose batch has capacity 0 while its
    threshold is the default 3, because the batch is made before the
    default is put in. *)
Theorem NewGCPclient_unset_batchsize_capacity :
  exists fs' g,
    NewGCPclient (Sample.world (Some Sample.config_no_batchsize) None [] None)
                 (Sample.disk 100) "worker.json"
    = (fs', Ret (Some g, None))
    /\ elems (batch g) = []
    /\ cap (batch g) = 0
    /\ threshold g = 3.
Proof.
  eexists _, _. split; [vm_compute; reflexivity|].
  repeat split; reflexivity.
Qed.

(** A negative batch size makes [make] panic inside [NewGCPclient]. *)
Lemma NewGCPclient_negative_batchsize_panics :
  exists fs' reason,
    NewGCPclient
      (Sample.world
         (Some (set_Worker Sample.config
                  (mkWorkerInfo "/var/log/events" ""
                     (S754_finite true 8388608 (-23)) 0 None None)))
         None [] None)
      (Sample.disk 100) "worker.json"
    = (fs', Panic reason).
Proof. eexists _, _. vm_compute. reflexivity. Qed.

(** ** The buffered writer *)

(** Flushing twice is flushing once: after a failure the error sticks, after
    a success the buffer is empty. *)
Lemma Bufio_Flush_idempotent fs b :
  let r := Bufio.Flush fs b in Bufio.Flush r.1.1 r.1.2 = r.
Proof.
  unfold Bufio.Flush.
  destruct (Bufio.bw_err b) as [e|] eqn:He; cbn [fst snd]; [rewrite He; reflexivity|].
  destruct (Bufio.Buffered b =? 0) eqn:Hz; cbn [fst snd]; [rewrite He, Hz; reflexivity|].
  destruct (File_Write fs (Bufio.bw_wr b) (Bufio.bw_data b)) as [[fs' n] [e|]];
    [reflexivity|].
  destruct (n <? Bufio.Buffered b); reflexivity.
Qed.

(** The writer a [Flush] leaves behind holds nothing it would hand over. *)
Lemma Bufio_Flush_quiescent fs b : quiescent (Bufio.Flush fs b).1.2 = true.
Proof.
  unfold Bufio.Flush, quiescent.
  destruct (Bufio.bw_err b) as [e|] eqn:He; cbn [fst snd]; [rewrite He; reflexivity|].
  destruct (Bufio.Buffered b =? 0) eqn:Hz; cbn [fst snd].
  - rewrite He. apply bool_decide_eq_true. apply Z.eqb_eq in Hz.
    unfold Bufio.Buffered in Hz. destruct (Bufio.bw_data b); [reflexivity|].
    simpl in Hz. lia.
  - destruct (File_Write fs (Bufio.bw_wr b) (Bufio.bw_data b)) as [[fs' n] [e|]];
      [reflexivity|].
    destruct (n <? Bufio.Buffered b); reflexivity.
Qed.

(** On such a writer [Flush] touches neither the file nor the writer. *)
Lemma Bufio_Flush_of_quiescent fs b :
  quiescent b = true -> Bufio.Flush fs b = (fs, b, Bufio.bw_err b).
Proof.
  unfold Bufio.Flush, quiescent.
  destruct (Bufio.bw_err b) as [e|]; [reflexivity|].
  intros Hd. apply bool_decide_eq_true in Hd. unfold Bufio.Buffered.
  rewrite Hd. reflexivity.
Qed.

Lemma NewWriter_quiescent f : quiescent (Bufio.NewWriter f) = true.
Proof. reflexivity. Qed.

(** ** The loop of [Flush] *)

Section TraceOfMessages.

Variable msgs : list Message.

Lemma verdicts_message_events : forall results,
  length results = length msgs ->
  verdicts (concat (zip_with message_events msgs results))
  = zip_with (fun m e => (m, succeeded e)) msgs results.
Proof.
  induction msgs as [|m rest IH]; intros [|e results] Hlen; try discriminate;
    [reflexivity|].
  injection Hlen as Hlen. cbn [zip_with concat].
  unfold verdicts in *. rewrite omap_app, IH by exact Hlen.
  unfold message_events. destruct e; reflexivity.
Qed.

Lemma writes_message_events : forall results,
  length results = length msgs ->
  writes (concat (zip_with message_events msgs results))
  = zip_with (fun m e => (record_of m, e)) msgs results.
Proof.
  induction msgs as [|m rest IH]; intros [|e results] Hlen; try discriminate;
    [reflexivity|].
  injection Hlen as Hlen. cbn [zip_with concat].
  unfold writes in *. rewrite omap_app, IH by exact Hlen.
  unfold message_events. destruct e; reflexivity.
Qed.

Lemma writer_flushes_message_events : forall results,
  writer_flushes (concat (zip_with message_events msgs results)) = [].
Proof.
  induction msgs as [|m rest IH]; intros [|e results]; try reflexivity.
  cbn [zip_with concat]. unfold writer_flushes in *. rewrite omap_app, IH.
  unfold message_events. destruct e; reflexivity.
Qed.

Lemma deliveries_message_events : forall results,
  deliveries (concat (zip_with message_events msgs results)) = [].
Proof.
  induction msgs as [|m rest IH]; intros [|e results]; try reflexivity.
  cbn [zip_with concat]. unfold deliveries in *. rewrite omap_app, IH.
  unfold message_events. destruct e; reflexivity.
Qed.

Lemma fst_zip_with_results {B C} (f : Message -> B) (h : option error -> C) :
  forall results,
  length results = length msgs ->
  map fst (zip_with (fun m e => (f m, h e)) msgs results) = map f msgs.
Proof.
  induction msgs as [|m rest IH]; intros [|e results] Hlen; try discriminate;
    [reflexivity|].
  simpl. f_equal. apply IH. simpl in Hlen. congruence.
Qed.

End TraceOfMessages.

(** The loop calls [WriteString] once per message of the batch, in order,
    and [Ack] or [Nack] right after it, by the error it returned. *)
Lemma Flush_loop_trace : forall msgs fs bw,
  exists results,
    length results = length msgs
    /\ (Flush_loop fs bw msgs).2 = concat (zip_with message_events msgs results).
Proof.
  induction msgs as [|m rest IH]; intros fs bw.
  - exists []. split; reflexivity.
  - cbn [Flush_loop].
    destruct (Bufio.WriteString fs bw (record_of m)) as [[[fs1 bw1] n] err].
    destruct (IH fs1 bw1) as (results & Hlen & Htr).
    destruct (Flush_loop fs1 bw1 rest) as [[fs2 bw2] evs]. simpl in Htr.
    exists (err :: results). split; [simpl; congruence|].
    cbn [zip_with concat snd]. rewrite Htr.
    unfold message_events. destruct err; reflexivity.
Qed.

(** ** [Flush] *)

(** With a writer and a capacity [make] accepts, [Flush] returns: the loop,
    the writer's [Flush], the new batch. *)
Lemma Flush_ret fs g bw :
  writer g = Some bw ->
  threshold_ok g = true ->
  Flush fs g
  = let l := Flush_loop fs bw (elems (batch g)) in
    let f := Bufio.Flush l.1.1 l.1.2 in
    Ret (f.1.1,
         set_batch (set_writer g (Some f.1.2)) (mkSlice [] (threshold g)),
         l.2 ++ [EvWriterFlush f.2]).
Proof.
  intros Hw Hok. unfold Flush. rewrite Hw. cbv zeta.
  destruct (Flush_loop fs bw (elems (batch g))) as [[fs1 bw1] evs].
  cbn [fst snd].
  destruct (Bufio.Flush fs1 bw1) as [[fs2 bw2] ferr].
  rewrite make_slice_ok by exact Hok. reflexivity.
Qed.

(** The same, with the trace spelled out: for each message its
    [WriteString] and its verdict, then the writer's [Flush]. *)
Lemma Flush_shape fs g bw :
  writer g = Some bw ->
  threshold_ok g = true ->
  exists results fs' bw' ferr,
    length results = length (elems (batch g))
    /\ Flush fs g
       = Ret (fs',
              set_batch (set_writer g (Some bw')) (mkSlice [] (threshold g)),
              concat (zip_with message_events (elems (batch g)) results)
                ++ [EvWriterFlush ferr])
    /\ quiescent bw' = true.
Proof.
  intros Hw Hok. rewrite (Flush_ret fs g bw Hw Hok). cbv zeta.
  destruct (Flush_loop_trace (elems (batch g)) fs bw) as (results & Hlen & Htr).
  exists results. eexists _, _, _. split; [exact Hlen|].
  rewrite Htr. split; [reflexivity|]. apply Bufio_Flush_quiescent.
Qed.

(** [Flush] without a writer panics, whatever the batch. *)
Lemma Flush_nil_writer fs g :
  writer g = None -> exists reason, Flush fs g = Panic reason.
Proof. intros Hw. unfold Flush. rewrite Hw. eauto. Qed.

(** ** What [Flush] guarantees *)

Example Flush_after_full_disk :
  exists fs' g',
    Flush (Sample.disk_with_sink 3)
          (Sample.in_session 4 [Sample.msg_a; Sample.msg_b; Sample.msg_c])
    = Ret (fs', g',
           [EvWriteString (record_of Sample.msg_a) None; EvAck Sample.msg_a;
            EvWriteString (record_of Sample.msg_b) (Some ENOSPC); EvNack Sample.msg_b;
            EvWriteString (record_of Sample.msg_c) (Some ENOSPC); EvNack Sample.msg_c;
            EvWriterFlush (Some ENOSPC)]).
Proof. eexists _, _. vm_compute. reflexivity. Qed.

(** C7. On an empty batch [Flush] calls neither [Ack] nor [Nack] nor
    [WriteString]: its only call is the writer's [Flush], which has nothing
    to hand to the file when the writer is quiescent, as it is between two
    calls of [Flush]. The batch stays empty, and a second [Flush] changes
    nothing. *)
Theorem Flush_empty_batch fs g bw :
  writer g = Some bw ->
  threshold_ok g = true ->
  elems (batch g) = [] ->
  exists fs' g' e,
    Flush fs g = Ret (fs', g', [EvWriterFlush e])
    /\ elems (batch g') = []
    /\ Flush fs' g' = Ret (fs', g', [EvWriterFlush e])
    /\ (quiescent bw = true -> fs' = fs).
Proof.
  intros Hw Hok Hnil. rewrite (Flush_ret fs g bw Hw Hok). cbv zeta.
  rewrite Hnil. cbn [Flush_loop fst snd app].
  pose proof (Bufio_Flush_idempotent fs bw) as Hidem. cbv zeta in Hidem.
  destruct (Bufio.Flush fs bw) as [[fs1 bw1] e] eqn:Hf. cbn [fst snd] in *.
  eexists _, _, _. split; [reflexivity|]. split; [reflexivity|]. split.
  - erewrite Flush_ret; [|reflexivity|exact Hok].
    cbv zeta. cbn [batch set_batch elems Flush_loop fst snd app].
    rewrite Hidem. reflexivity.
  - intros Hq. rewrite (Bufio_Flush_of_quiescent fs bw Hq) in Hf.
    congruence.
Qed.

Lemma Flush_empty_batch_witness :
  exists fs' g' e,
    Flush (Sample.disk_with_sink 3) (Sample.in_session 4 [])
    = Ret (fs', g', [EvWriterFlush e])
    /\ elems (batch g') = []
    /\ Flush fs' g' = Ret (fs', g', [EvWriterFlush e])
    /\ (quiescent (Bufio.mkWriter None [] 4 Sample.sink_file) = true
        -> fs' = Sample.disk_with_sink 3).
Proof.
  apply (Flush_empty_batch (Sample.disk_with_sink 3) (Sample.in_session 4 [])
           (Bufio.mkWriter None [] 4 Sample.sink_file)); reflexivity.
Defined.

(** ** Bytes on their way to the sink *)

(** A [Write] that reports no error appended all of [p] to the file. *)
Lemma File_Write_ok fs f p fs' n :
  File_Write fs f p = (fs', n, None) ->
  file_content fs' (f_name f) = file_content fs (f_name f) ++ p
  /\ n = Z.of_nat (length p).
Proof.
  unfold File_Write.
  destruct (f_closed f); [discriminate|].
  destruct (negb _); [discriminate|].
  destruct (Z.ltb_spec (Z.min (Z.of_nat (length p)) (Z.max 0 (fs_free fs)))
                       (Z.of_nat (length p))) as [Hlt|Hge]; [discriminate|].
  intros [= <- <-]. unfold file_content at 1. cbn [fs_files].
  rewrite lookup_insert_eq. simpl. split; [|lia].
  rewrite take_ge by lia. reflexivity.
Qed.

(** The error [Flush] returns is the one the writer keeps. *)
Lemma Bufio_Flush_returns_err fs b :
  (Bufio.Flush fs b).2 = Bufio.bw_err (Bufio.Flush fs b).1.2.
Proof.
  unfold Bufio.Flush.
  destruct (Bufio.bw_err b) as [e|] eqn:He; cbn [fst snd]; [congruence|].
  destruct (Bufio.Buffered b =? 0); cbn [fst snd]; [congruence|].
  destruct (File_Write fs (Bufio.bw_wr b) (Bufio.bw_data b)) as [[fs' n] [e|]];
    [reflexivity|].
  destruct (n <? Bufio.Buffered b); reflexivity.
Qed.

(** A [Flush] that reports no error moved the buffer to the file. *)
Lemma Bufio_Flush_ok fs b fs' b' :
  Bufio.Flush fs b = (fs', b', None) ->
  Bufio.bw_err b = None
  /\ Bufio.bw_err b' = None
  /\ Bufio.bw_data b' = []
  /\ Bufio.bw_wr b' = Bufio.bw_wr b
  /\ sink_stream fs' b' = sink_stream fs b.
Proof.
  unfold Bufio.Flush.
  destruct (Bufio.bw_err b) as [e|] eqn:He; [discriminate|].
  destruct (Z.eqb_spec (Bufio.Buffered b) 0) as [Hz|Hz].
  - intros [= <- <-]. unfold Bufio.Buffered in Hz.
    destruct (Bufio.bw_data b) eqn:Hd; [auto|simpl in Hz; lia].
  - destruct (File_Write fs (Bufio.bw_wr b) (Bufio.bw_data b))
      as [[fs1 n] [e|]] eqn:Hw; [discriminate|].
    destruct (n <? Bufio.Buffered b); [discriminate|].
    intros [= <- <-]. apply File_Write_ok in Hw as [Hc _].
    unfold sink_stream. cbn [Bufio.bw_err Bufio.bw_data Bufio.bw_wr].
    rewrite Hc, app_nil_r. auto.
Qed.

(** The loop of [WriteString], one turn at a time. *)
Lemma WriteString_loop_unfold fs b s nn :
  Bufio.WriteString_loop fs b s nn
  = if Bufio.loop_cond b s
    then let bn := Bufio.copy_in b s in
         let r := Bufio.Flush fs bn.1 in
         Bufio.WriteString_loop r.1.1 r.1.2 (drop (Z.to_nat bn.2) s) (nn + bn.2)
    else (fs, b, s, nn).
Proof.
  rewrite Bufio.WriteString_loop_equation_1.
  destruct (Bufio.inspect (Bufio.loop_cond b s)) as [[] Hc].
  - etrans; [apply Bufio.WriteString_loop_clause_1_equation_1|].
    rewrite Hc. reflexivity.
  - etrans; [apply Bufio.WriteString_loop_clause_1_equation_2|].
    rewrite Hc. reflexivity.
Qed.

(** Once the writer holds an error the loop of [WriteString] does nothing. *)
Lemma WriteString_loop_err fs b s nn e :
  Bufio.bw_err b = Some e -> Bufio.WriteString_loop fs b s nn = (fs, b, s, nn).
Proof.
  intros He. rewrite WriteString_loop_unfold.
  unfold Bufio.loop_cond. rewrite He.
  rewrite bool_decide_eq_false_2 by discriminate.
  rewrite andb_false_r. reflexivity.
Qed.

(** When the loop ends without error, nothing of the string was lost: what
    is in the file and the buffer, followed by the rest of the string, is
    what was there before followed by the string; and the rest fits the
    buffer. *)
Lemma WriteString_loop_ok fs b s nn :
  Bufio.bw_err (Bufio.WriteString_loop fs b s nn).1.1.2 = None ->
  Bufio.bw_wr (Bufio.WriteString_loop fs b s nn).1.1.2 = Bufio.bw_wr b
  /\ sink_stream (Bufio.WriteString_loop fs b s nn).1.1.1
                 (Bufio.WriteString_loop fs b s nn).1.1.2
       ++ (Bufio.WriteString_loop fs b s nn).1.2
     = sink_stream fs b ++ s
  /\ Z.of_nat (length (Bufio.WriteString_loop fs b s nn).1.2)
     <= Bufio.Available (Bufio.WriteString_loop fs b s nn).1.1.2.
Proof.
  funelim (Bufio.WriteString_loop fs b s nn).
  - clear Heqcall. intros Hnone.
    pose proof (Bufio_Flush_returns_err fs (Bufio.copy_in b s).1) as Hret.
    destruct (Bufio.Flush fs (Bufio.copy_in b s).1) as [[fs1 b1] e1] eqn:Hf.
    cbn [fst snd] in *.
    destruct e1 as [e1|].
    + rewrite (WriteString_loop_err fs1 b1 _ _ e1) in Hnone by congruence.
      cbn [fst snd] in Hnone. congruence.
    + apply Bufio_Flush_ok in Hf as (_ & _ & _ & Hwr & Hst).
      destruct (H Hnone) as (Hwr' & Hst' & Hfit).
      split; [rewrite Hwr', Hwr; reflexivity|]. split; [|exact Hfit].
      rewrite Hst', Hst. unfold sink_stream, Bufio.copy_in.
      cbn [fst snd Bufio.bw_wr Bufio.bw_data].
      rewrite <- !app_assoc, take_drop. reflexivity.
  - match goal with Heq : sigmaI _ _ _ = _ |- _ => clear Heq end.
    cbn [fst snd]. intros Hnone.
    split; [reflexivity|]. split; [reflexivity|].
    unfold Bufio.loop_cond in e. rewrite Hnone in e.
    rewrite bool_decide_eq_true_2, andb_true_r in e by reflexivity.
    apply Z.ltb_ge in e. exact e.
Qed.

(** A [WriteString] that reports no error put the whole string on its way
    to the file. *)
Lemma WriteString_ok fs b s fs' b' n :
  Bufio.WriteString fs b s = (fs', b', n, None) ->
  Bufio.bw_err b' = None
  /\ Bufio.bw_wr b' = Bufio.bw_wr b
  /\ sink_stream fs' b' = sink_stream fs b ++ s.
Proof.
  unfold Bufio.WriteString.
  pose proof (WriteString_loop_ok fs b s 0) as Hloop.
  destruct (Bufio.WriteString_loop fs b s 0) as [[[fs1 b1] s1] nn].
  cbn [fst snd] in Hloop.
  destruct (Bufio.bw_err b1) as [e|] eqn:He; [discriminate|].
  intros [= <- <- <-]. destruct (Hloop eq_refl) as (Hwr & Hst & Hfit).
  unfold Bufio.copy_in. cbn [fst snd Bufio.bw_err Bufio.bw_wr].
  split; [exact He|]. split; [exact Hwr|].
  rewrite <- Hst. unfold sink_stream. cbn [Bufio.bw_wr Bufio.bw_data].
  rewrite take_ge by lia. rewrite app_assoc. reflexivity.
Qed.

Lemma WriteString_err fs b s e :
  Bufio.bw_err b = Some e -> Bufio.WriteString fs b s = (fs, b, 0, Some e).
Proof.
  intros He. unfold Bufio.WriteString.
  rewrite (WriteString_loop_err fs b s 0 e He), He. reflexivity.
Qed.

(** A [WriteString] that returns an error leaves it in the writer. *)
Lemma WriteString_result_err fs b s e :
  (Bufio.WriteString fs b s).2 = Some e ->
  Bufio.bw_err (Bufio.WriteString fs b s).1.1.2 = Some e.
Proof.
  unfold Bufio.WriteString.
  destruct (Bufio.WriteString_loop fs b s 0) as [[[fs1 b1] s1] nn].
  destruct (Bufio.bw_err b1) as [e1|] eqn:He; cbn [fst snd]; [congruence|discriminate].
Qed.

Lemma Flush_loop_err e : forall msgs fs bw,
  Bufio.bw_err bw = Some e ->
  Flush_loop fs bw msgs
  = (fs, bw, concat (map (fun m => message_events m (Some e)) msgs)).
Proof.
  induction msgs as [|m rest IH]; intros fs bw He; [reflexivity|].
  cbn [Flush_loop]. rewrite (WriteString_err fs bw _ e He), (IH fs bw He).
  reflexivity.
Qed.

(** If no [WriteString] of the loop reported an error, the records are on
    their way to the sink in batch order. *)
Lemma Flush_loop_ok : forall msgs fs bw,
  Forall (fun wr => wr.2 = None) (writes (Flush_loop fs bw msgs).2) ->
  Bufio.bw_wr (Flush_loop fs bw msgs).1.2 = Bufio.bw_wr bw
  /\ sink_stream (Flush_loop fs bw msgs).1.1 (Flush_loop fs bw msgs).1.2
     = sink_stream fs bw ++ concat (map record_of msgs).
Proof.
  induction msgs as [|m rest IH]; intros fs bw Hall.
  - simpl. rewrite app_nil_r. split; reflexivity.
  - cbn [Flush_loop] in *.
    destruct (Bufio.WriteString fs bw (record_of m)) as [[[fs1 bw1] n] err] eqn:Hws.
    specialize (IH fs1 bw1).
    destruct (Flush_loop fs1 bw1 rest) as [[fs2 bw2] evs].
    cbn [fst snd] in *. unfold writes in Hall. cbn [omap list_omap write_of] in Hall.
    assert (Hrest : Forall (fun wr => wr.2 = None) (writes evs)).
    { destruct err; inversion Hall; assumption. }
    assert (Herr : err = None).
    { destruct err; inversion Hall as [|? ? Hhd _]; [discriminate Hhd|reflexivity]. }
    subst err. apply WriteString_ok in Hws as (_ & Hwr & Hst).
    destruct (IH Hrest) as [Hwr' Hst'].
    split; [congruence|]. rewrite Hst', Hst.
    cbn [map concat]. rewrite app_assoc. reflexivity.
Qed.

(** C4. For a batch [m1, ..., mn], [Flush] calls [WriteString] n times, in
    batch order, each time with the payload followed by one newline; if none
    of these calls nor the writer's [Flush] reported an error, the sink file
    ends with these n records, after what was in it and in the buffer
    before. *)
Theorem Flush_writes_records_in_order fs g bw :
  writer g = Some bw ->
  threshold_ok g = true ->
  exists fs' g' tr,
    Flush fs g = Ret (fs', g', tr)
    /\ map fst (writes tr)
       = map (fun m => Data m ++ [x0a]) (elems (batch g))
    /\ (Forall (fun wr => wr.2 = None) (writes tr) ->
        writer_flushes tr = [None] ->
        file_content fs' (f_name (Bufio.bw_wr bw))
        = sink_stream fs bw
            ++ concat (map (fun m => Data m ++ [x0a]) (elems (batch g)))).
Proof.
  intros Hw Hok. rewrite (Flush_ret fs g bw Hw Hok). cbv zeta.
  change (fun m : Message => Data m ++ [x0a]) with record_of.
  destruct (Flush_loop_trace (elems (batch g)) fs bw) as (results & Hlen & Htr).
  pose proof (Flush_loop_ok (elems (batch g)) fs bw) as Hloop.
  destruct (Flush_loop fs bw (elems (batch g))) as [[fs1 bw1] evs].
  cbn [fst snd] in *.
  destruct (Bufio.Flush fs1 bw1) as [[fs2 bw2] ferr] eqn:Hf. cbn [fst snd].
  eexists _, _, _. split; [reflexivity|].
  assert (Hwrites : writes (evs ++ [EvWriterFlush ferr]) = writes evs).
  { unfold writes. rewrite omap_app. simpl. apply app_nil_r. }
  rewrite Hwrites. split.
  - rewrite Htr, writes_message_events by exact Hlen.
    apply (fst_zip_with_results _ record_of (fun e => e)), Hlen.
  - intros Hall Hfl.
    assert (Hnone : ferr = None).
    { unfold writer_flushes in Hfl. rewrite omap_app in Hfl.
      fold (writer_flushes evs) in Hfl.
      rewrite Htr, writer_flushes_message_events in Hfl.
      simpl in Hfl. congruence. }
    subst ferr. apply Bufio_Flush_ok in Hf as (_ & _ & Hd & Hwr & Hst).
    destruct (Hloop Hall) as [Hwr1 Hst1].
    rewrite <- Hst1, <- Hst. unfold sink_stream.
    rewrite Hd, app_nil_r, Hwr, Hwr1. reflexivity.
Qed.

Lemma Flush_writes_records_in_order_witness :
  exists fs' g' tr,
    Flush (Sample.disk_with_sink 100)
          (Sample.in_session 4 [Sample.msg_a; Sample.msg_b; Sample.msg_c])
    = Ret (fs', g', tr)
    /\ map fst (writes tr)
       = [["a"%byte; x0a]; ["b"%byte; "c"%byte; "d"%byte; x0a]; ["e"%byte; x0a]]
    /\ file_content fs' "/var/log/events/events.log"
       = ["a"%byte; x0a; "b"%byte; "c"%byte; "d"%byte; x0a; "e"%byte; x0a].
Proof.
  destruct (Flush_writes_records_in_order (Sample.disk_with_sink 100)
              (Sample.in_session 4 [Sample.msg_a; Sample.msg_b; Sample.msg_c])
              (Bufio.mkWriter None [] 4 Sample.sink_file) eq_refl eq_refl)
    as (fs' & g' & tr & Hflush & Hwrites & Hfile).
  exists fs', g', tr. split; [exact Hflush|]. split; [exact Hwrites|].
  assert (Htr : Ret (fs', g', tr)
                = Flush (Sample.disk_with_sink 100)
                    (Sample.in_session 4 [Sample.msg_a; Sample.msg_b; Sample.msg_c]))
    by (symmetry; exact Hflush).
  vm_compute in Htr. injection Htr as -> -> ->.
  apply Hfile; vm_compute; repeat constructor.
Defined.

(** ** The first failed write *)

Lemma zip_with_replicate {A B C} (f : A -> B -> C) (x : B) (l : list A) :
  zip_with f l (replicate (length l) x) = map (fun a => f a x) l.
Proof. induction l as [|a l IH]; [reflexivity|]. cbn. rewrite IH. reflexivity. Qed.

(** The writer keeps the first error: in the loop of [Flush] the
    [WriteString] calls that return nil come first, and from the first one
    that fails on every call returns that same error and changes nothing:
    disk and writer after the loop are those right after the first failed
    write. *)
Lemma Flush_loop_sticky : forall msgs fs bw,
  exists n k e,
    (Flush_loop fs bw msgs).2
    = concat (zip_with message_events msgs
                (replicate n None ++ replicate k (Some e)))
    /\ (n + k)%nat = length msgs
    /\ (k <> 0%nat ->
        Bufio.bw_err (Flush_loop fs bw msgs).1.2 = Some e
        /\ (Flush_loop fs bw msgs).1 = (Flush_loop fs bw (take (S n) msgs)).1)
    /\ (k = 0%nat ->
        Bufio.bw_err (Flush_loop fs bw msgs).1.2 = Bufio.bw_err bw).
Proof.
  induction msgs as [|m rest IH]; intros fs bw.
  - exists 0%nat, 0%nat, ENOSPC. cbn. split; [reflexivity|]. split; [reflexivity|].
    split; [intros H; contradiction|reflexivity].
  - cbn [Flush_loop take].
    pose proof (WriteString_result_err fs bw (record_of m)) as Hres.
    pose proof (WriteString_err fs bw (record_of m)) as Hsticky.
    destruct (Bufio.WriteString fs bw (record_of m)) as [[[fs1 bw1] n0] err] eqn:Hws.
    cbn [fst snd] in Hres.
    destruct err as [e|].
    + specialize (Hres e eq_refl).
      rewrite (Flush_loop_err e rest fs1 bw1 Hres). cbn [fst snd].
      exists 0%nat, (S (length rest)), e.
      cbn [replicate app zip_with concat take Flush_loop fst snd].
      rewrite zip_with_replicate.
      split; [reflexivity|]. split; [reflexivity|].
      split; [intros _; split; [exact Hres|reflexivity]|discriminate].
    + destruct (IH fs1 bw1) as (n & k & e & Htr & Hlen & Hpost & Hnone).
      exists (S n), k, e.
      destruct (Flush_loop fs1 bw1 rest) as [[fs2 bw2] evs]. cbn [fst snd] in *.
      cbn [replicate app zip_with concat]. rewrite Htr.
      split; [reflexivity|]. split; [simpl; lia|]. split.
      * intros Hk. destruct (Hpost Hk) as [He Hstate]. split; [exact He|].
        destruct (Flush_loop fs1 bw1 (take (S n) rest)) as [[fs3 bw3] evs3].
        exact Hstate.
      * intros Hk. rewrite (Hnone Hk).
        apply WriteString_ok in Hws as (He1 & _). rewrite He1.
        destruct (Bufio.bw_err bw) as [e0|] eqn:He0; [|reflexivity].
        specialize (Hsticky e0 eq_refl). discriminate Hsticky.
Qed.

Lemma snd_zip_with_results {B} (f : Message -> B) : forall msgs results,
  length results = length msgs ->
  map snd (zip_with (fun m (e : option error) => (f m, e)) msgs results) = results.
Proof.
  induction msgs as [|m rest IH]; intros [|e results] Hlen; try discriminate;
    [reflexivity|].
  simpl. f_equal. apply IH. simpl in Hlen. congruence.
Qed.

(** The error recorded for the i-th message is the one [WriteString]
    returns for its record on the disk and the writer as the messages
    before it left them. *)
Lemma Flush_loop_result_at : forall msgs fs bw i m,
  msgs !! i = Some m ->
  writes (Flush_loop fs bw msgs).2 !! i
  = Some (record_of m,
          (Bufio.WriteString (Flush_loop fs bw (take i msgs)).1.1
                             (Flush_loop fs bw (take i msgs)).1.2
                             (record_of m)).2).
Proof.
  induction msgs as [|m0 rest IH]; intros fs bw i m Hi; [discriminate Hi|].
  destruct i as [|i].
  - injection Hi as <-. cbn [take Flush_loop fst snd].
    destruct (Bufio.WriteString fs bw (record_of m0)) as [[[fs1 bw1] n] err].
    destruct (Flush_loop fs1 bw1 rest) as [[fs2 bw2] evs].
    cbn [snd]. destruct err; reflexivity.
  - cbn [lookup list_lookup] in Hi. specialize (IH).
    cbn [take Flush_loop].
    destruct (Bufio.WriteString fs bw (record_of m0)) as [[[fs1 bw1] n] err].
    specialize (IH fs1 bw1 i m Hi).
    destruct (Flush_loop fs1 bw1 rest) as [[fs2 bw2] evs].
    destruct (Flush_loop fs1 bw1 (take i rest)) as [[fs3 bw3] evs3].
    cbn [fst snd] in *. rewrite <- IH. destruct err; reflexivity.
Qed.

(** C1, as the code has it. For every batch [Flush] processes, every message
    gets exactly one of [Ack] and [Nack], in batch order: [Ack] if and only
    if the [WriteString] of its payload returned no error, [Nack]
    otherwise. A failed write does not stop the loop, every message after it
    still gets its [WriteString] and its verdict; but the writer keeps the
    first error, so that from the first failure on every [WriteString]
    returns that error and every remaining message is rejected. Nothing of
    the remaining messages reaches the buffer or the file: the writer's
    [Flush] at the end returns the error too, and [Flush] leaves the disk
    and the writer as they were right after the first failed write.
    [results] are the errors the [WriteString] calls returned, one per
    message: the one for the i-th message is what [WriteString] returns
    for its record on the disk and the writer as the messages before it
    left them. *)
Theorem Flush_ack_iff_written fs g bw :
  writer g = Some bw ->
  threshold_ok g = true ->
  exists fs' g' tr results n k e,
    Flush fs g = Ret (fs', g', tr)
    /\ length results = length (elems (batch g))
    /\ writes tr = zip_with (fun m e => (record_of m, e)) (elems (batch g)) results
    /\ verdicts tr = zip_with (fun m e => (m, succeeded e)) (elems (batch g)) results
    /\ map fst (verdicts tr) = elems (batch g)
    /\ (forall i m,
          elems (batch g) !! i = Some m ->
          writes tr !! i
          = Some (record_of m,
                  (Bufio.WriteString
                     (Flush_loop fs bw (take i (elems (batch g)))).1.1
                     (Flush_loop fs bw (take i (elems (batch g)))).1.2
                     (record_of m)).2))
    /\ results = replicate n None ++ replicate k (Some e)
    /\ (k <> 0%nat ->
        writer_flushes tr = [Some e]
        /\ (exists bw', writer g' = Some bw' /\ Bufio.bw_err bw' = Some e)
        /\ fs' = (Flush_loop fs bw (take (S n) (elems (batch g)))).1.1
        /\ writer g' = Some (Flush_loop fs bw (take (S n) (elems (batch g)))).1.2).
Proof.
  intros Hw Hok. rewrite (Flush_ret fs g bw Hw Hok). cbv zeta.
  destruct (Flush_loop_sticky (elems (batch g)) fs bw)
    as (n & k & e & Htr & Hnk & Hpost & _).
  assert (Hlen : length (replicate n (@None error) ++ replicate k (Some e))
                 = length (elems (batch g)))
    by (rewrite length_app, !length_replicate; exact Hnk).
  pose proof (Flush_loop_result_at (elems (batch g)) fs bw) as Hat.
  eexists _, _, _, (replicate n None ++ replicate k (Some e)), n, k, e.
  split; [reflexivity|]. rewrite Htr in *.
  split; [exact Hlen|].
  assert (Hv : forall ferr,
             verdicts (concat (zip_with message_events (elems (batch g))
                                 (replicate n None ++ replicate k (Some e)))
                       ++ [EvWriterFlush ferr])
             = zip_with (fun m e => (m, succeeded e)) (elems (batch g))
                 (replicate n None ++ replicate k (Some e))).
  { intros ferr. unfold verdicts. rewrite omap_app. simpl. rewrite app_nil_r.
    apply verdicts_message_events, Hlen. }
  split.
  { unfold writes. rewrite omap_app. simpl. rewrite app_nil_r.
    apply writes_message_events, Hlen. }
  split; [apply Hv|].
  split.
  { rewrite Hv, (fst_zip_with_results _ (fun m => m) succeeded) by exact Hlen.
    apply map_id. }
  split.
  { intros i m Hi. unfold writes. rewrite omap_app. cbn [omap list_omap write_of].
    rewrite app_nil_r. apply Hat. exact Hi. }
  split; [reflexivity|].
  intros Hk. destruct (Hpost Hk) as [He Hstate].
  assert (Hf : Bufio.Flush (Flush_loop fs bw (elems (batch g))).1.1
                 (Flush_loop fs bw (elems (batch g))).1.2
               = ((Flush_loop fs bw (elems (batch g))).1.1,
                  (Flush_loop fs bw (elems (batch g))).1.2, Some e)).
  { unfold Bufio.Flush. rewrite He. reflexivity. }
  rewrite Hf. cbn [fst snd writer set_batch set_writer].
  split; [|split; [eauto|rewrite Hstate; split; reflexivity]].
  unfold writer_flushes. rewrite omap_app.
  fold (writer_flushes (concat (zip_with message_events (elems (batch g))
                                  (replicate n None ++ replicate k (Some e))))).
  rewrite writer_flushes_message_events. reflexivity.
Qed.

(** The first record fits the 4-byte buffer; the second does not, the disk
    is full when the buffer is handed over, and the writer keeps the error
    for the third. *)
Lemma Flush_ack_iff_written_witness :
  exists fs' g' tr results n k e,
    Flush (Sample.disk_with_sink 3)
          (Sample.in_session 4 [Sample.msg_a; Sample.msg_b; Sample.msg_c])
    = Ret (fs', g', tr)
    /\ length results = 3%nat
    /\ writes tr
       = zip_with (fun m e => (record_of m, e))
           [Sample.msg_a; Sample.msg_b; Sample.msg_c] results
    /\ verdicts tr
       = zip_with (fun m e => (m, succeeded e))
           [Sample.msg_a; Sample.msg_b; Sample.msg_c] results
    /\ map fst (verdicts tr) = [Sample.msg_a; Sample.msg_b; Sample.msg_c]
    /\ (forall i m,
          [Sample.msg_a; Sample.msg_b; Sample.msg_c] !! i = Some m ->
          writes tr !! i
          = Some (record_of m,
                  (Bufio.WriteString
                     (Flush_loop (Sample.disk_with_sink 3)
                        (Bufio.mkWriter None [] 4 Sample.sink_file)
                        (take i [Sample.msg_a; Sample.msg_b; Sample.msg_c])).1.1
                     (Flush_loop (Sample.disk_with_sink 3)
                        (Bufio.mkWriter None [] 4 Sample.sink_file)
                        (take i [Sample.msg_a; Sample.msg_b; Sample.msg_c])).1.2
                     (record_of m)).2))
    /\ results = replicate n None ++ replicate k (Some e)
    /\ (k <> 0%nat ->
        writer_flushes tr = [Some e]
        /\ (exists bw', writer g' = Some bw' /\ Bufio.bw_err bw' = Some e)
        /\ fs' = (Flush_loop (Sample.disk_with_sink 3)
                    (Bufio.mkWriter None [] 4 Sample.sink_file)
                    (take (S n) [Sample.msg_a; Sample.msg_b; Sample.msg_c])).1.1
        /\ writer g'
           = Some (Flush_loop (Sample.disk_with_sink 3)
                     (Bufio.mkWriter None [] 4 Sample.sink_file)
                     (take (S n) [Sample.msg_a; Sample.msg_b; Sample.msg_c])).1.2).
Proof.
  apply (Flush_ack_iff_written (Sample.disk_with_sink 3)
           (Sample.in_session 4 [Sample.msg_a; Sample.msg_b; Sample.msg_c])
           (Bufio.mkWriter None [] 4 Sample.sink_file)); reflexivity.
Defined.

(** The last clause of C1 as the specification words it, a failed write
    leaving the later messages to be written and acknowledged, does not
    hold. Alone in the batch, [msg_a] is written, acknowledged and stored.
    Behind [msg_long], whose record fills the buffer and meets a full disk,
    the [WriteString] of [msg_a] takes no byte and [msg_a] is rejected;
    yet the same record given to a writer that holds no error, on the very
    disk the failure left, is accepted and acknowledged. *)
Lemma Flush_ack_iff_written_counterexample :
  (exists fs' g',
     Flush (Sample.disk_with_sink 3) (Sample.in_session 4 [Sample.msg_a])
     = Ret (fs', g',
            [EvWriteString (record_of Sample.msg_a) None; EvAck Sample.msg_a;
             EvWriterFlush None])
     /\ file_content fs' "/var/log/events/events.log" = record_of Sample.msg_a)
  /\ (exists fs1 bw1 fs' g',
        Flush_loop (Sample.disk_with_sink 3)
                   (Bufio.mkWriter None [] 4 Sample.sink_file) [Sample.msg_long]
        = (fs1, bw1,
           [EvWriteString (record_of Sample.msg_long) (Some ENOSPC);
            EvNack Sample.msg_long])
        /\ Bufio.WriteString fs1 bw1 (record_of Sample.msg_a)
           = (fs1, bw1, 0, Some ENOSPC)
        /\ Flush (Sample.disk_with_sink 3)
                 (Sample.in_session 4 [Sample.msg_long; Sample.msg_a])
           = Ret (fs', g',
                  [EvWriteString (record_of Sample.msg_long) (Some ENOSPC);
                   EvNack Sample.msg_long;
                   EvWriteString (record_of Sample.msg_a) (Some ENOSPC);
                   EvNack Sample.msg_a;
                   EvWriterFlush (Some ENOSPC)])
        /\ (exists fs2 g2,
              Flush fs1 (Sample.in_session 4 [Sample.msg_a])
              = Ret (fs2, g2,
                     [EvWriteString (record_of Sample.msg_a) None;
                      EvAck Sample.msg_a; EvWriterFlush (Some ENOSPC)]))).
Proof.
  split.
  - eexists _, _. split; vm_compute; reflexivity.
  - eexists _, _, _, _. split; [vm_compute; reflexivity|].
    split; [vm_compute; reflexivity|]. split; [vm_compute; reflexivity|].
    eexists _, _. vm_compute. reflexivity.
Qed.

(** C3, as the code has it. After [Flush] returns the batch is empty with
    the threshold as its capacity, and the program has called the writer's
    [Flush] exactly once, after the loop, whether or not a [WriteString]
    failed; afterwards the writer holds nothing a further [Flush] would
    hand over, and keeps the error the call returned.
    What that call does to storage depends on the writes before it.
    If it returns nil, no [WriteString] of the batch failed, the buffer is
    empty and the file holds all that was in it and in the buffer before,
    followed by the records of the batch. If a [WriteString] failed, the
    call returns the error the writer kept and hands nothing to storage:
    disk and writer stay as the loop left them. *)
Theorem Flush_resets_batch_flushes_once fs g bw :
  writer g = Some bw ->
  threshold_ok g = true ->
  exists fs' g' bw' tr e,
    Flush fs g = Ret (fs', g', tr ++ [EvWriterFlush e])
    /\ writer_flushes tr = []
    /\ writer_flushes (tr ++ [EvWriterFlush e]) = [e]
    /\ elems (batch g') = []
    /\ cap (batch g') = threshold g'
    /\ threshold g' = threshold g
    /\ writer g' = Some bw'
    /\ Bufio.bw_err bw' = e
    /\ quiescent bw' = true
    /\ (e = None ->
        Forall (fun wr => wr.2 = None) (writes tr)
        /\ Bufio.bw_data bw' = []
        /\ file_content fs' (f_name (Bufio.bw_wr bw))
           = sink_stream fs bw ++ records_of (elems (batch g)))
    /\ (forall e0, In (Some e0) (map snd (writes tr)) ->
        e = Some e0
        /\ fs' = (Flush_loop fs bw (elems (batch g))).1.1
        /\ bw' = (Flush_loop fs bw (elems (batch g))).1.2).
Proof.
  intros Hw Hok. rewrite (Flush_ret fs g bw Hw Hok). cbv zeta.
  destruct (Flush_loop_sticky (elems (batch g)) fs bw)
    as (n & k & e1 & Htr & Hnk & Hpost & Hnone).
  assert (Hlen : length (replicate n (@None error) ++ replicate k (Some e1))
                 = length (elems (batch g)))
    by (rewrite length_app, !length_replicate; exact Hnk).
  assert (Hwrites : map snd (writes (Flush_loop fs bw (elems (batch g))).2)
                    = replicate n None ++ replicate k (Some e1)).
  { rewrite Htr, writes_message_events by exact Hlen.
    apply snd_zip_with_results. exact Hlen. }
  assert (Hflushes : writer_flushes (Flush_loop fs bw (elems (batch g))).2 = [])
    by (rewrite Htr; apply writer_flushes_message_events).
  pose proof (Flush_loop_ok (elems (batch g)) fs bw) as Hok_loop.
  pose proof (Bufio_Flush_returns_err (Flush_loop fs bw (elems (batch g))).1.1
                (Flush_loop fs bw (elems (batch g))).1.2) as Hret.
  pose proof (Bufio_Flush_quiescent (Flush_loop fs bw (elems (batch g))).1.1
                (Flush_loop fs bw (elems (batch g))).1.2) as Hquiet.
  destruct (Flush_loop fs bw (elems (batch g))) as [[fs1 bw1] evs].
  cbn [fst snd] in *.
  destruct (Bufio.Flush fs1 bw1) as [[fs2 bw2] ferr] eqn:Hf. cbn [fst snd] in *.
  exists fs2, (set_batch (set_writer g (Some bw2)) (mkSlice [] (threshold g))),
    bw2, evs, ferr.
  split; [reflexivity|]. split; [exact Hflushes|].
  split; [unfold writer_flushes in *; rewrite omap_app, Hflushes; reflexivity|].
  split; [reflexivity|]. split; [reflexivity|]. split; [reflexivity|].
  split; [reflexivity|]. split; [symmetry; exact Hret|].
  split; [exact Hquiet|].
  split.
  - intros ->. apply Bufio_Flush_ok in Hf as (He1 & _ & Hd & Hwr & Hst).
    assert (Hk : k = 0%nat).
    { destruct k as [|k]; [reflexivity|].
      destruct (Hpost ltac:(discriminate)) as [Hsome _].
      rewrite Hsome in He1. discriminate He1. }
    subst k. cbn [replicate] in Hwrites. rewrite app_nil_r in Hwrites.
    assert (Hall : Forall (fun wr : list byte * option error => wr.2 = None)
                     (writes evs)).
    { apply Forall_forall. intros wr Hin.
      assert (Hin' : wr.2 ∈ map snd (writes evs))
        by (apply list_elem_of_fmap_2; exact Hin).
      rewrite Hwrites in Hin'. apply elem_of_replicate_inv in Hin'. exact Hin'. }
    destruct (Hok_loop Hall) as [Hwr1 Hst1].
    split; [exact Hall|]. split; [exact Hd|].
    unfold sink_stream in Hst at 1. rewrite Hd, app_nil_r, Hwr, Hwr1 in Hst.
    rewrite Hst, Hst1. reflexivity.
  - intros e0 Hin. rewrite Hwrites in Hin.
    apply list_elem_of_In, elem_of_app in Hin as [Hin|Hin].
    { apply elem_of_replicate_inv in Hin. discriminate Hin. }
    apply elem_of_replicate in Hin as [Hin Hk]. injection Hin as ->.
    destruct (Hpost Hk) as [Hsome _]. unfold Bufio.Flush in Hf. rewrite Hsome in Hf.
    injection Hf as <- <- <-. auto.
Qed.

(** The first record is acknowledged, the second meets a full disk; the
    writer's [Flush] at the end returns the error and stores nothing. *)
Lemma Flush_resets_batch_flushes_once_witness :
  exists fs' g' bw' tr e,
    Flush (Sample.disk_with_sink 3)
          (Sample.in_session 4 [Sample.msg_a; Sample.msg_b; Sample.msg_c])
    = Ret (fs', g', tr ++ [EvWriterFlush e])
    /\ writer_flushes tr = []
    /\ writer_flushes (tr ++ [EvWriterFlush e]) = [e]
    /\ elems (batch g') = []
    /\ cap (batch g') = threshold g'
    /\ threshold g' = 2
    /\ writer g' = Some bw'
    /\ Bufio.bw_err bw' = e
    /\ quiescent bw' = true
    /\ (e = None ->
        Forall (fun wr => wr.2 = None) (writes tr)
        /\ Bufio.bw_data bw' = []
        /\ file_content fs' "/var/log/events/events.log"
           = sink_stream (Sample.disk_with_sink 3)
               (Bufio.mkWriter None [] 4 Sample.sink_file)
             ++ records_of [Sample.msg_a; Sample.msg_b; Sample.msg_c])
    /\ (forall e0, In (Some e0) (map snd (writes tr)) ->
        e = Some e0
        /\ fs' = (Flush_loop (Sample.disk_with_sink 3)
                    (Bufio.mkWriter None [] 4 Sample.sink_file)
                    [Sample.msg_a; Sample.msg_b; Sample.msg_c]).1.1
        /\ bw' = (Flush_loop (Sample.disk_with_sink 3)
                    (Bufio.mkWriter None [] 4 Sample.sink_file)
                    [Sample.msg_a; Sample.msg_b; Sample.msg_c]).1.2).
Proof.
  apply (Flush_resets_batch_flushes_once (Sample.disk_with_sink 3)
           (Sample.in_session 4 [Sample.msg_a; Sample.msg_b; Sample.msg_c])
           (Bufio.mkWriter None [] 4 Sample.sink_file)); reflexivity.
Defined.

(** The buffer is not flushed to storage once per call of [Flush] whatever
    the writes did. After a failed write the writer's [Flush] stores
    nothing: the disk is as the loop left it, and the bytes the buffer
    accepted last are still in it, in no file. And without any failure
    storage is written more than once: the 4-byte buffer is handed to the
    file inside [WriteString] each time it fills, so that the file has
    grown before the writer's [Flush] is called, which then adds the
    rest. *)
Lemma Flush_resets_batch_flushes_once_counterexample :
  (exists fs1 bw1 evs g' bw',
     Flush_loop (Sample.disk_with_sink 3)
                (Bufio.mkWriter None [] 4 Sample.sink_file)
                [Sample.msg_a; Sample.msg_b; Sample.msg_c]
     = (fs1, bw1, evs)
     /\ Flush (Sample.disk_with_sink 3)
              (Sample.in_session 4 [Sample.msg_a; Sample.msg_b; Sample.msg_c])
        = Ret (fs1, g', evs ++ [EvWriterFlush (Some ENOSPC)])
     /\ writer g' = Some bw'
     /\ Bufio.bw_data bw' = ["c"%byte]
     /\ file_content fs1 "/var/log/events/events.log"
        = ["a"%byte; x0a; "b"%byte])
  /\ (exists fs1 bw1 evs fs' g',
        Flush_loop (Sample.disk_with_sink 100)
                   (Bufio.mkWriter None [] 4 Sample.sink_file)
                   [Sample.msg_a; Sample.msg_b; Sample.msg_c]
        = (fs1, bw1, evs)
        /\ file_content fs1 "/var/log/events/events.log"
           = ["a"%byte; x0a; "b"%byte; "c"%byte]
        /\ Flush (Sample.disk_with_sink 100)
                 (Sample.in_session 4 [Sample.msg_a; Sample.msg_b; Sample.msg_c])
           = Ret (fs', g', evs ++ [EvWriterFlush None])
        /\ file_content fs' "/var/log/events/events.log"
           = records_of [Sample.msg_a; Sample.msg_b; Sample.msg_c]).
Proof.
  split.
  - eexists _, _, _, _, _. split; [vm_compute; reflexivity|].
    split; [vm_compute; reflexivity|]. split; [reflexivity|].
    split; reflexivity.
  - eexists _, _, _, _, _. split; [vm_compute; reflexivity|].
    split; [reflexivity|]. split; [vm_compute; reflexivity|]. reflexivity.
Qed.

(** ** The receive callback *)

(** One invocation of the callback: it appends, then either leaves the
    batch alone, or flushes it. *)
Lemma handler_spec w fs g bw msg :
  writer g = Some bw ->
  threshold_ok g = true ->
  exists fs' g' tr bw',
    handler w fs g msg = Ret (fs', g', tr)
    /\ writer g' = Some bw'
    /\ Worker g' = Worker g
    /\ (quiescent bw = true -> quiescent bw' = true)
    /\ deliveries tr = [msg]
    /\ ((threshold g < len (batch g) + 1
         /\ (exists e, writer_flushes tr = [e])
         /\ map fst (verdicts tr) = elems (batch g) ++ [msg]
         /\ batch g' = mkSlice [] (threshold g))
        \/ (len (batch g) + 1 <= threshold g
            /\ tr = [EvDeliver msg]
            /\ fs' = fs
            /\ bw' = bw
            /\ elems (batch g') = elems (batch g) ++ [msg])).
Proof.
  intros Hw Hok. unfold handler.
  change (threshold (set_batch g (append (growslice w) (batch g) msg)))
    with (threshold g).
  cbn [batch set_batch]. rewrite len_append.
  destruct (Z.ltb_spec (threshold g) (len (batch g) + 1)) as [Hlt|Hge].
  - set (g1 := set_batch g (append (growslice w) (batch g) msg)).
    destruct (Flush_shape fs g1 bw Hw Hok)
      as (results & fs' & bw' & ferr & Hlen & Hfl & Hq).
    rewrite Hfl. cbn [bind]. eexists _, _, _, bw'. split; [reflexivity|].
    cbn [writer set_batch set_writer Worker batch].
    split; [reflexivity|]. split; [reflexivity|]. split; [auto|].
    split.
    { unfold deliveries. cbn [omap list_omap delivery_of]. f_equal.
      rewrite omap_app. fold (deliveries (concat (zip_with message_events
                                 (elems (batch g1)) results))).
      rewrite deliveries_message_events. reflexivity. }
    left. split; [exact Hlt|]. split.
    { exists ferr. unfold writer_flushes.
      cbn [omap list_omap writer_flush_of]. rewrite omap_app.
      fold (writer_flushes (concat (zip_with message_events
                              (elems (batch g1)) results))).
      rewrite writer_flushes_message_events. reflexivity. }
    split; [|reflexivity].
    unfold verdicts. cbn [omap list_omap verdict_of]. rewrite omap_app.
    fold (verdicts (concat (zip_with message_events (elems (batch g1)) results))).
    rewrite verdicts_message_events by exact Hlen.
    cbn [omap list_omap verdict_of]. rewrite app_nil_r.
    rewrite (fst_zip_with_results _ (fun m => m) succeeded) by exact Hlen.
    rewrite map_id. subst g1. cbn [batch set_batch]. apply elems_append.
  - eexists fs, _, _, bw. split; [reflexivity|].
    cbn [writer set_batch Worker batch].
    split; [exact Hw|]. split; [reflexivity|]. split; [auto|].
    split; [reflexivity|]. right.
    split; [lia|]. repeat split. apply elems_append.
Qed.

(** The callbacks of a session all return, and keep the writer and the
    configuration. *)
Lemma run_handlers_spec w : forall msgs fs g bw,
  writer g = Some bw ->
  threshold_ok g = true ->
  exists fs' g' tr bw',
    run_handlers w fs g msgs = Ret (fs', g', tr)
    /\ writer g' = Some bw'
    /\ Worker g' = Worker g
    /\ (quiescent bw = true -> quiescent bw' = true)
    /\ deliveries tr = msgs
    /\ (len (batch g) <= threshold g ->
        len (batch g')
        = (len (batch g) + Z.of_nat (length msgs)) mod (threshold g + 1)).
Proof.
  induction msgs as [|m rest IH]; intros fs g bw Hw Hok.
  - exists fs, g, [], bw. repeat split; auto.
    intros Hle. rewrite Z.add_0_r, Z.mod_small; [reflexivity|].
    unfold len in *. lia.
  - destruct (handler_spec w fs g bw m Hw Hok)
      as (fs1 & g1 & tr1 & bw1 & Hh & Hw1 & Hwk1 & Hq1 & Hd1 & Hcase).
    assert (Hok1 : threshold_ok g1 = true)
      by (unfold threshold_ok, threshold in *; rewrite Hwk1; exact Hok).
    destruct (IH fs1 g1 bw1 Hw1 Hok1)
      as (fs2 & g2 & tr2 & bw2 & Hr & Hw2 & Hwk2 & Hq2 & Hd2 & Hlen2).
    cbn [run_handlers]. rewrite Hh. cbn [bind]. rewrite Hr. cbn [bind].
    exists fs2, g2, (tr1 ++ tr2), bw2. split; [reflexivity|].
    split; [exact Hw2|]. split; [congruence|]. split; [auto|].
    split; [unfold deliveries in *; rewrite omap_app, Hd1, Hd2; reflexivity|].
    intros Hle.
    assert (HT : threshold g1 = threshold g) by (unfold threshold; congruence).
    assert (Hpos : 0 <= len (batch g)) by (unfold len; lia).
    rewrite HT in Hlen2. cbn [length]. rewrite Nat2Z.inj_succ.
    destruct Hcase as [(Hlt & _ & _ & Hb)|(Hge & _ & _ & _ & Hb)].
    + rewrite Hlen2 by (rewrite Hb; unfold len; simpl; lia).
      rewrite Hb. unfold len at 1. cbn [elems length].
      assert (Heq : len (batch g) = threshold g) by lia.
      rewrite Heq.
      replace (threshold g + Z.succ (Z.of_nat (length rest)))
        with (Z.of_nat (length rest) + 1 * (threshold g + 1)) by lia.
      rewrite Z.mod_add by lia. reflexivity.
    + assert (Hl1 : len (batch g1) = len (batch g) + 1).
      { unfold len. rewrite Hb, length_app. simpl. lia. }
      rewrite Hlen2 by lia. rewrite Hl1. f_equal. lia.
Qed.

(** Counting appends modulo [T + 1]. *)
Lemma full_iff_next_multiple (T k : Z) :
  0 <= T -> 0 <= k ->
  (T < k mod (T + 1) + 1 <-> (k + 1) mod (T + 1) = 0).
Proof.
  intros HT Hk.
  pose proof (Z.mod_pos_bound k (T + 1) ltac:(lia)) as Hr.
  pose proof (Z.div_mod k (T + 1) ltac:(lia)) as Hdm.
  split; intros H.
  - assert (Hm : k mod (T + 1) = T) by lia.
    replace (k + 1) with (0 + (k / (T + 1) + 1) * (T + 1)) by lia.
    rewrite Z.mod_add by lia. apply Z.mod_0_l. lia.
  - destruct (Z.lt_ge_cases T (k mod (T + 1) + 1)) as [|Hsmall]; [assumption|].
    exfalso.
    replace (k + 1) with ((k mod (T + 1) + 1) + (k / (T + 1)) * (T + 1)) in H by lia.
    rewrite Z.mod_add in H by lia. rewrite Z.mod_small in H by lia. lia.
Qed.

(** C2. After any sequence [msgs] of appends by the callback, the next
    append flushes if and only if the batch, with the new message in it, is
    larger than the threshold; the batch is empty right after a flush, and
    one longer otherwise. Counted from an empty batch, the appends that
    flush are the multiples of [T + 1]: [T] messages may wait, the next one
    forces the flush. *)
Theorem handler_flushes_past_threshold w fs g bw msgs msg :
  writer g = Some bw ->
  threshold_ok g = true ->
  exists fs1 g1 tr1 fs2 g2 tr2,
    run_handlers w fs g msgs = Ret (fs1, g1, tr1)
    /\ handler w fs1 g1 msg = Ret (fs2, g2, tr2)
    /\ (writer_flushes tr2 <> [] <-> threshold g < len (batch g1) + 1)
    /\ (writer_flushes tr2 <> [] -> len (batch g2) = 0)
    /\ (writer_flushes tr2 = [] -> len (batch g2) = len (batch g1) + 1)
    /\ (elems (batch g) = [] ->
        (writer_flushes tr2 <> []
         <-> (Z.of_nat (length msgs) + 1) mod (threshold g + 1) = 0)).
Proof.
  intros Hw Hok.
  destruct (run_handlers_spec w msgs fs g bw Hw Hok)
    as (fs1 & g1 & tr1 & bw1 & Hr & Hw1 & Hwk1 & _ & _ & Hlen).
  assert (HT : threshold g1 = threshold g) by (unfold threshold; congruence).
  assert (Hok1 : threshold_ok g1 = true)
    by (unfold threshold_ok in *; rewrite HT; exact Hok).
  destruct (handler_spec w fs1 g1 bw1 msg Hw1 Hok1)
    as (fs2 & g2 & tr2 & bw2 & Hh & _ & _ & _ & _ & Hcase).
  exists fs1, g1, tr1, fs2, g2, tr2.
  split; [exact Hr|]. split; [exact Hh|].
  assert (Hflush : writer_flushes tr2 <> [] <-> threshold g < len (batch g1) + 1).
  { destruct Hcase as [(Hlt & (e & He) & _)|(Hge & -> & _)].
    - rewrite He. split; [lia|discriminate].
    - split; [intros Hne; exfalso; apply Hne; reflexivity|lia]. }
  split; [exact Hflush|].
  split.
  { intros Hne. destruct Hcase as [(_ & _ & _ & ->)|(_ & -> & _)];
      [reflexivity|exfalso; apply Hne; reflexivity]. }
  split.
  { intros Hnil. destruct Hcase as [(_ & (e & He) & _)|(_ & _ & _ & _ & Hb)];
      [congruence|].
    unfold len. rewrite Hb, length_app. simpl. lia. }
  intros Hempty. rewrite Hflush.
  apply andb_true_iff in Hok as [H0 _]. apply Z.leb_le in H0.
  rewrite Hlen by (unfold len; rewrite Hempty; simpl; lia).
  unfold len at 1. rewrite Hempty. cbn [length]. rewrite Z.add_0_l.
  apply full_iff_next_multiple; lia.
Qed.

Lemma handler_flushes_past_threshold_witness :
  exists fs1 g1 tr1 fs2 g2 tr2,
    run_handlers (Sample.world None None [] None) (Sample.disk_with_sink 100)
                 (Sample.in_session 4096 []) [Sample.msg_a; Sample.msg_b]
    = Ret (fs1, g1, tr1)
    /\ handler (Sample.world None None [] None) fs1 g1 Sample.msg_c
       = Ret (fs2, g2, tr2)
    /\ (writer_flushes tr2 <> [] <-> 2 < len (batch g1) + 1)
    /\ (writer_flushes tr2 <> [] -> len (batch g2) = 0)
    /\ (writer_flushes tr2 = [] -> len (batch g2) = len (batch g1) + 1)
    /\ (elems (batch (Sample.in_session 4096 [])) = [] ->
        (writer_flushes tr2 <> [] <-> (2 + 1) mod (2 + 1) = 0)).
Proof.
  apply (handler_flushes_past_threshold (Sample.world None None [] None)
           (Sample.disk_with_sink 100) (Sample.in_session 4096 [])
           (Bufio.mkWriter None [] 4096 Sample.sink_file)
           [Sample.msg_a; Sample.msg_b] Sample.msg_c); reflexivity.
Defined.

(** Threshold 2: "a" and "b" wait, "c" flushes the three of them. *)
Example three_messages_threshold_two :
  exists fs' g',
    run_handlers (Sample.world None None [] None) (Sample.disk_with_sink 100)
                 (Sample.in_session 4096 [])
                 [Sample.msg_a; Sample.msg_b; Sample.msg_c]
    = Ret (fs', g',
           [EvDeliver Sample.msg_a; EvDeliver Sample.msg_b; EvDeliver Sample.msg_c;
            EvWriteString (record_of Sample.msg_a) None; EvAck Sample.msg_a;
            EvWriteString (record_of Sample.msg_b) None; EvAck Sample.msg_b;
            EvWriteString (record_of Sample.msg_c) None; EvAck Sample.msg_c;
            EvWriterFlush None])
    /\ len (batch g') = 0
    /\ file_content fs' "/var/log/events/events.log"
       = record_of Sample.msg_a ++ record_of Sample.msg_b ++ record_of Sample.msg_c.
Proof. eexists _, _. split; [vm_compute; reflexivity|]. split; reflexivity. Qed.

(** ** The message log file *)

Lemma string_length_app (s1 s2 : string) :
  String.length (s1 +:+ s2) = (String.length s1 + String.length s2)%nat.
Proof. induction s1 as [|c s1 IH]; simpl; [reflexivity|]. rewrite IH. reflexivity. Qed.

(** The log file is not the directory it lives in. *)
Lemma log_path_neq logpath filename : log_path logpath filename <> logpath.
Proof.
  intros H. apply (f_equal String.length) in H.
  unfold log_path in H. rewrite !string_length_app in H. simpl in H. lia.
Qed.

Lemma os_MkdirAll_nil fs path fs1 :
  os_MkdirAll fs path = (fs1, None) ->
  (fs_files fs !! path = None)
  /\ (path ∉ fs_refused fs)
  /\ path ∈ fs_dirs fs1
  /\ fs_files fs1 = fs_files fs
  /\ fs_refused fs1 = fs_refused fs
  /\ fs_readonly fs1 = fs_readonly fs
  /\ fs_free fs1 = fs_free fs
  /\ (forall p, p <> path -> p ∈ fs_dirs fs1 -> p ∈ fs_dirs fs)
  /\ (path ∈ fs_dirs fs -> fs1 = fs)
  /\ path <> "".
Proof.
  unfold os_MkdirAll.
  destruct (bool_decide (path = "")) eqn:Hne; [discriminate|].
  apply bool_decide_eq_false in Hne.
  destruct (bool_decide (path ∈ fs_refused fs)) eqn:Hre; [discriminate|].
  apply bool_decide_eq_false in Hre.
  destruct (fs_files fs !! path); [discriminate|].
  destruct (bool_decide (path ∈ fs_dirs fs)) eqn:Hd.
  - apply bool_decide_eq_true in Hd. intros [= <-]. auto 10.
  - apply bool_decide_eq_false in Hd.
    destruct (bool_decide (path ∈ fs_readonly fs)); [discriminate|].
    intros [= <-]. cbn [fs_files fs_dirs fs_refused fs_readonly fs_free].
    split; [reflexivity|]. split; [exact Hre|].
    split; [apply elem_of_union_l, elem_of_singleton; reflexivity|].
    repeat (split; [reflexivity|]).
    split; [|split; [intros H; contradiction|exact Hne]].
    intros p Hp [Hin|Hin]%elem_of_union; [|exact Hin].
    apply elem_of_singleton in Hin. contradiction.
Qed.

(** When [CreateMessageLogFiles] returns nil and the system lets the path
    be looked at, the file is there afterwards: created empty if it was
    missing, left as it was otherwise. *)
Lemma CreateMessageLogFiles_spec fs logpath filename fs' :
  CreateMessageLogFiles fs logpath filename = (fs', None) ->
  fs_refused fs' = fs_refused fs
  /\ fs_readonly fs' = fs_readonly fs
  /\ (log_path logpath filename ∉ fs_refused fs ->
      log_path logpath filename ∉ fs_dirs fs ->
      fs_files fs' !! log_path logpath filename
      = Some (file_content fs (log_path logpath filename))).
Proof.
  unfold CreateMessageLogFiles.
  destruct (os_MkdirAll fs logpath) as [fs1 [e|]] eqn:Hm; [discriminate|].
  apply os_MkdirAll_nil in Hm as (_ & _ & _ & Hfiles & Hre & Hro & _ & Hdirs & _).
  unfold os_Stat, os_Create, os_OpenFile, file_content. rewrite Hfiles, Hre, Hro.
  destruct (bool_decide (log_path logpath filename ∈ fs_refused fs)) eqn:Hr.
  - cbn [os_IsNotExist]. intros [= <-]. split; [exact Hre|]. split; [exact Hro|].
    apply bool_decide_eq_true in Hr. intros Hnot. contradiction.
  - destruct (fs_files fs !! log_path logpath filename) as [c|] eqn:Hf.
    + cbn [os_IsNotExist]. intros [= <-]. split; [exact Hre|]. split; [exact Hro|].
      intros _ _. rewrite Hfiles. exact Hf.
    + destruct (bool_decide (log_path logpath filename ∈ fs_dirs fs1)) eqn:Hd.
      * cbn [os_IsNotExist]. intros [= <-]. split; [exact Hre|]. split; [exact Hro|].
        intros _ Hnd. apply bool_decide_eq_true in Hd.
        apply Hdirs in Hd; [contradiction|]. apply log_path_neq.
      * cbn [os_IsNotExist].
        change (has_flag (Z.lor O_RDWR (Z.lor O_CREATE O_TRUNC)) O_CREATE) with true.
        cbn iota.
        destruct (bool_decide (log_path logpath filename ∈ fs_readonly fs));
          [discriminate|].
        intros [= <-]. cbn [set_files fs_files fs_refused fs_readonly].
        split; [exact Hre|]. split; [exact Hro|].
        intros _ _. rewrite lookup_insert_eq. reflexivity.
Qed.

(** ** Sessions: [Consume] *)

Lemma deliveries_app tr1 tr2 :
  deliveries (tr1 ++ tr2) = deliveries tr1 ++ deliveries tr2.
Proof. apply omap_app. Qed.

(** Opening the sink as [Consume] does changes nothing on the disk, and
    succeeds exactly on an existing file the system lets the process look
    at and write to. *)
Lemma os_OpenFile_sink fs p fs1 r :
  os_OpenFile fs p sink_flags = (fs1, r) ->
  fs1 = fs
  /\ match r with
     | inl file =>
         file = mkFile p sink_flags false
         /\ is_Some (fs_files fs !! p)
         /\ (p ∉ fs_refused fs) /\ (p ∉ fs_readonly fs)
     | inr _ =>
         fs_files fs !! p = None \/ p ∈ fs_refused fs \/ p ∈ fs_readonly fs
     end.
Proof.
  unfold os_OpenFile.
  destruct (bool_decide (p ∈ fs_refused fs)) eqn:Hre.
  - apply bool_decide_eq_true in Hre. intros [= <- <-]. auto.
  - apply bool_decide_eq_false in Hre.
    destruct (fs_files fs !! p) as [c|] eqn:Hf.
    + change (wants_write sink_flags) with true. rewrite andb_true_r.
      destruct (bool_decide (p ∈ fs_readonly fs)) eqn:Hro.
      * apply bool_decide_eq_true in Hro. intros [= <- <-]. auto.
      * apply bool_decide_eq_false in Hro.
        change (has_flag sink_flags O_TRUNC) with false. cbn iota.
        intros [= <- <-]. eauto 6.
    + change (has_flag sink_flags O_CREATE) with false. cbn iota.
      intros [= <- <-]. auto.
Qed.

(** Without a pub/sub client [Consume] returns at once. *)
Lemma Consume_client_unavailable w fs g lg e :
  Worker_logger_info (Worker g) = Some lg ->
  pubsub_NewClient w (Project g) (Keyfile g) = Some e ->
  Consume w fs g
  = Ret (log_Println w lg "Starting Receiver" fs, g, Some err_client,
         [EvLog lg "Starting Receiver"]).
Proof. intros Hl Hc. unfold Consume. rewrite Hl. cbv zeta. rewrite Hc. reflexivity. Qed.

(** Without a sink file it returns before [Receive] is called. *)
Lemma Consume_sink_unopenable w fs g lg fs1 e :
  Worker_logger_info (Worker g) = Some lg ->
  pubsub_NewClient w (Project g) (Keyfile g) = None ->
  os_OpenFile (log_Println w lg "Starting Receiver" fs) (sink_path g) sink_flags
  = (fs1, inr e) ->
  Consume w fs g
  = Ret (log_Println w lg "Starting Receiver" fs, g, Some err_open,
         [EvLog lg "Starting Receiver"]).
Proof.
  intros Hl Hc Ho. unfold Consume. rewrite Hl. cbv zeta. rewrite Hc, Ho.
  apply os_OpenFile_sink in Ho as [-> _]. reflexivity.
Qed.

(** With both, the callback runs on every message [Receive] delivers, and
    the error of [Receive], if any, is reported at the end. *)
Lemma Consume_session w fs g lg fs1 file msgs rerr :
  Worker_logger_info (Worker g) = Some lg ->
  threshold_ok g = true ->
  pubsub_NewClient w (Project g) (Keyfile g) = None ->
  os_OpenFile (log_Println w lg "Starting Receiver" fs) (sink_path g) sink_flags
  = (fs1, inl file) ->
  pubsub_Receive w (Subscription g) (session_timeout g) = (msgs, rerr) ->
  exists fs2 g2 tr,
    Consume w fs g
    = Ret (fs2, g2,
           match rerr with Some _ => Some err_receive | None => None end, tr)
    /\ deliveries tr = msgs
    /\ In (EvReceive (Subscription g) (session_timeout g)) tr.
Proof.
  intros Hl Hok Hc Ho Hr. unfold Consume. rewrite Hl. cbv zeta. rewrite Hc, Ho.
  change (Subscription (set_writer g (Some (Bufio.NewWriter file))))
    with (Subscription g).
  change (session_timeout (set_writer g (Some (Bufio.NewWriter file))))
    with (session_timeout g).
  rewrite Hr.
  destruct (run_handlers_spec w msgs fs1
              (set_writer g (Some (Bufio.NewWriter file))) (Bufio.NewWriter file)
              eq_refl Hok)
    as (fs2 & g2 & tr & bw2 & Hrun & _ & _ & _ & Hd & _).
  rewrite Hrun. cbn [bind].
  destruct rerr as [e|]; eexists _, _, _; (split; [reflexivity|]);
    (split; [|right; left; reflexivity]);
    rewrite deliveries_app;
    match goal with
    | |- deliveries (?a :: ?b :: tr) ++ _ = _ =>
        change (deliveries (a :: b :: tr)) with (deliveries tr)
    end;
    rewrite Hd; apply app_nil_r.
Qed.



(** C10. [Consume] opens the sink with the write and append flags and
    without the create flag: when the file does not exist at that point,
    that is once the start line is logged (and the pub/sub client could be
    created), it returns the sink error and never runs the callback.
    [CreateMessageLogFiles] is what puts the file there: when it returns nil
    for a path the system lets it look at, the file exists, created empty
    if it was missing; so after a successful [NewGCPclient] an open with
    these flags finds the file, and succeeds unless the system denies
    writing to it. *)
Theorem Consume_needs_existing_sink :
  (sink_flags = Z.lor O_WRONLY O_APPEND
   /\ has_flag sink_flags O_WRONLY = true
   /\ has_flag sink_flags O_APPEND = true
   /\ has_flag sink_flags O_CREATE = false)
  /\ (forall w fs g lg,
        Worker_logger_info (Worker g) = Some lg ->
        pubsub_NewClient w (Project g) (Keyfile g) = None ->
        fs_files (log_Println w lg "Starting Receiver" fs) !! sink_path g = None ->
        exists tr,
          Consume w fs g
          = Ret (log_Println w lg "Starting Receiver" fs, g, Some err_open, tr)
          /\ deliveries tr = [])
  /\ (forall fs logpath filename fs',
        CreateMessageLogFiles fs logpath filename = (fs', None) ->
        log_path logpath filename ∉ fs_refused fs ->
        log_path logpath filename ∉ fs_dirs fs ->
        fs_files fs' !! log_path logpath filename
        = Some (file_content fs (log_path logpath filename)))
  /\ (forall w fs configfile fs' g,
        NewGCPclient w fs configfile = (fs', Ret (Some g, None)) ->
        sink_path g ∉ fs_refused fs ->
        sink_path g ∉ fs_dirs fs ->
        is_Some (fs_files fs' !! sink_path g)
        /\ (sink_path g ∉ fs_readonly fs ->
            exists file, os_OpenFile fs' (sink_path g) sink_flags = (fs', inl file))).
Proof.
  split; [repeat split; reflexivity|].
  split.
  { intros w fs g lg Hl Hc Hnone.
    assert (Ho : exists e,
               os_OpenFile (log_Println w lg "Starting Receiver" fs) (sink_path g)
                           sink_flags
               = (log_Println w lg "Starting Receiver" fs, inr e)).
    { unfold os_OpenFile. rewrite Hnone.
      destruct (bool_decide _); [eauto|].
      change (has_flag sink_flags O_CREATE) with false. cbn iota. eauto. }
    destruct Ho as [e Ho].
    rewrite (Consume_sink_unopenable w fs g lg _ e Hl Hc Ho).
    eexists. split; reflexivity. }
  split.
  { intros fs logpath filename fs' Hc. apply CreateMessageLogFiles_spec in Hc.
    apply Hc. }
  intros w fs configfile fs' g Hnew Hnr Hnd.
  apply NewGCPclient_client in Hnew
    as (content & d & _ & _ & Hc & _ & _ & _ & _ & _ & Hsub & Hpath & _).
  apply CreateMessageLogFiles_spec in Hc as (Hre & Hro & Hfile).
  unfold sink_path in *. rewrite Hsub, Hpath in *.
  specialize (Hfile Hnr Hnd). split; [eauto|]. intros Hnro.
  unfold os_OpenFile. rewrite Hre, Hro, Hfile.
  rewrite bool_decide_eq_false_2 by exact Hnr.
  rewrite (bool_decide_eq_false_2 _ Hnro).
  change (has_flag sink_flags O_TRUNC) with false. cbn iota. eauto.
Qed.

(** On a disk without the sink file [Consume] fails; [NewGCPclient] on the
    same disk creates the file. *)
Lemma Consume_needs_existing_sink_witness :
  (exists tr,
     Consume (Sample.world None None [Sample.msg_a] None) (Sample.disk 100)
             Sample.client
     = Ret (Sample.println Sample.info_logger "Starting Receiver" (Sample.disk 100),
            Sample.client, Some err_open, tr)
     /\ deliveries tr = [])
  /\ (is_Some (fs_files (Sample.disk_with_sink 100) !! sink_path Sample.client)
      /\ (sink_path Sample.client ∉ fs_readonly (Sample.disk 100) ->
          exists file,
            os_OpenFile (Sample.disk_with_sink 100) (sink_path Sample.client)
                        sink_flags
            = (Sample.disk_with_sink 100, inl file))).
Proof.
  destruct Consume_needs_existing_sink as (_ & Hmissing & _ & Hcreated).
  split.
  - apply (Hmissing (Sample.world None None [Sample.msg_a] None) (Sample.disk 100)
                    Sample.client Sample.info_logger);
      [reflexivity | reflexivity | vm_compute; reflexivity].
  - apply (Hcreated (Sample.world (Some Sample.config) None [] None)
                    (Sample.disk 100) "worker.json"
                    (Sample.disk_with_sink 100) Sample.client).
    + vm_compute. reflexivity.
    + vm_compute. discriminate.
    + vm_compute. discriminate.
Defined.

(** ** The time limit of a session *)

(** Within the range of [time.Duration] the time limit handed to [Receive]
    is the configured number, in minutes. *)
Lemma session_timeout_minutes g :
  - 153722867 <= Maxwaittime (Worker g) <= 153722867 ->
  session_timeout g = Maxwaittime (Worker g) * (60 * 1000000000).
Proof.
  intros H. unfold session_timeout, Duration_mul, wrap64, time_Minute.
  rewrite Z.mod_small by lia. lia.
Qed.

(** Without a configured waiting time the limit is ten minutes. *)
Lemma NewGCPclient_default_wait w fs configfile fs' g content d :
  NewGCPclient w fs configfile = (fs', Ret (Some g, None)) ->
  ioutil_ReadFile fs configfile = inl content ->
  json_Unmarshal w content = Some d ->
  Maxwaittime (Worker d) = 0 ->
  Maxwaittime (Worker g) = 10 /\ session_timeout g = 10 * time_Minute.
Proof.
  intros H Hc Hd Hz. apply NewGCPclient_client in H
    as (content' & d' & Hc' & Hd' & _ & _ & _ & _ & Hm & _).
  rewrite Hc in Hc'. injection Hc' as <-. rewrite Hd in Hd'. injection Hd' as <-.
  rewrite Hz in Hm. simpl in Hm. split; [exact Hm|].
  unfold session_timeout. rewrite Hm. reflexivity.
Qed.

(** Past that range the product wraps around: 153722868 minutes become a
    negative duration. *)
Lemma session_timeout_wraps :
  Duration_mul 153722868 time_Minute = - 9223371993709551616.
Proof. reflexivity. Qed.

(** ** A disk with room for the batch *)

Lemma File_Write_enough fs f p :
  writable f = true ->
  Z.of_nat (length p) <= fs_free fs ->
  exists fs',
    File_Write fs f p = (fs', Z.of_nat (length p), None)
    /\ fs_free fs' = fs_free fs - Z.of_nat (length p).
Proof.
  unfold writable, File_Write. intros Hw Hfree.
  apply andb_true_iff in Hw as [Hopen Hflag].
  destruct (f_closed f); [discriminate|]. rewrite Hflag. cbn [negb].
  rewrite Z.min_l by lia.
  rewrite Z.ltb_irrefl. eexists. split; reflexivity.
Qed.

Lemma Bufio_Flush_enough fs b :
  Bufio.bw_err b = None ->
  writable (Bufio.bw_wr b) = true ->
  0 <= headroom fs b ->
  exists fs' b',
    Bufio.Flush fs b = (fs', b', None)
    /\ Bufio.bw_err b' = None
    /\ Bufio.bw_wr b' = Bufio.bw_wr b
    /\ Bufio.bw_size b' = Bufio.bw_size b
    /\ Bufio.bw_data b' = []
    /\ headroom fs' b' = headroom fs b.
Proof.
  intros He Hw Hroom. unfold Bufio.Flush, headroom in *. rewrite He.
  destruct (Z.eqb_spec (Bufio.Buffered b) 0) as [Hz|Hz].
  - exists fs, b. unfold Bufio.Buffered in Hz.
    destruct (Bufio.bw_data b); [auto 6|simpl in Hz; lia].
  - destruct (File_Write_enough fs (Bufio.bw_wr b) (Bufio.bw_data b) Hw)
      as (fs' & Hwrite & Hfree); [unfold Bufio.Buffered in Hroom; lia|].
    rewrite Hwrite. fold (Bufio.Buffered b). rewrite Z.ltb_irrefl.
    eexists _, _. split; [reflexivity|]. cbn [Bufio.bw_err Bufio.bw_wr Bufio.bw_data
                                            Bufio.bw_size].
    repeat split. unfold Bufio.Buffered in *. simpl. lia.
Qed.

(** With room on the disk for the buffer and the string, the loop of
    [WriteString] ends without error. *)
Lemma WriteString_loop_enough fs b s nn :
  Bufio.bw_err b = None ->
  writable (Bufio.bw_wr b) = true ->
  0 <= headroom fs b - Z.of_nat (length s) ->
  Bufio.bw_err (Bufio.WriteString_loop fs b s nn).1.1.2 = None
  /\ Bufio.bw_wr (Bufio.WriteString_loop fs b s nn).1.1.2 = Bufio.bw_wr b
  /\ headroom (Bufio.WriteString_loop fs b s nn).1.1.1
              (Bufio.WriteString_loop fs b s nn).1.1.2
     - Z.of_nat (length (Bufio.WriteString_loop fs b s nn).1.2)
     = headroom fs b - Z.of_nat (length s).
Proof.
  funelim (Bufio.WriteString_loop fs b s nn).
  - clear Heqcall. intros He Hw Hroom.
    assert (Hn : 0 <= (Bufio.copy_in b s).2 <= Z.of_nat (length s))
      by (unfold Bufio.copy_in; cbn [snd]; lia).
    assert (Hb0 : Bufio.Buffered (Bufio.copy_in b s).1
                  = Bufio.Buffered b + (Bufio.copy_in b s).2).
    { unfold Bufio.copy_in, Bufio.Buffered. cbn [fst snd Bufio.bw_data].
      rewrite length_app, length_take. lia. }
    destruct (Bufio_Flush_enough fs (Bufio.copy_in b s).1)
      as (fs1 & b1 & Hf & He1 & Hwr1 & _ & _ & Hroom1);
      [exact He | exact Hw | unfold headroom in *; lia |].
    rewrite Hf in *. cbn [fst snd] in *.
    destruct H as (He2 & Hwr2 & Hroom2).
    + exact He1.
    + rewrite Hwr1. exact Hw.
    + rewrite Hroom1, length_drop. unfold headroom in *. lia.
    + split; [exact He2|]. split; [rewrite Hwr2, Hwr1; reflexivity|].
      rewrite Hroom2, Hroom1, length_drop. unfold headroom in *. lia.
  - cbn [fst snd]. auto.
Qed.

Lemma WriteString_enough fs b s :
  Bufio.bw_err b = None ->
  writable (Bufio.bw_wr b) = true ->
  0 <= headroom fs b - Z.of_nat (length s) ->
  exists fs' b' n,
    Bufio.WriteString fs b s = (fs', b', n, None)
    /\ Bufio.bw_err b' = None
    /\ Bufio.bw_wr b' = Bufio.bw_wr b
    /\ headroom fs' b' = headroom fs b - Z.of_nat (length s).
Proof.
  intros He Hw Hroom. unfold Bufio.WriteString.
  pose proof (WriteString_loop_enough fs b s 0 He Hw Hroom) as (He1 & Hwr1 & Hroom1).
  pose proof (WriteString_loop_ok fs b s 0 He1) as (_ & _ & Hfit).
  destruct (Bufio.WriteString_loop fs b s 0) as [[[fs1 b1] s1] nn].
  cbn [fst snd] in *. rewrite He1.
  eexists _, _, _. split; [reflexivity|].
  unfold Bufio.copy_in. cbn [fst snd Bufio.bw_err Bufio.bw_wr].
  split; [exact He1|]. split; [exact Hwr1|].
  rewrite <- Hroom1. unfold headroom, Bufio.Buffered, Bufio.Available in *.
  cbn [Bufio.bw_data]. rewrite length_app, length_take. lia.
Qed.

(** With room for the whole batch no [WriteString] of the loop fails. *)
Lemma Flush_loop_enough : forall msgs fs bw,
  Bufio.bw_err bw = None ->
  writable (Bufio.bw_wr bw) = true ->
  0 <= headroom fs bw - Z.of_nat (length (concat (map record_of msgs))) ->
  Forall (fun wr => wr.2 = None) (writes (Flush_loop fs bw msgs).2)
  /\ Bufio.bw_err (Flush_loop fs bw msgs).1.2 = None
  /\ Bufio.bw_wr (Flush_loop fs bw msgs).1.2 = Bufio.bw_wr bw
  /\ 0 <= headroom (Flush_loop fs bw msgs).1.1 (Flush_loop fs bw msgs).1.2.
Proof.
  induction msgs as [|m rest IH]; intros fs bw He Hw Hroom.
  - simpl in *. repeat split; [constructor|assumption|lia].
  - cbn [map concat] in Hroom. rewrite length_app in Hroom.
    destruct (WriteString_enough fs bw (record_of m) He Hw)
      as (fs1 & bw1 & n & Hws & He1 & Hwr1 & Hroom1); [lia|].
    cbn [Flush_loop]. rewrite Hws.
    destruct (IH fs1 bw1 He1) as (Hall & He2 & Hwr2 & Hroom2);
      [rewrite Hwr1; exact Hw | lia |].
    destruct (Flush_loop fs1 bw1 rest) as [[fs2 bw2] evs]. cbn [fst snd] in *.
    split; [|split; [exact He2|split; [congruence|exact Hroom2]]].
    unfold writes in *. cbn [omap list_omap write_of].
    constructor; [reflexivity|exact Hall].
Qed.

(** With a healthy writer and room on the disk for the batch, every message
    is acknowledged and the file ends with the records. *)
Lemma Flush_enough_space fs g bw :
  writer g = Some bw ->
  threshold_ok g = true ->
  Bufio.bw_err bw = None ->
  writable (Bufio.bw_wr bw) = true ->
  0 <= headroom fs bw
       - Z.of_nat (length (concat (map record_of (elems (batch g))))) ->
  exists fs' g' tr,
    Flush fs g = Ret (fs', g', tr)
    /\ verdicts tr = map (fun m => (m, true)) (elems (batch g))
    /\ writer_flushes tr = [None]
    /\ file_content fs' (f_name (Bufio.bw_wr bw))
       = sink_stream fs bw ++ concat (map record_of (elems (batch g))).
Proof.
  intros Hw Hok He Hwr Hroom. rewrite (Flush_ret fs g bw Hw Hok). cbv zeta.
  destruct (Flush_loop_enough (elems (batch g)) fs bw He Hwr Hroom)
    as (Hall & He1 & Hwr1 & Hroom1).
  destruct (Flush_loop_ok (elems (batch g)) fs bw Hall) as [_ Hst].
  destruct (Flush_loop_trace (elems (batch g)) fs bw) as (results & Hlen & Htr).
  destruct (Flush_loop fs bw (elems (batch g))) as [[fs1 bw1] evs].
  cbn [fst snd] in *.
  destruct (Bufio_Flush_enough fs1 bw1 He1) as (fs2 & bw2 & Hf & _ & _ & _ & Hd & _);
    [rewrite Hwr1; exact Hwr | exact Hroom1 |].
  pose proof Hf as Hf'. apply Bufio_Flush_ok in Hf' as (_ & _ & _ & Hwr2 & Hst2).
  rewrite Hf. cbn [fst snd]. eexists _, _, _. split; [reflexivity|].
  subst evs. split; [|split].
  - unfold verdicts. rewrite omap_app. cbn [omap list_omap verdict_of].
    rewrite app_nil_r.
    fold (verdicts (concat (zip_with message_events (elems (batch g)) results))).
    rewrite verdicts_message_events by exact Hlen.
    rewrite writes_message_events in Hall by exact Hlen.
    clear -Hall Hlen. revert results Hall Hlen.
    induction (elems (batch g)) as [|m rest IH]; intros [|e results] Hall Hlen;
      try discriminate; [reflexivity|].
    cbn [zip_with map] in *. inversion Hall as [|? ? Hhd Htl]; subst.
    simpl in Hhd. subst e. f_equal. apply IH; [exact Htl|].
    simpl in Hlen. congruence.
  - unfold writer_flushes. rewrite omap_app.
    fold (writer_flushes (concat (zip_with message_events (elems (batch g)) results))).
    rewrite writer_flushes_message_events. reflexivity.
  - rewrite <- Hst, <- Hst2. unfold sink_stream.
    rewrite Hd, app_nil_r, Hwr2, Hwr1. reflexivity.
Qed.

(** ** From construction to session *)

(** A client built by [NewGCPclient] can run sessions: [Consume] returns on
    every world and disk, and every [Flush] of the session finds a writer
    and a capacity [make] accepts. *)
Lemma NewGCPclient_Consume_returns w0 fs0 configfile fs' g w fs :
  NewGCPclient w0 fs0 configfile = (fs', Ret (Some g, None)) ->
  exists fs2 g2 err tr, Consume w fs g = Ret (fs2, g2, err, tr).
Proof.
  intros Hnew. pose proof (NewGCPclient_threshold_ok _ _ _ _ _ Hnew) as Hok.
  apply NewGCPclient_client in Hnew
    as (_ & _ & _ & _ & _ & _ & _ & _ & _ & _ & _ & _ & [lg Hl]).
  destruct (pubsub_NewClient w (Project g) (Keyfile g)) as [e|] eqn:Hc.
  - rewrite (Consume_client_unavailable w fs g lg e Hl Hc). eauto.
  - destruct (os_OpenFile (log_Println w lg "Starting Receiver" fs) (sink_path g)
                sink_flags) as [fs1 [file|e]] eqn:Ho.
    + destruct (pubsub_Receive w (Subscription g) (session_timeout g))
        as [msgs rerr] eqn:Hr.
      destruct (Consume_session w fs g lg fs1 file msgs rerr Hl Hok Hc Ho Hr)
        as (fs2 & g2 & tr & Hcons & _).
      eauto.
    + rewrite (Consume_sink_unopenable w fs g lg fs1 e Hl Hc Ho). eauto.
Qed.

(** The verdict follows [WriteString], not the disk: with a 4096-byte
    buffer and a full disk the three records are accepted by the buffer and
    acknowledged, then the writer's [Flush] fails and the file stays
    empty. *)
Example acknowledged_before_stored :
  exists fs' g',
    Flush (Sample.disk_with_sink 0)
          (Sample.in_session 4096 [Sample.msg_a; Sample.msg_b; Sample.msg_c])
    = Ret (fs', g',
           [EvWriteString (record_of Sample.msg_a) None; EvAck Sample.msg_a;
            EvWriteString (record_of Sample.msg_b) None; EvAck Sample.msg_b;
            EvWriteString (record_of Sample.msg_c) None; EvAck Sample.msg_c;
            EvWriterFlush (Some ENOSPC)])
    /\ file_content fs' "/var/log/events/events.log" = [].
Proof. eexists _, _. split; [vm_compute; reflexivity|]. reflexivity. Qed.

(** * Further properties of the consumer *)

(** ** The sink only grows *)

Lemma appended_to_refl name fs : appended_to name fs fs.
Proof.
  split; [exists []; symmetry; apply app_nil_r|]. repeat split; reflexivity.
Qed.

Lemma appended_to_trans name fs1 fs2 fs3 :
  appended_to name fs1 fs2 -> appended_to name fs2 fs3 -> appended_to name fs1 fs3.
Proof.
  intros ([s1 H1] & Ho1 & Hd1 & Hr1 & Hw1) ([s2 H2] & Ho2 & Hd2 & Hr2 & Hw2).
  split; [exists (s1 ++ s2); rewrite H2, H1, app_assoc; reflexivity|].
  split; [intros p Hp; rewrite Ho2, Ho1 by exact Hp; reflexivity|].
  repeat split; congruence.
Qed.

Lemma File_Write_appended fs f p :
  appended_to (f_name f) fs (File_Write fs f p).1.1.
Proof.
  unfold File_Write.
  destruct (f_closed f); [apply appended_to_refl|].
  destruct (negb _); [apply appended_to_refl|].
  cbn [fst]. split; [|split; [|repeat split; reflexivity]].
  - eexists. unfold file_content at 1. cbn [fs_files].
    rewrite lookup_insert_eq. reflexivity.
  - intros q Hq. cbn [fs_files]. apply lookup_insert_ne. congruence.
Qed.

(** The writer's [Flush] keeps the file and the size of the buffer, and
    only appends. *)
Lemma Bufio_Flush_appended fs b :
  appended_to (f_name (Bufio.bw_wr b)) fs (Bufio.Flush fs b).1.1
  /\ Bufio.bw_wr (Bufio.Flush fs b).1.2 = Bufio.bw_wr b
  /\ Bufio.bw_size (Bufio.Flush fs b).1.2 = Bufio.bw_size b.
Proof.
  unfold Bufio.Flush.
  destruct (Bufio.bw_err b); [split; [apply appended_to_refl|auto]|].
  destruct (Bufio.Buffered b =? 0); [split; [apply appended_to_refl|auto]|].
  pose proof (File_Write_appended fs (Bufio.bw_wr b) (Bufio.bw_data b)) as Ha.
  destruct (File_Write fs (Bufio.bw_wr b) (Bufio.bw_data b)) as [[fs' n] [e|]];
    cbn [fst snd] in *; [auto|].
  destruct (n <? Bufio.Buffered b); cbn [fst snd]; auto.
Qed.

Lemma WriteString_loop_appended fs b s nn :
  appended_to (f_name (Bufio.bw_wr b)) fs (Bufio.WriteString_loop fs b s nn).1.1.1
  /\ Bufio.bw_wr (Bufio.WriteString_loop fs b s nn).1.1.2 = Bufio.bw_wr b
  /\ Bufio.bw_size (Bufio.WriteString_loop fs b s nn).1.1.2 = Bufio.bw_size b.
Proof.
  funelim (Bufio.WriteString_loop fs b s nn).
  - clear Heqcall.
    destruct (Bufio_Flush_appended fs (Bufio.copy_in b s).1) as (Ha & Hwr & Hsz).
    destruct H as (Ha' & Hwr' & Hsz').
    rewrite Hwr in Ha', Hwr'. rewrite Hsz in Hsz'.
    unfold Bufio.copy_in in Ha, Ha', Hwr', Hsz'.
    cbn [fst snd Bufio.bw_wr Bufio.bw_size] in Ha, Ha', Hwr', Hsz'.
    split; [exact (appended_to_trans _ _ _ _ Ha Ha')|]. split; assumption.
  - cbn [fst snd]. split; [apply appended_to_refl|auto].
Qed.

Lemma WriteString_appended fs b s :
  appended_to (f_name (Bufio.bw_wr b)) fs (Bufio.WriteString fs b s).1.1.1
  /\ Bufio.bw_wr (Bufio.WriteString fs b s).1.1.2 = Bufio.bw_wr b
  /\ Bufio.bw_size (Bufio.WriteString fs b s).1.1.2 = Bufio.bw_size b.
Proof.
  unfold Bufio.WriteString.
  pose proof (WriteString_loop_appended fs b s 0) as H.
  destruct (Bufio.WriteString_loop fs b s 0) as [[[fs1 b1] s1] nn].
  cbn [fst snd] in H. destruct (Bufio.bw_err b1); exact H.
Qed.

Lemma Flush_loop_appended : forall msgs fs bw,
  appended_to (f_name (Bufio.bw_wr bw)) fs (Flush_loop fs bw msgs).1.1
  /\ Bufio.bw_wr (Flush_loop fs bw msgs).1.2 = Bufio.bw_wr bw
  /\ Bufio.bw_size (Flush_loop fs bw msgs).1.2 = Bufio.bw_size bw.
Proof.
  induction msgs as [|m rest IH]; intros fs bw.
  - simpl. split; [apply appended_to_refl|auto].
  - cbn [Flush_loop].
    pose proof (WriteString_appended fs bw (record_of m)) as (Ha & Hwr & Hsz).
    destruct (Bufio.WriteString fs bw (record_of m)) as [[[fs1 bw1] n] err].
    cbn [fst snd] in *. specialize (IH fs1 bw1). rewrite Hwr, Hsz in IH.
    destruct (Flush_loop fs1 bw1 rest) as [[fs2 bw2] evs]. cbn [fst snd] in *.
    destruct IH as (Ha' & Hwr' & Hsz').
    split; [exact (appended_to_trans _ _ _ _ Ha Ha')|]. split; assumption.
Qed.

(** ** One callback, one session *)

Lemma omap_message_events {B} (f : Event -> option B) :
  (forall s e, f (EvWriteString s e) = None) ->
  (forall m, f (EvAck m) = None) ->
  (forall m, f (EvNack m) = None) ->
  forall msgs results, omap f (concat (zip_with message_events msgs results)) = [].
Proof.
  intros Hw Ha Hn. induction msgs as [|m rest IH]; intros [|e results];
    try reflexivity.
  cbn [zip_with concat]. rewrite omap_app, IH. unfold message_events.
  cbn [omap list_omap]. rewrite Hw. destruct (succeeded e); [rewrite Ha|rewrite Hn];
    reflexivity.
Qed.

Lemma verdicts_app tr1 tr2 : verdicts (tr1 ++ tr2) = verdicts tr1 ++ verdicts tr2.
Proof. apply omap_app. Qed.

Lemma writes_app tr1 tr2 : writes (tr1 ++ tr2) = writes tr1 ++ writes tr2.
Proof. apply omap_app. Qed.

Lemma closes_app tr1 tr2 : closes (tr1 ++ tr2) = closes tr1 ++ closes tr2.
Proof. apply omap_app. Qed.

Lemma receives_app tr1 tr2 : receives (tr1 ++ tr2) = receives tr1 ++ receives tr2.
Proof. apply omap_app. Qed.

Lemma logs_app tr1 tr2 : logs (tr1 ++ tr2) = logs tr1 ++ logs tr2.
Proof. apply omap_app. Qed.

(** What one invocation of the callback does to the disk, the writer, the
    batch and the trace. *)
Lemma handler_session w fs g bw msg :
  writer g = Some bw ->
  threshold_ok g = true ->
  exists fs' g' tr bw',
    handler w fs g msg = Ret (fs', g', tr)
    /\ writer g' = Some bw'
    /\ Worker g' = Worker g
    /\ Bufio.bw_wr bw' = Bufio.bw_wr bw
    /\ Bufio.bw_size bw' = Bufio.bw_size bw
    /\ appended_to (f_name (Bufio.bw_wr bw)) fs fs'
    /\ map fst (verdicts tr) ++ elems (batch g') = elems (batch g) ++ [msg]
    /\ deliveries tr = [msg]
    /\ closes tr = [] /\ receives tr = [] /\ logs tr = []
    /\ len (batch g') <= threshold g
    /\ (len (batch g) + 1 <= threshold g ->
        tr = [EvDeliver msg] /\ fs' = fs /\ bw' = bw).
Proof.
  intros Hw Hok. unfold handler.
  change (threshold (set_batch g (append (growslice w) (batch g) msg)))
    with (threshold g).
  cbn [batch set_batch]. rewrite len_append.
  assert (H0 : 0 <= threshold g).
  { apply andb_true_iff in Hok as [H0 _]. apply Z.leb_le in H0. exact H0. }
  destruct (Z.ltb_spec (threshold g) (len (batch g) + 1)) as [Hlt|Hge].
  - set (g1 := set_batch g (append (growslice w) (batch g) msg)).
    rewrite (Flush_ret fs g1 bw Hw Hok). cbv zeta. cbn [bind].
    destruct (Flush_loop_trace (elems (batch g1)) fs bw) as (results & Hlen & Htr).
    destruct (Flush_loop_appended (elems (batch g1)) fs bw) as (Ha1 & Hwr1 & Hsz1).
    destruct (Bufio_Flush_appended (Flush_loop fs bw (elems (batch g1))).1.1
                (Flush_loop fs bw (elems (batch g1))).1.2) as (Ha2 & Hwr2 & Hsz2).
    rewrite Hwr1 in Ha2. rewrite Htr.
    eexists _, _, _, _. split; [reflexivity|].
    cbn [writer set_batch set_writer Worker batch elems].
    split; [reflexivity|]. split; [reflexivity|].
    split; [congruence|]. split; [congruence|].
    split; [exact (appended_to_trans _ _ _ _ Ha1 Ha2)|].
    split.
    { rewrite app_nil_r.
      change (verdicts (EvDeliver msg :: ?t)) with (verdicts t).
      rewrite verdicts_app, verdicts_message_events by exact Hlen.
      cbn [verdicts omap list_omap verdict_of]. rewrite app_nil_r.
      rewrite (fst_zip_with_results _ (fun m => m) succeeded) by exact Hlen.
      rewrite map_id. subst g1. cbn [batch set_batch]. apply elems_append. }
    split.
    { unfold deliveries. cbn [omap list_omap delivery_of]. f_equal.
      rewrite omap_app, omap_message_events by reflexivity. reflexivity. }
    split.
    { unfold closes. cbn [omap list_omap close_of].
      rewrite omap_app, omap_message_events by reflexivity. reflexivity. }
    split.
    { unfold receives. cbn [omap list_omap receive_of].
      rewrite omap_app, omap_message_events by reflexivity. reflexivity. }
    split.
    { unfold logs. cbn [omap list_omap log_of].
      rewrite omap_app, omap_message_events by reflexivity. reflexivity. }
    split; [unfold len; simpl; lia|]. intros Hsmall. lia.
  - eexists fs, _, _, bw. split; [reflexivity|].
    cbn [writer set_batch Worker batch].
    split; [exact Hw|]. split; [reflexivity|]. split; [reflexivity|].
    split; [reflexivity|]. split; [apply appended_to_refl|].
    split; [rewrite elems_append; reflexivity|].
    repeat (split; [reflexivity|]).
    split; [rewrite len_append; lia|]. auto.
Qed.

(** The same for the callbacks of a whole session. *)
Lemma run_handlers_session w : forall msgs fs g bw,
  writer g = Some bw ->
  threshold_ok g = true ->
  exists fs' g' tr bw',
    run_handlers w fs g msgs = Ret (fs', g', tr)
    /\ writer g' = Some bw'
    /\ Worker g' = Worker g
    /\ Bufio.bw_wr bw' = Bufio.bw_wr bw
    /\ Bufio.bw_size bw' = Bufio.bw_size bw
    /\ appended_to (f_name (Bufio.bw_wr bw)) fs fs'
    /\ map fst (verdicts tr) ++ elems (batch g') = elems (batch g) ++ msgs
    /\ deliveries tr = msgs
    /\ closes tr = [] /\ receives tr = [] /\ logs tr = []
    /\ (len (batch g) <= threshold g -> len (batch g') <= threshold g)
    /\ (len (batch g) + Z.of_nat (length msgs) <= threshold g ->
        tr = map EvDeliver msgs /\ fs' = fs /\ bw' = bw).
Proof.
  induction msgs as [|m rest IH]; intros fs g bw Hw Hok.
  - exists fs, g, [], bw. cbn [run_handlers map verdicts omap list_omap app].
    rewrite app_nil_r.
    repeat (split; [first [reflexivity | exact Hw | apply appended_to_refl]|]).
    split; auto.
  - destruct (handler_session w fs g bw m Hw Hok)
      as (fs1 & g1 & tr1 & bw1 & Hh & Hw1 & Hwk1 & Hwr1 & Hsz1 & Ha1 & Hv1 & Hd1
          & Hc1 & Hr1 & Hl1 & Hb1 & Hs1).
    assert (HT : threshold g1 = threshold g) by (unfold threshold; congruence).
    assert (Hok1 : threshold_ok g1 = true)
      by (unfold threshold_ok in *; rewrite HT; exact Hok).
    destruct (IH fs1 g1 bw1 Hw1 Hok1)
      as (fs2 & g2 & tr2 & bw2 & Hr & Hw2 & Hwk2 & Hwr2 & Hsz2 & Ha2 & Hv2 & Hd2
          & Hc2 & Hr2 & Hl2 & Hb2 & Hs2).
    rewrite Hwr1 in Ha2. rewrite HT in Hb2, Hs2.
    cbn [run_handlers]. rewrite Hh. cbn [bind]. rewrite Hr. cbn [bind].
    exists fs2, g2, (tr1 ++ tr2), bw2. split; [reflexivity|].
    split; [exact Hw2|]. split; [congruence|]. split; [congruence|].
    split; [congruence|]. split; [exact (appended_to_trans _ _ _ _ Ha1 Ha2)|].
    split.
    { rewrite verdicts_app, map_app, <- app_assoc, Hv2, app_assoc, Hv1,
        <- app_assoc. reflexivity. }
    split; [rewrite deliveries_app, Hd1, Hd2; reflexivity|].
    split; [rewrite closes_app, Hc1, Hc2; reflexivity|].
    split; [rewrite receives_app, Hr1, Hr2; reflexivity|].
    split; [rewrite logs_app, Hl1, Hl2; reflexivity|].
    split; [intros _; apply Hb2; exact Hb1|].
    intros Hsmall. cbn [length] in Hsmall. rewrite Nat2Z.inj_succ in Hsmall.
    assert (Hpos : 0 <= Z.of_nat (length rest)) by lia.
    destruct (Hs1 ltac:(lia)) as (-> & -> & ->).
    assert (Hl : len (batch g1) = len (batch g) + 1).
    { apply (f_equal (@length Message)) in Hv1.
      cbn [verdicts omap list_omap verdict_of map app] in Hv1.
      rewrite length_app in Hv1. unfold len. simpl in Hv1. lia. }
    destruct (Hs2 ltac:(lia)) as (-> & -> & ->). auto.
Qed.

(** Every return of [Consume] is one of three: no client, no sink, or a
    session whose callbacks all ran. The sink is opened on the disk the
    start line left; the closing line is logged when [Receive] returned
    nil. *)
Lemma Consume_inv w fs g fs2 g2 err tr :
  Consume w fs g = Ret (fs2, g2, err, tr) ->
  exists lg,
    Worker_logger_info (Worker g) = Some lg
    /\ ((err = Some err_client
         /\ fs2 = log_Println w lg "Starting Receiver" fs /\ g2 = g
         /\ tr = [EvLog lg "Starting Receiver"])
        \/ (err = Some err_open
            /\ fs2 = log_Println w lg "Starting Receiver" fs /\ g2 = g
            /\ tr = [EvLog lg "Starting Receiver"]
            /\ (fs_files (log_Println w lg "Starting Receiver" fs) !! sink_path g
                = None
                \/ sink_path g ∈ fs_refused (log_Println w lg "Starting Receiver" fs)
                \/ sink_path g
                   ∈ fs_readonly (log_Println w lg "Starting Receiver" fs)))
        \/ (exists msgs rerr g1 tr1 fs1,
              is_Some (fs_files (log_Println w lg "Starting Receiver" fs)
                         !! sink_path g)
              /\ pubsub_Receive w (Subscription g) (session_timeout g) = (msgs, rerr)
              /\ run_handlers w (log_Println w lg "Starting Receiver" fs)
                   (set_writer g (Some (Bufio.NewWriter
                                          (mkFile (sink_path g) sink_flags false))))
                   msgs
                 = Ret (fs1, g1, tr1)
              /\ fs2 = match rerr with
                       | Some _ => fs1
                       | None => log_Println w lg "Closing GCP Receiver" fs1
                       end
              /\ g2 = close_writer_file g1
              /\ err = match rerr with Some _ => Some err_receive | None => None end
              /\ tr = EvLog lg "Starting Receiver"
                        :: EvReceive (Subscription g) (session_timeout g)
                        :: tr1
                        ++ match rerr with
                           | Some _ => [EvClose (mkFile (sink_path g) sink_flags false)]
                           | None => [EvLog lg "Closing GCP Receiver";
                                      EvClose (mkFile (sink_path g) sink_flags false)]
                           end)).
Proof.
  unfold Consume.
  destruct (Worker_logger_info (Worker g)) as [lg|]; [|discriminate].
  cbv zeta. intros H. exists lg. split; [reflexivity|].
  destruct (pubsub_NewClient w (Project g) (Keyfile g)) as [e|].
  { injection H as <- <- <- <-. auto. }
  destruct (os_OpenFile (log_Println w lg "Starting Receiver" fs) (sink_path g)
              sink_flags) as [fs1 [file|e]] eqn:Ho;
    apply os_OpenFile_sink in Ho as [-> Ho].
  - destruct Ho as (-> & Hsome & _). right. right.
    change (Subscription (set_writer g ?x)) with (Subscription g) in H.
    change (session_timeout (set_writer g ?x)) with (session_timeout g) in H.
    destruct (pubsub_Receive w (Subscription g) (session_timeout g))
      as [msgs rerr] eqn:Hr.
    destruct (run_handlers w _ _ msgs) as [[[fs3 g3] tr3]|] eqn:Hrun;
      [|discriminate].
    cbn [bind] in H. exists msgs, rerr, g3, tr3, fs3.
    destruct rerr as [e|]; injection H as <- <- <- <-; auto 10.
  - injection H as <- <- <- <-. auto 10.
Qed.

Lemma batch_close_writer_file g : batch (close_writer_file g) = batch g.
Proof. unfold close_writer_file. destruct (writer g); reflexivity. Qed.

Lemma verdicts_deliver msgs : verdicts (map EvDeliver msgs) = [].
Proof. induction msgs as [|m rest IH]; [reflexivity|exact IH]. Qed.

Lemma writes_deliver msgs : writes (map EvDeliver msgs) = [].
Proof. induction msgs as [|m rest IH]; [reflexivity|exact IH]. Qed.

(** The events [Consume] adds around the callbacks carry no verdict, no
    write and no delivery. *)
Lemma session_trace_reading lg sub limit tr1 tail :
  Forall (fun ev => match ev with EvLog _ _ | EvClose _ => True | _ => False end)
         tail ->
  verdicts (EvLog lg "Starting Receiver" :: EvReceive sub limit :: tr1 ++ tail)
  = verdicts tr1
  /\ writes (EvLog lg "Starting Receiver" :: EvReceive sub limit :: tr1 ++ tail)
     = writes tr1
  /\ deliveries (EvLog lg "Starting Receiver" :: EvReceive sub limit :: tr1 ++ tail)
     = deliveries tr1.
Proof.
  intros Htail.
  change (verdicts (?a :: ?b :: ?t)) with (verdicts t).
  change (writes (?a :: ?b :: ?t)) with (writes t).
  change (deliveries (?a :: ?b :: ?t)) with (deliveries t).
  rewrite verdicts_app, writes_app, deliveries_app.
  assert (verdicts tail = [] /\ writes tail = [] /\ deliveries tail = [])
    as (-> & -> & ->).
  { induction Htail as [|ev rest Hev _ IH]; [auto|].
    destruct ev; try contradiction; exact IH. }
  rewrite !app_nil_r. auto.
Qed.

(** X1. Over a session no message is lost or duplicated: the messages that
    got a verdict, in the order of their verdicts, followed by the messages
    still in the batch when [Consume] returns, are the messages that were in
    the batch before followed by the delivered ones, in delivery order. And
    a batch within the threshold before is within it after. *)
Theorem Consume_loses_no_message w fs g fs2 g2 err tr :
  Consume w fs g = Ret (fs2, g2, err, tr) ->
  threshold_ok g = true ->
  map fst (verdicts tr) ++ elems (batch g2) = elems (batch g) ++ deliveries tr
  /\ (len (batch g) <= threshold g -> len (batch g2) <= threshold g).
Proof.
  intros Hc Hok. apply Consume_inv in Hc as (lg & Hl & Hcase).
  destruct Hcase as [(_ & _ & -> & ->)|[(_ & _ & -> & -> & _)|Hs]];
    [cbn; rewrite app_nil_r; auto..|].
  destruct Hs as (msgs & rerr & g1 & tr1 & fs1 & _ & _ & Hrun & _ & -> & _ & ->).
  destruct (run_handlers_session w msgs (log_Println w lg "Starting Receiver" fs)
              (set_writer g (Some (Bufio.NewWriter
                                     (mkFile (sink_path g) sink_flags false))))
              (Bufio.NewWriter (mkFile (sink_path g) sink_flags false))
              eq_refl Hok)
    as (fs' & g' & tr' & bw' & Hrun' & _ & _ & _ & _ & _ & Hv & Hd & _ & _ & _
        & Hb & _).
  rewrite Hrun in Hrun'. injection Hrun' as <- <- <-.
  rewrite batch_close_writer_file.
  destruct (session_trace_reading lg (Subscription g) (session_timeout g) tr1
              (match rerr with
               | Some _ => [EvClose (mkFile (sink_path g) sink_flags false)]
               | None => [EvLog lg "Closing GCP Receiver";
                          EvClose (mkFile (sink_path g) sink_flags false)]
               end)) as (-> & _ & ->).
  { destruct rerr; repeat constructor. }
  rewrite Hd. split; [exact Hv|exact Hb].
Qed.

Lemma Consume_loses_no_message_witness :
  exists fs2 g2 tr,
    Consume (Sample.world None None
               [Sample.msg_a; Sample.msg_b; Sample.msg_c; Sample.msg_a] None)
            (Sample.disk_with_sink 100) Sample.client
    = Ret (fs2, g2, None, tr)
    /\ map fst (verdicts tr) = [Sample.msg_a; Sample.msg_b; Sample.msg_c]
    /\ elems (batch g2) = [Sample.msg_a]
    /\ map fst (verdicts tr) ++ elems (batch g2)
       = elems (batch Sample.client) ++ deliveries tr.
Proof.
  eexists _, _, _. split; [vm_compute; reflexivity|].
  split; [reflexivity|]. split; [reflexivity|].
  eapply (Consume_loses_no_message
            (Sample.world None None
               [Sample.msg_a; Sample.msg_b; Sample.msg_c; Sample.msg_a] None)
            (Sample.disk_with_sink 100) Sample.client);
    [vm_compute; reflexivity|reflexivity].
Defined.

(** A return of [Consume] on a client whose threshold [make] accepts: either
    it failed before [Receive], or the callbacks ran and kept what a session
    keeps. *)
Lemma Consume_cases w fs g fs2 g2 err tr :
  Consume w fs g = Ret (fs2, g2, err, tr) ->
  threshold_ok g = true ->
  exists lg,
    Worker_logger_info (Worker g) = Some lg
    /\ (((err = Some err_client \/ err = Some err_open)
         /\ fs2 = log_Println w lg "Starting Receiver" fs /\ g2 = g
         /\ tr = [EvLog lg "Starting Receiver"])
        \/ (exists msgs (rerr : option error) g1 tr1 bw1 fs1,
              is_Some (fs_files (log_Println w lg "Starting Receiver" fs)
                         !! sink_path g)
              /\ run_handlers w (log_Println w lg "Starting Receiver" fs)
                   (set_writer g (Some (Bufio.NewWriter
                                          (mkFile (sink_path g) sink_flags false))))
                   msgs
                 = Ret (fs1, g1, tr1)
              /\ fs2 = match rerr with
                       | Some _ => fs1
                       | None => log_Println w lg "Closing GCP Receiver" fs1
                       end
              /\ g2 = close_writer_file g1
              /\ err = match rerr with Some _ => Some err_receive | None => None end
              /\ tr = EvLog lg "Starting Receiver"
                        :: EvReceive (Subscription g) (session_timeout g)
                        :: tr1
                        ++ match rerr with
                           | Some _ => [EvClose (mkFile (sink_path g) sink_flags false)]
                           | None => [EvLog lg "Closing GCP Receiver";
                                      EvClose (mkFile (sink_path g) sink_flags false)]
                           end
              /\ writer g1 = Some bw1
              /\ Worker g1 = Worker g
              /\ Bufio.bw_wr bw1 = mkFile (sink_path g) sink_flags false
              /\ appended_to (sink_path g)
                   (log_Println w lg "Starting Receiver" fs) fs1
              /\ deliveries tr1 = msgs
              /\ closes tr1 = [] /\ receives tr1 = [] /\ logs tr1 = []
              /\ (len (batch g) + Z.of_nat (length msgs) <= threshold g ->
                  tr1 = map EvDeliver msgs
                  /\ fs1 = log_Println w lg "Starting Receiver" fs))).
Proof.
  intros Hc Hok. apply Consume_inv in Hc as (lg & Hl & Hcase).
  exists lg. split; [exact Hl|].
  destruct Hcase as [(-> & -> & -> & ->)|[(-> & -> & -> & -> & _)|Hs]];
    [left; auto..|].
  right.
  destruct Hs as (msgs & rerr & g1 & tr1 & fs1 & Hsome & _ & Hrun & -> & -> & ->
                  & ->).
  destruct (run_handlers_session w msgs (log_Println w lg "Starting Receiver" fs)
              (set_writer g (Some (Bufio.NewWriter
                                     (mkFile (sink_path g) sink_flags false))))
              (Bufio.NewWriter (mkFile (sink_path g) sink_flags false))
              eq_refl Hok)
    as (fs' & g' & tr' & bw' & Hrun' & Hw' & Hwk & Hwr & _ & Ha & _ & Hd & Hcl & Hre
        & Hlg & _ & Hsmall).
  rewrite Hrun in Hrun'. injection Hrun' as <- <- <-.
  exists msgs, rerr, g1, tr1, bw', fs1.
  repeat (split; [first [assumption | reflexivity]|]).
  intros Hle. destruct (Hsmall Hle) as (-> & -> & _). auto.
Qed.

(** X2. A session closes the sink file exactly once, as the last thing it
    does, after exactly one call of [Receive] with the subscription and the
    time limit of the client; the writer it leaves in the client is over the
    closed file. When [Consume] fails before the session (no client, no
    sink) it calls neither [Receive] nor [Close]. The closing line is logged
    only when [Receive] returned no error. *)
Theorem Consume_closes_sink_once w fs g fs2 g2 err tr :
  Consume w fs g = Ret (fs2, g2, err, tr) ->
  threshold_ok g = true ->
  ((err = Some err_client \/ err = Some err_open) ->
   closes tr = [] /\ receives tr = [])
  /\ (err <> Some err_client -> err <> Some err_open ->
      closes tr = [mkFile (sink_path g) sink_flags false]
      /\ last tr = Some (EvClose (mkFile (sink_path g) sink_flags false))
      /\ receives tr = [(Subscription g, session_timeout g)]
      /\ (exists bw, writer g2 = Some bw
                     /\ Bufio.bw_wr bw = mkFile (sink_path g) sink_flags true)
      /\ (In "Closing GCP Receiver" (map snd (logs tr)) <-> err = None)).
Proof.
  intros Hc Hok. apply Consume_cases in Hc as (lg & Hl & Hcase); [|exact Hok].
  destruct Hcase as [(He & _ & _ & ->)|Hs].
  - split; [auto|]. intros H1 H2. destruct He; contradiction.
  - destruct Hs as (msgs & rerr & g1 & tr1 & bw1 & fs1 & _ & _ & _ & -> & -> & ->
                    & Hw1 & _ & Hwr & _ & _ & Hcl & Hre & Hlg & _).
    split.
    { intros [He|He]; destruct rerr; discriminate He. }
    intros _ _.
    change (closes (?a :: ?b :: ?t)) with (closes t).
    change (receives (EvLog ?l ?s :: EvReceive ?x ?y :: ?t)) with ((x, y) :: receives t).
    change (logs (EvLog ?l ?s :: ?b :: ?t)) with ((l, s) :: logs t).
    rewrite closes_app, receives_app, logs_app, Hcl, Hre, Hlg.
    split; [destruct rerr; reflexivity|].
    split.
    { rewrite !app_comm_cons. destruct rerr.
      - apply last_snoc.
      - change [EvLog lg "Closing GCP Receiver";
                EvClose (mkFile (sink_path g) sink_flags false)]
          with ([EvLog lg "Closing GCP Receiver"]
                  ++ [EvClose (mkFile (sink_path g) sink_flags false)]).
        rewrite app_assoc. apply last_snoc. }
    split; [destruct rerr; reflexivity|].
    split.
    { unfold close_writer_file. rewrite Hw1. eexists. split; [reflexivity|].
      cbn [Bufio.bw_wr]. rewrite Hwr. reflexivity. }
    destruct rerr as [e|]; cbn.
    + split; [intros [H|[]]; discriminate H|discriminate].
    + split; [reflexivity|]. intros _. right. left. reflexivity.
Qed.

Lemma Consume_closes_sink_once_witness :
  exists fs2 g2 tr,
    Consume (Sample.world None None [Sample.msg_a] (Some (ErrExternal "gone")))
            (Sample.disk_with_sink 100) Sample.client
    = Ret (fs2, g2, Some err_receive, tr)
    /\ closes tr = [Sample.sink_file]
    /\ last tr = Some (EvClose Sample.sink_file)
    /\ receives tr = [("events", 600000000000)]
    /\ (exists bw, writer g2 = Some bw
                   /\ Bufio.bw_wr bw
                      = mkFile "/var/log/events/events.log" sink_flags true)
    /\ (In "Closing GCP Receiver" (map snd (logs tr)) <-> Some err_receive = None).
Proof.
  eexists _, _, _. split; [vm_compute; reflexivity|].
  eapply (Consume_closes_sink_once
            (Sample.world None None [Sample.msg_a] (Some (ErrExternal "gone")))
            (Sample.disk_with_sink 100) Sample.client);
    [vm_compute; reflexivity | reflexivity | discriminate | discriminate].
Defined.

(** ** The time limit handed to [Receive] *)

(** C8, as the code has it. The time limit of a session is the product
    [Maxwaittime * time.Minute], taken in 64-bit nanoseconds. For a client
    built from a configuration whose waiting time is at most 153722867 in
    absolute value, a session calls [Receive] once, with the subscription of
    the configuration and that many minutes as the limit, ten minutes when
    the configuration gives no waiting time or zero; the callback runs on
    the messages [Receive] delivers under that limit and on no other. What
    [Receive] does when the limit is reached is the library's affair. *)
Theorem Consume_time_limit w0 fs0 configfile fs1 g content d w fs fs2 g2 err tr :
  NewGCPclient w0 fs0 configfile = (fs1, Ret (Some g, None)) ->
  ioutil_ReadFile fs0 configfile = inl content ->
  json_Unmarshal w0 content = Some d ->
  - 153722867 <= Maxwaittime (Worker d) <= 153722867 ->
  Consume w fs g = Ret (fs2, g2, err, tr) ->
  err <> Some err_client ->
  err <> Some err_open ->
  let limit := (if Maxwaittime (Worker d) =? 0 then 10 else Maxwaittime (Worker d))
               * 60000000000 in
  receives tr = [(Subscription d, limit)]
  /\ deliveries tr = (pubsub_Receive w (Subscription d) limit).1.
Proof.
  intros Hnew Hread Hdec Hrange Hc H1 H2 limit.
  pose proof (NewGCPclient_threshold_ok _ _ _ _ _ Hnew) as Hok.
  apply NewGCPclient_client in Hnew
    as (content' & d' & Hc' & Hd' & _ & _ & _ & _ & Hm & _ & Hsub & _).
  rewrite Hread in Hc'. injection Hc' as <-. rewrite Hdec in Hd'. injection Hd' as <-.
  assert (Hlimit : session_timeout g = limit).
  { rewrite session_timeout_minutes; rewrite Hm; [reflexivity|].
    destruct (Z.eqb_spec (Maxwaittime (Worker d)) 0); lia. }
  apply Consume_inv in Hc as (lg & Hl & Hcase).
  destruct Hcase as [(-> & _)|[(-> & _)|Hs]]; [contradiction..|].
  destruct Hs as (msgs & rerr & g1 & tr1 & fs3 & _ & Hrecv & Hrun & _ & _ & _ & ->).
  destruct (run_handlers_session w msgs (log_Println w lg "Starting Receiver" fs)
              (set_writer g (Some (Bufio.NewWriter
                                     (mkFile (sink_path g) sink_flags false))))
              (Bufio.NewWriter (mkFile (sink_path g) sink_flags false))
              eq_refl Hok)
    as (fs' & g' & tr' & bw' & Hrun' & _ & _ & _ & _ & _ & _ & Hd & _ & Hre & _).
  rewrite Hrun in Hrun'. injection Hrun' as <- <- <-.
  rewrite Hsub, Hlimit in *. rewrite Hrecv. cbn [fst].
  change (receives (EvLog ?l ?s :: EvReceive ?x ?y :: ?t)) with ((x, y) :: receives t).
  change (deliveries (EvLog ?l ?s :: EvReceive ?x ?y :: ?t)) with (deliveries t).
  rewrite receives_app, deliveries_app, Hre, Hd.
  destruct rerr; cbn; rewrite app_nil_r; auto.
Qed.

(** The worker of [worker.json], which gives no waiting time, hands ten
    minutes to [Receive]. *)
Lemma Consume_time_limit_witness :
  exists fs2 g2 tr,
    Consume (Sample.world None None [Sample.msg_a; Sample.msg_b] None)
            (Sample.disk_with_sink 100) Sample.client
    = Ret (fs2, g2, None, tr)
    /\ (let limit := (if Maxwaittime (Worker Sample.config) =? 0 then 10
                      else Maxwaittime (Worker Sample.config)) * 60000000000 in
        receives tr = [(Subscription Sample.config, limit)]
        /\ deliveries tr
           = (pubsub_Receive
                (Sample.world None None [Sample.msg_a; Sample.msg_b] None)
                (Subscription Sample.config) limit).1).
Proof.
  eexists _, _, _. split; [vm_compute; reflexivity|].
  eapply (Consume_time_limit
            (Sample.world (Some Sample.config) None [] None) (Sample.disk 100)
            "worker.json" (Sample.disk_with_sink 100) Sample.client []
            Sample.config
            (Sample.world None None [Sample.msg_a; Sample.msg_b] None)
            (Sample.disk_with_sink 100));
    [vm_compute; reflexivity | reflexivity | reflexivity
    | vm_compute; split; discriminate | vm_compute; reflexivity
    | discriminate | discriminate].
Defined.

(** The deadline is not always the configured number of minutes from now.
    [NewGCPclient] accepts a waiting time of 153722868 minutes; the product
    with [time.Minute] does not fit 64 bits and wraps around, and [Receive]
    is called with a negative time limit. *)
Lemma Consume_time_limit_counterexample :
  exists fs1 g fs2 g2 tr,
    NewGCPclient (Sample.world (Some Sample.config_long_wait) None [] None)
                 (Sample.disk 100) "worker.json"
    = (fs1, Ret (Some g, None))
    /\ Maxwaittime (Worker g) = 153722868
    /\ Consume (Sample.world None None [Sample.msg_a] None) fs1 g
       = Ret (fs2, g2, None, tr)
    /\ receives tr = [("events", - 9223371993709551616)]
    /\ - 9223371993709551616 <> 153722868 * 60000000000.
Proof.
  eexists _, _, _, _, _. split; [vm_compute; reflexivity|].
  split; [reflexivity|]. split; [vm_compute; reflexivity|].
  split; [reflexivity|]. discriminate.
Qed.

(** What a spared file holds is not changed by a line of the log. *)
Lemma spares_file_content w lg name line fs :
  spares w lg name ->
  file_content (log_Println w lg line fs) name = file_content fs name.
Proof. intros H. unfold file_content. rewrite (H line fs). reflexivity. Qed.

(** X3. [Consume] only appends to the sink. When the logger of the client
    leaves the sink file alone (the worker log is another file), what was in
    the sink file before is still there, at its beginning, when [Consume]
    returns, whether writes failed or not; and a file that is neither the
    sink nor touched by the logger is what it was before. *)
Theorem Consume_only_appends w fs g lg fs2 g2 err tr :
  Consume w fs g = Ret (fs2, g2, err, tr) ->
  threshold_ok g = true ->
  Worker_logger_info (Worker g) = Some lg ->
  spares w lg (sink_path g) ->
  (exists suffix,
     file_content fs2 (sink_path g) = file_content fs (sink_path g) ++ suffix)
  /\ (forall p, p <> sink_path g -> spares w lg p ->
                fs_files fs2 !! p = fs_files fs !! p).
Proof.
  intros Hc Hok Hl Hsp. apply Consume_cases in Hc as (lg' & Hl' & Hcase); [|exact Hok].
  rewrite Hl in Hl'. injection Hl' as <-.
  destruct Hcase as [(_ & -> & _)|Hs].
  { split.
    - exists []. rewrite app_nil_r. apply spares_file_content. exact Hsp.
    - intros p _ Hp. apply Hp. }
  destruct Hs as (msgs & rerr & g1 & tr1 & bw1 & fs1 & _ & _ & -> & _ & _ & _ & _ & _
                  & _ & Ha & _).
  destruct Ha as ([suffix Hsuf] & Hother & _).
  split.
  - exists suffix.
    rewrite <- (spares_file_content w lg (sink_path g) "Starting Receiver" fs Hsp),
      <- Hsuf.
    destruct rerr; [reflexivity|]. apply spares_file_content. exact Hsp.
  - intros p Hne Hp.
    rewrite <- (Hp "Starting Receiver" fs), <- (Hother p Hne).
    destruct rerr; [reflexivity|]. apply Hp.
Qed.

(** The logger of the sample world touches its own file only. *)
Lemma println_spares decoded client msgs rerr lg name :
  lg_filename lg <> name ->
  spares (Sample.world decoded client msgs rerr) lg name.
Proof.
  intros Hne line fs. cbn [log_Println Sample.world]. unfold Sample.println.
  assert (Hopen : fs_files (os_OpenFile fs (lg_filename lg)
                              (Z.lor O_CREATE (Z.lor O_WRONLY O_APPEND))).1 !! name
                  = fs_files fs !! name).
  { unfold os_OpenFile.
    destruct (bool_decide (lg_filename lg ∈ fs_refused fs)); [reflexivity|].
    destruct (fs_files fs !! lg_filename lg).
    - destruct (_ && _); reflexivity.
    - change (has_flag (Z.lor O_CREATE (Z.lor O_WRONLY O_APPEND)) O_CREATE) with true.
      cbn iota. destruct (bool_decide _); [reflexivity|].
      cbn [fst set_files fs_files]. apply lookup_insert_ne. exact Hne. }
  assert (Hname : forall fs1 f,
             os_OpenFile fs (lg_filename lg)
               (Z.lor O_CREATE (Z.lor O_WRONLY O_APPEND)) = (fs1, inl f) ->
             f_name f = lg_filename lg).
  { unfold os_OpenFile. intros fs1 f.
    destruct (bool_decide (lg_filename lg ∈ fs_refused fs)); [discriminate|].
    destruct (fs_files fs !! lg_filename lg).
    - destruct (_ && _); [discriminate|]. intros [= _ <-]. reflexivity.
    - destruct (has_flag _ O_CREATE); [|discriminate].
      destruct (bool_decide _); [discriminate|]. intros [= _ <-]. reflexivity. }
  destruct (os_OpenFile fs (lg_filename lg) _) as [fs1 [f|e]] eqn:Ho;
    cbn [fst] in Hopen; [|exact Hopen].
  specialize (Hname fs1 f eq_refl).
  destruct (File_Write_appended fs1 f
              (list_byte_of_string (lg_prefix lg +:+ line) ++ [x0a]))
    as (_ & Hother & _).
  rewrite Hother by congruence. exact Hopen.
Qed.

Lemma Consume_only_appends_witness :
  exists fs2 g2 tr,
    Consume (Sample.world None None
               [Sample.msg_a; Sample.msg_b; Sample.msg_c] None)
            Sample.disk_with_old_sink Sample.client
    = Ret (fs2, g2, None, tr)
    /\ ((exists suffix,
           file_content fs2 (sink_path Sample.client)
           = file_content Sample.disk_with_old_sink (sink_path Sample.client)
               ++ suffix)
        /\ (forall p, p <> sink_path Sample.client ->
                      spares (Sample.world None None
                                [Sample.msg_a; Sample.msg_b; Sample.msg_c] None)
                             Sample.info_logger p ->
                      fs_files fs2 !! p = fs_files Sample.disk_with_old_sink !! p)).
Proof.
  eexists _, _, _. split; [vm_compute; reflexivity|].
  eapply (Consume_only_appends
            (Sample.world None None
               [Sample.msg_a; Sample.msg_b; Sample.msg_c] None)
            Sample.disk_with_old_sink Sample.client Sample.info_logger);
    [vm_compute; reflexivity | reflexivity | reflexivity
    | apply println_spares; discriminate].
Defined.

(** X4. Messages that do not fill the batch past the threshold are left
    pending: when the batch and the deliveries of a session together stay
    within the threshold, [Consume] returns without a single [WriteString],
    [Ack] or [Nack]; the disk is touched by the logger only, so that the
    delivered messages are in no file; they sit in the batch of the client,
    after those that were there. *)
Theorem Consume_within_threshold_leaves_pending w fs g fs2 g2 err tr :
  Consume w fs g = Ret (fs2, g2, err, tr) ->
  threshold_ok g = true ->
  len (batch g) + Z.of_nat (length (deliveries tr)) <= threshold g ->
  verdicts tr = []
  /\ writes tr = []
  /\ fs2 = logged w (logs tr) fs
  /\ elems (batch g2) = elems (batch g) ++ deliveries tr.
Proof.
  intros Hc Hok Hle.
  pose proof Hc as Hc'. apply Consume_cases in Hc' as (lg & _ & Hcase); [|exact Hok].
  destruct Hcase as [(_ & -> & -> & ->)|Hs].
  - cbn. rewrite app_nil_r. auto.
  - destruct Hs as (msgs & rerr & g1 & tr1 & bw1 & fs1 & _ & Hrun & -> & -> & -> & ->
                    & _ & _ & _ & _ & Hd & _ & _ & Hlg & Hsmall).
    destruct (session_trace_reading lg (Subscription g) (session_timeout g) tr1
                (match rerr with
                 | Some _ => [EvClose (mkFile (sink_path g) sink_flags false)]
                 | None => [EvLog lg "Closing GCP Receiver";
                            EvClose (mkFile (sink_path g) sink_flags false)]
                 end)) as (Hv & Hw & Hdl).
    { destruct rerr; repeat constructor. }
    rewrite Hdl, Hd in Hle. destruct (Hsmall Hle) as (Htr & ->).
    rewrite Hv, Hw, Hdl, Htr, verdicts_deliver, writes_deliver.
    split; [reflexivity|]. split; [reflexivity|].
    split.
    { change (logs (EvLog lg "Starting Receiver" :: ?b :: ?t))
        with ((lg, "Starting Receiver") :: logs t).
      rewrite logs_app, <- Htr, Hlg. destruct rerr; reflexivity. }
    destruct (run_handlers_session w msgs (log_Println w lg "Starting Receiver" fs)
                (set_writer g (Some (Bufio.NewWriter
                                       (mkFile (sink_path g) sink_flags false))))
                (Bufio.NewWriter (mkFile (sink_path g) sink_flags false))
                eq_refl Hok)
      as (fs' & g' & tr' & bw' & Hrun' & _ & _ & _ & _ & _ & Hcons & _).
    rewrite Hrun in Hrun'. injection Hrun' as <- <- <-.
    rewrite Htr, verdicts_deliver in Hcons. cbn [map app] in Hcons.
    rewrite batch_close_writer_file, Hcons.
    unfold deliveries. clear. f_equal.
    induction msgs as [|m rest IH]; [reflexivity|]. cbn. f_equal. exact IH.
Qed.

Lemma Consume_within_threshold_leaves_pending_witness :
  exists fs2 g2 tr,
    Consume (Sample.world None None [Sample.msg_a; Sample.msg_b] None)
            (Sample.disk_with_sink 100) Sample.client
    = Ret (fs2, g2, None, tr)
    /\ file_content fs2 (sink_path Sample.client) = []
    /\ (verdicts tr = []
        /\ writes tr = []
        /\ fs2 = logged (Sample.world None None [Sample.msg_a; Sample.msg_b] None)
                        (logs tr) (Sample.disk_with_sink 100)
        /\ elems (batch g2) = elems (batch Sample.client) ++ deliveries tr).
Proof.
  eexists _, _, _. split; [vm_compute; reflexivity|]. split; [reflexivity|].
  eapply (Consume_within_threshold_leaves_pending
            (Sample.world None None [Sample.msg_a; Sample.msg_b] None)
            (Sample.disk_with_sink 100) Sample.client);
    [vm_compute; reflexivity | reflexivity | vm_compute; discriminate].
Defined.

(** X5. Verdicts come in groups of [T + 1]: for a client whose batch is
    within the threshold [T], with [k] messages in it, a session of [n]
    deliveries gives a verdict to [(T + 1) * ((k + n) / (T + 1))] messages
    and returns with [(k + n) mod (T + 1)] messages pending in the batch,
    neither acknowledged nor rejected. *)
Theorem Consume_pending_count w fs g fs2 g2 err tr :
  Consume w fs g = Ret (fs2, g2, err, tr) ->
  threshold_ok g = true ->
  len (batch g) <= threshold g ->
  len (batch g2)
  = (len (batch g) + Z.of_nat (length (deliveries tr))) mod (threshold g + 1)
  /\ Z.of_nat (length (verdicts tr))
     = (threshold g + 1)
       * ((len (batch g) + Z.of_nat (length (deliveries tr))) / (threshold g + 1)).
Proof.
  intros Hc Hok Hle.
  assert (H0 : 0 <= threshold g).
  { apply andb_true_iff in Hok as [H0 _]. apply Z.leb_le in H0. exact H0. }
  assert (Hpos : 0 <= len (batch g)) by (unfold len; lia).
  assert (Hmod : len (batch g2)
                 = (len (batch g) + Z.of_nat (length (deliveries tr)))
                     mod (threshold g + 1)).
  { pose proof Hc as Hc'.
    apply Consume_cases in Hc' as (lg & _ & Hcase); [|exact Hok].
    destruct Hcase as [(_ & _ & -> & ->)|Hs].
    - cbn. rewrite Z.add_0_r, Z.mod_small by lia. reflexivity.
    - destruct Hs as (msgs & rerr & g1 & tr1 & bw1 & fs1 & _ & Hrun & _ & -> & _ & ->
                      & _ & _ & _ & _ & Hd & _).
      destruct (session_trace_reading lg (Subscription g) (session_timeout g) tr1
                  (match rerr with
                   | Some _ => [EvClose (mkFile (sink_path g) sink_flags false)]
                   | None => [EvLog lg "Closing GCP Receiver";
                              EvClose (mkFile (sink_path g) sink_flags false)]
                   end)) as (_ & _ & ->).
      { destruct rerr; repeat constructor. }
      rewrite Hd, batch_close_writer_file.
      destruct (run_handlers_spec w msgs (log_Println w lg "Starting Receiver" fs)
                  (set_writer g (Some (Bufio.NewWriter
                                         (mkFile (sink_path g) sink_flags false))))
                  (Bufio.NewWriter (mkFile (sink_path g) sink_flags false))
                  eq_refl Hok)
        as (fs' & g' & tr' & bw' & Hrun' & _ & _ & _ & _ & Hlen).
      rewrite Hrun in Hrun'. injection Hrun' as <- <- <-.
      apply Hlen. exact Hle. }
  split; [exact Hmod|].
  assert (Hcons : map fst (verdicts tr) ++ elems (batch g2)
                  = elems (batch g) ++ deliveries tr).
  { pose proof Hc as Hc'.
    apply Consume_cases in Hc' as (lg & _ & Hcase); [|exact Hok].
    destruct Hcase as [(_ & _ & -> & ->)|Hs]; [cbn; rewrite app_nil_r; reflexivity|].
    destruct Hs as (msgs & rerr & g1 & tr1 & bw1 & fs1 & _ & Hrun & _ & -> & _ & ->
                    & _).
    destruct (session_trace_reading lg (Subscription g) (session_timeout g) tr1
                (match rerr with
                 | Some _ => [EvClose (mkFile (sink_path g) sink_flags false)]
                 | None => [EvLog lg "Closing GCP Receiver";
                            EvClose (mkFile (sink_path g) sink_flags false)]
                 end)) as (-> & _ & ->).
    { destruct rerr; repeat constructor. }
    destruct (run_handlers_session w msgs (log_Println w lg "Starting Receiver" fs)
                (set_writer g (Some (Bufio.NewWriter
                                       (mkFile (sink_path g) sink_flags false))))
                (Bufio.NewWriter (mkFile (sink_path g) sink_flags false))
                eq_refl Hok)
      as (fs' & g' & tr' & bw' & Hrun' & _ & _ & _ & _ & _ & Hv & Hd & _).
    rewrite Hrun in Hrun'. injection Hrun' as <- <- <-.
    rewrite batch_close_writer_file, Hd. exact Hv. }
  apply (f_equal (@length Message)) in Hcons.
  rewrite !length_app, length_map in Hcons.
  pose proof (Z.div_mod (len (batch g) + Z.of_nat (length (deliveries tr)))
                (threshold g + 1) ltac:(lia)) as Hdm.
  unfold len in *. lia.
Qed.

Lemma Consume_pending_count_witness :
  exists fs2 g2 tr,
    Consume (Sample.world None None
               [Sample.msg_a; Sample.msg_b; Sample.msg_c; Sample.msg_a;
                Sample.msg_b; Sample.msg_c; Sample.msg_a] None)
            (Sample.disk_with_sink 100) Sample.client
    = Ret (fs2, g2, None, tr)
    /\ len (batch g2) = 1
    /\ length (verdicts tr) = 6%nat
    /\ (len (batch g2)
        = (len (batch Sample.client) + Z.of_nat (length (deliveries tr)))
            mod (threshold Sample.client + 1)
        /\ Z.of_nat (length (verdicts tr))
           = (threshold Sample.client + 1)
             * ((len (batch Sample.client) + Z.of_nat (length (deliveries tr)))
                / (threshold Sample.client + 1))).
Proof.
  eexists _, _, _. split; [vm_compute; reflexivity|].
  split; [reflexivity|]. split; [reflexivity|].
  eapply (Consume_pending_count
            (Sample.world None None
               [Sample.msg_a; Sample.msg_b; Sample.msg_c; Sample.msg_a;
                Sample.msg_b; Sample.msg_c; Sample.msg_a] None)
            (Sample.disk_with_sink 100) Sample.client);
    [vm_compute; reflexivity | reflexivity | vm_compute; discriminate].
Defined.

(** ** [Flush] on a writer that kept an error *)

Lemma verdicts_all (e : option error) : forall msgs,
  verdicts (concat (map (fun m => message_events m e) msgs))
  = map (fun m => (m, succeeded e)) msgs.
Proof.
  induction msgs as [|m rest IH]; [reflexivity|].
  cbn [map concat]. rewrite verdicts_app, IH. destruct e; reflexivity.
Qed.

Lemma writer_flushes_all (e : option error) : forall msgs,
  writer_flushes (concat (map (fun m => message_events m e) msgs)) = [].
Proof.
  induction msgs as [|m rest IH]; [reflexivity|].
  cbn [map concat]. unfold writer_flushes in *. rewrite omap_app, IH.
  destruct e; reflexivity.
Qed.

(** X6. Once the writer has kept the error of a failed write, it stays
    useless for the rest of the session: [Flush] rejects every message of
    the batch, hands nothing to the disk, and leaves the writer with the
    same error for the next [Flush]. *)
Theorem Flush_after_write_error fs g bw e :
  writer g = Some bw ->
  threshold_ok g = true ->
  Bufio.bw_err bw = Some e ->
  exists g' tr,
    Flush fs g = Ret (fs, g', tr)
    /\ verdicts tr = map (fun m => (m, false)) (elems (batch g))
    /\ writer_flushes tr = [Some e]
    /\ writer g' = Some bw
    /\ elems (batch g') = [].
Proof.
  intros Hw Hok He. rewrite (Flush_ret fs g bw Hw Hok). cbv zeta.
  rewrite (Flush_loop_err e _ fs bw He). cbn [fst snd].
  unfold Bufio.Flush. rewrite He. cbn [fst snd].
  eexists _, _. split; [reflexivity|].
  split; [rewrite verdicts_app, (verdicts_all (Some e)); apply app_nil_r|].
  split; [|split; reflexivity].
  unfold writer_flushes. rewrite omap_app.
  fold (writer_flushes (concat (map (fun m => message_events m (Some e))
                                    (elems (batch g))))).
  rewrite writer_flushes_all. reflexivity.
Qed.

Lemma Flush_after_write_error_witness :
  exists g' tr,
    Flush (Sample.disk_with_sink 100)
          (Sample.failed_writer ENOSPC [Sample.msg_a; Sample.msg_b])
    = Ret (Sample.disk_with_sink 100, g', tr)
    /\ verdicts tr = [(Sample.msg_a, false); (Sample.msg_b, false)]
    /\ writer_flushes tr = [Some ENOSPC]
    /\ writer g' = Some (Bufio.mkWriter (Some ENOSPC) [] 4096 Sample.sink_file)
    /\ elems (batch g') = [].
Proof.
  apply (Flush_after_write_error (Sample.disk_with_sink 100)
           (Sample.failed_writer ENOSPC [Sample.msg_a; Sample.msg_b])
           (Bufio.mkWriter (Some ENOSPC) [] 4096 Sample.sink_file) ENOSPC);
    reflexivity.
Defined.

(** ** [Flush] when the records fit the buffer *)

Lemma WriteString_fits fs b s :
  Bufio.bw_err b = None ->
  Z.of_nat (length s) <= Bufio.Available b ->
  Bufio.WriteString fs b s
  = (fs, Bufio.mkWriter None (Bufio.bw_data b ++ s) (Bufio.bw_size b) (Bufio.bw_wr b),
     Z.of_nat (length s), None).
Proof.
  intros He Hfit. unfold Bufio.WriteString. rewrite WriteString_loop_unfold.
  unfold Bufio.loop_cond.
  destruct (Z.ltb_spec (Bufio.Available b) (Z.of_nat (length s))); [lia|].
  cbn [andb]. rewrite He. unfold Bufio.copy_in. cbn [fst snd].
  rewrite He, take_ge by lia.
  replace (0 + Z.max 0 (Z.min (Bufio.Available b) (Z.of_nat (length s))))
    with (Z.of_nat (length s)) by lia.
  reflexivity.
Qed.

Lemma Flush_loop_fits : forall msgs fs bw,
  Bufio.bw_err bw = None ->
  Z.of_nat (length (records_of msgs)) <= Bufio.Available bw ->
  Flush_loop fs bw msgs
  = (fs,
     Bufio.mkWriter None (Bufio.bw_data bw ++ records_of msgs)
       (Bufio.bw_size bw) (Bufio.bw_wr bw),
     concat (map (fun m => message_events m None) msgs)).
Proof.
  induction msgs as [|m rest IH]; intros fs bw He Hfit.
  - cbn. rewrite app_nil_r. destruct bw; cbn in *. subst. reflexivity.
  - unfold records_of in Hfit. cbn [map concat] in Hfit.
    rewrite length_app in Hfit. fold (records_of rest) in Hfit.
    cbn [Flush_loop]. rewrite WriteString_fits by (try exact He; lia).
    rewrite IH; cbn [Bufio.bw_err Bufio.bw_data Bufio.bw_size Bufio.bw_wr].
    + unfold records_of. cbn [map concat]. rewrite <- app_assoc. reflexivity.
    + reflexivity.
    + unfold Bufio.Available, Bufio.Buffered in *. cbn [Bufio.bw_data Bufio.bw_size].
      rewrite length_app. lia.
Qed.

(** A file that does not take writes, or a full disk, keeps a [Write] out
    of the file. *)
Lemma File_Write_nothing fs f p :
  writable f = false \/ fs_free fs <= 0 ->
  file_content (File_Write fs f p).1.1 (f_name f) = file_content fs (f_name f)
  /\ (writable f = false -> (File_Write fs f p).1.1 = fs).
Proof.
  intros Hlost. unfold File_Write, writable in *.
  destruct (f_closed f); [auto|].
  destruct (has_flag (f_flag f) O_WRONLY || has_flag (f_flag f) O_RDWR);
    cbn [negb andb] in *; [|auto].
  destruct Hlost as [Hlost|Hfull]; [discriminate Hlost|].
  cbn [fst]. split; [|discriminate].
  rewrite Z.max_l, Z.min_r by lia.
  unfold file_content at 1. cbn [fs_files]. rewrite lookup_insert_eq.
  cbn. apply app_nil_r.
Qed.

Lemma Bufio_Flush_nothing fs b :
  writable (Bufio.bw_wr b) = false \/ fs_free fs <= 0 ->
  file_content (Bufio.Flush fs b).1.1 (f_name (Bufio.bw_wr b))
  = file_content fs (f_name (Bufio.bw_wr b))
  /\ (writable (Bufio.bw_wr b) = false -> (Bufio.Flush fs b).1.1 = fs).
Proof.
  intros Hlost. unfold Bufio.Flush.
  destruct (Bufio.bw_err b); [auto|].
  destruct (Bufio.Buffered b =? 0); [auto|].
  pose proof (File_Write_nothing fs (Bufio.bw_wr b) (Bufio.bw_data b) Hlost) as H.
  destruct (File_Write fs (Bufio.bw_wr b) (Bufio.bw_data b)) as [[fs' n] [e|]];
    cbn [fst snd] in *; [exact H|].
  destruct (n <? Bufio.Buffered b); exact H.
Qed.

(** X7. The verdict follows the buffer, not the disk: when the writer holds
    no error and the records of the batch fit what is free in its buffer,
    [Flush] acknowledges every message, on any disk. If the file does not
    take writes (it was closed when the session ended) or the disk is full,
    the sink file is afterwards what it was before: the acknowledged
    messages are in no file. *)
Theorem Flush_acknowledges_what_fits fs g bw :
  writer g = Some bw ->
  threshold_ok g = true ->
  Bufio.bw_err bw = None ->
  Z.of_nat (length (records_of (elems (batch g)))) <= Bufio.Available bw ->
  exists fs' g' tr,
    Flush fs g = Ret (fs', g', tr)
    /\ verdicts tr = map (fun m => (m, true)) (elems (batch g))
    /\ (writable (Bufio.bw_wr bw) = false \/ fs_free fs <= 0 ->
        file_content fs' (f_name (Bufio.bw_wr bw))
        = file_content fs (f_name (Bufio.bw_wr bw))).
Proof.
  intros Hw Hok He Hfit. rewrite (Flush_ret fs g bw Hw Hok). cbv zeta.
  rewrite (Flush_loop_fits _ fs bw He Hfit). cbn [fst snd].
  eexists _, _, _. split; [reflexivity|].
  split; [rewrite verdicts_app, (verdicts_all None); apply app_nil_r|].
  intros Hlost.
  apply (Bufio_Flush_nothing fs
           (Bufio.mkWriter None (Bufio.bw_data bw ++ records_of (elems (batch g)))
              (Bufio.bw_size bw) (Bufio.bw_wr bw)) Hlost).
Qed.

Lemma Flush_acknowledges_what_fits_witness :
  exists fs' g' tr,
    Flush (Sample.disk_with_sink 100)
          (Sample.after_session [Sample.msg_a; Sample.msg_b])
    = Ret (fs', g', tr)
    /\ verdicts tr = [(Sample.msg_a, true); (Sample.msg_b, true)]
    /\ (writable (mkFile "/var/log/events/events.log" sink_flags true) = false
        \/ 100 <= 0 ->
        file_content fs' "/var/log/events/events.log" = []).
Proof.
  apply (Flush_acknowledges_what_fits (Sample.disk_with_sink 100)
           (Sample.after_session [Sample.msg_a; Sample.msg_b])
           (Bufio.mkWriter None [] 4096
              (mkFile "/var/log/events/events.log" sink_flags true)));
    [reflexivity | reflexivity | reflexivity | vm_compute; discriminate].
Defined.

(** ** [Flush] once the session is over *)

Lemma WriteString_loop_closed fs b s nn :
  writable (Bufio.bw_wr b) = false ->
  (Bufio.WriteString_loop fs b s nn).1.1.1 = fs.
Proof.
  funelim (Bufio.WriteString_loop fs b s nn).
  - clear Heqcall. intros Hcl.
    destruct (Bufio_Flush_appended fs (Bufio.copy_in b s).1) as (_ & Hwr & _).
    destruct (Bufio_Flush_nothing fs (Bufio.copy_in b s).1 (or_introl Hcl))
      as [_ Hfs].
    rewrite H by (rewrite Hwr; exact Hcl). apply Hfs. exact Hcl.
  - reflexivity.
Qed.

Lemma WriteString_closed fs b s :
  writable (Bufio.bw_wr b) = false -> (Bufio.WriteString fs b s).1.1.1 = fs.
Proof.
  intros Hcl. unfold Bufio.WriteString.
  pose proof (WriteString_loop_closed fs b s 0 Hcl) as H.
  destruct (Bufio.WriteString_loop fs b s 0) as [[[fs1 b1] s1] nn].
  cbn [fst snd] in H. destruct (Bufio.bw_err b1); exact H.
Qed.

Lemma Flush_loop_closed : forall msgs fs bw,
  writable (Bufio.bw_wr bw) = false -> (Flush_loop fs bw msgs).1.1 = fs.
Proof.
  induction msgs as [|m rest IH]; intros fs bw Hcl; [reflexivity|].
  cbn [Flush_loop].
  pose proof (WriteString_closed fs bw (record_of m) Hcl) as Hfs.
  pose proof (WriteString_appended fs bw (record_of m)) as (_ & Hwr & _).
  destruct (Bufio.WriteString fs bw (record_of m)) as [[[fs1 bw1] n] err].
  cbn [fst snd] in *. subst fs1.
  specialize (IH fs bw1 ltac:(rewrite Hwr; exact Hcl)).
  destruct (Flush_loop fs bw1 rest) as [[fs2 bw2] evs]. exact IH.
Qed.

(** X8. A [Flush] after the session stores nothing. When [Consume] has run
    a session and returned, the writer it leaves is over the closed file:
    calling [Flush] then gives every pending message its verdict and empties
    the batch, but the disk stays exactly as [Consume] left it. *)
Theorem Flush_after_Consume_stores_nothing w fs g fs2 g2 err tr :
  Consume w fs g = Ret (fs2, g2, err, tr) ->
  threshold_ok g = true ->
  err <> Some err_client ->
  err <> Some err_open ->
  exists g3 tr3,
    Flush fs2 g2 = Ret (fs2, g3, tr3)
    /\ map fst (verdicts tr3) = elems (batch g2)
    /\ elems (batch g3) = [].
Proof.
  intros Hc Hok H1 H2. apply Consume_cases in Hc as (lg & _ & Hcase); [|exact Hok].
  destruct Hcase as [([He|He] & _)|Hs]; [contradiction..|].
  destruct Hs as (msgs & rerr & g1 & tr1 & bw1 & fs1 & _ & _ & _ & -> & _ & _ & Hw1
                  & Hwk & Hwr & _).
  set (bw := Bufio.mkWriter (Bufio.bw_err bw1) (Bufio.bw_data bw1) (Bufio.bw_size bw1)
               (File_Close (Bufio.bw_wr bw1)).1).
  assert (Hw2 : writer (close_writer_file g1) = Some bw)
    by (unfold close_writer_file; rewrite Hw1; reflexivity).
  assert (Hok2 : threshold_ok (close_writer_file g1) = true).
  { unfold threshold_ok, threshold, close_writer_file in *. rewrite Hw1.
    cbn [Worker set_writer]. rewrite Hwk. exact Hok. }
  assert (Hcl : writable (Bufio.bw_wr bw) = false)
    by (subst bw; cbn [Bufio.bw_wr]; rewrite Hwr; reflexivity).
  rewrite (Flush_ret fs2 _ bw Hw2 Hok2). cbv zeta.
  destruct (Flush_loop_trace (elems (batch (close_writer_file g1))) fs2 bw)
    as (results & Hlen & Htr).
  pose proof (Flush_loop_closed (elems (batch (close_writer_file g1))) fs2 bw Hcl)
    as Hfs.
  pose proof (Flush_loop_appended (elems (batch (close_writer_file g1))) fs2 bw)
    as (_ & Hwr' & _).
  destruct (Bufio_Flush_nothing
              (Flush_loop fs2 bw (elems (batch (close_writer_file g1)))).1.1
              (Flush_loop fs2 bw (elems (batch (close_writer_file g1)))).1.2
              ltac:(left; rewrite Hwr'; exact Hcl)) as [_ Hfs'].
  rewrite Hfs', Hfs by (rewrite Hwr'; exact Hcl).
  eexists _, _. split; [reflexivity|]. split; [|reflexivity].
  rewrite Htr, verdicts_app, verdicts_message_events by exact Hlen.
  cbn [verdicts omap list_omap verdict_of]. rewrite app_nil_r.
  rewrite (fst_zip_with_results _ (fun m => m) succeeded) by exact Hlen.
  apply map_id.
Qed.

Lemma Flush_after_Consume_stores_nothing_witness :
  exists fs2 g2 tr,
    Consume (Sample.world None None
               [Sample.msg_a; Sample.msg_b; Sample.msg_c; Sample.msg_a;
                Sample.msg_b] None)
            (Sample.disk_with_sink 100) Sample.client
    = Ret (fs2, g2, None, tr)
    /\ elems (batch g2) = [Sample.msg_a; Sample.msg_b]
    /\ file_content fs2 "/var/log/events/events.log"
       = records_of [Sample.msg_a; Sample.msg_b; Sample.msg_c]
    /\ (exists g3 tr3,
          Flush fs2 g2 = Ret (fs2, g3, tr3)
          /\ map fst (verdicts tr3) = elems (batch g2)
          /\ elems (batch g3) = []).
Proof.
  eexists _, _, _. split; [vm_compute; reflexivity|].
  split; [reflexivity|]. split; [reflexivity|].
  eapply (Flush_after_Consume_stores_nothing
            (Sample.world None None
               [Sample.msg_a; Sample.msg_b; Sample.msg_c; Sample.msg_a;
                Sample.msg_b] None)
            (Sample.disk_with_sink 100) Sample.client);
    [vm_compute; reflexivity | reflexivity | discriminate | discriminate].
Defined.

(** ** A session on a disk with room *)

Lemma records_of_app msgs1 msgs2 :
  records_of (msgs1 ++ msgs2) = records_of msgs1 ++ records_of msgs2.
Proof. unfold records_of. rewrite map_app. apply concat_app. Qed.

(** With room for the batch, the loop of [Flush] uses exactly the room the
    records need. *)
Lemma Flush_loop_room : forall msgs fs bw,
  Bufio.bw_err bw = None ->
  writable (Bufio.bw_wr bw) = true ->
  0 <= headroom fs bw - Z.of_nat (length (records_of msgs)) ->
  headroom (Flush_loop fs bw msgs).1.1 (Flush_loop fs bw msgs).1.2
  = headroom fs bw - Z.of_nat (length (records_of msgs)).
Proof.
  induction msgs as [|m rest IH]; intros fs bw He Hw Hroom.
  - cbn. lia.
  - change (records_of (m :: rest)) with (record_of m ++ records_of rest) in *.
    rewrite length_app in *.
    destruct (WriteString_enough fs bw (record_of m) He Hw)
      as (fs1 & bw1 & n & Hws & He1 & Hwr1 & Hroom1); [lia|].
    cbn [Flush_loop]. rewrite Hws.
    specialize (IH fs1 bw1 He1 ltac:(rewrite Hwr1; exact Hw) ltac:(lia)).
    destruct (Flush_loop fs1 bw1 rest) as [[fs2 bw2] evs]. cbn [fst snd] in *.
    lia.
Qed.

(** [Flush] with a healthy writer and room on the disk: every message is
    acknowledged, its record is in the file, and the writer is healthy
    again. *)
Lemma Flush_healthy fs g bw :
  writer g = Some bw ->
  threshold_ok g = true ->
  healthy bw = true ->
  Z.of_nat (length (records_of (elems (batch g)))) <= fs_free fs ->
  exists fs' bw' tr,
    Flush fs g
    = Ret (fs', set_batch (set_writer g (Some bw')) (mkSlice [] (threshold g)), tr)
    /\ verdicts tr = map (fun m => (m, true)) (elems (batch g))
    /\ healthy bw' = true
    /\ Bufio.bw_wr bw' = Bufio.bw_wr bw
    /\ fs_free fs' = fs_free fs - Z.of_nat (length (records_of (elems (batch g))))
    /\ file_content fs' (f_name (Bufio.bw_wr bw))
       = file_content fs (f_name (Bufio.bw_wr bw)) ++ records_of (elems (batch g)).
Proof.
  intros Hw Hok Hh Hroom. unfold healthy in Hh.
  apply andb_true_iff in Hh as [Hh Hwr]. apply andb_true_iff in Hh as [He Hd].
  apply bool_decide_eq_true in Hd.
  assert (He' : Bufio.bw_err bw = None) by (destruct (Bufio.bw_err bw); [discriminate|reflexivity]).
  assert (Hhead : headroom fs bw = fs_free fs)
    by (unfold headroom, Bufio.Buffered; rewrite Hd; simpl; lia).
  assert (Hroom' : 0 <= headroom fs bw
                         - Z.of_nat (length (concat (map record_of (elems (batch g))))))
    by (fold (records_of (elems (batch g))); lia).
  pose proof (Flush_loop_enough (elems (batch g)) fs bw He' Hwr Hroom')
    as (Hall & He1 & Hwr1 & Hroom1).
  pose proof (Flush_loop_room (elems (batch g)) fs bw He' Hwr Hroom') as Hroom2.
  destruct (Flush_loop_ok (elems (batch g)) fs bw Hall) as [_ Hst].
  destruct (Flush_loop_trace (elems (batch g)) fs bw) as (results & Hlen & Htr).
  rewrite (Flush_ret fs g bw Hw Hok). cbv zeta.
  destruct (Flush_loop fs bw (elems (batch g))) as [[fs1 bw1] evs].
  cbn [fst snd] in *.
  destruct (Bufio_Flush_enough fs1 bw1 He1)
    as (fs2 & bw2 & Hf & He2 & Hwr2 & _ & Hd2 & Hroom3);
    [rewrite Hwr1; exact Hwr | exact Hroom1 |].
  pose proof Hf as Hf'. apply Bufio_Flush_ok in Hf' as (_ & _ & _ & _ & Hst2).
  rewrite Hf. cbn [fst snd]. eexists _, _, _. split; [reflexivity|].
  split.
  { subst evs. rewrite verdicts_app, verdicts_message_events by exact Hlen.
    cbn [verdicts omap list_omap verdict_of]. rewrite app_nil_r.
    rewrite writes_message_events in Hall by exact Hlen.
    clear -Hall Hlen. revert results Hall Hlen.
    induction (elems (batch g)) as [|m rest IH]; intros [|e results] Hall Hlen;
      try discriminate; [reflexivity|].
    cbn [zip_with map] in *. inversion Hall as [|? ? Hhd Htl]; subst.
    simpl in Hhd. subst e. f_equal. apply IH; [exact Htl|].
    simpl in Hlen. congruence. }
  split.
  { unfold healthy. rewrite He2, Hd2, Hwr2, Hwr1, Hwr. reflexivity. }
  split; [congruence|].
  split.
  { unfold headroom, Bufio.Buffered in Hroom2, Hroom3, Hhead.
    rewrite Hd2 in Hroom3. cbn [length] in Hroom3. lia. }
  fold (records_of (elems (batch g))) in Hst.
  unfold sink_stream in Hst, Hst2. rewrite Hd2, app_nil_r, Hwr2, Hwr1 in Hst2.
  rewrite Hwr1 in Hst. rewrite Hst2, Hst, Hd, app_nil_r. reflexivity.
Qed.

Lemma handler_healthy w fs g bw msg :
  writer g = Some bw ->
  threshold_ok g = true ->
  healthy bw = true ->
  Z.of_nat (length (records_of (elems (batch g) ++ [msg]))) <= fs_free fs ->
  exists fs' g' tr bw',
    handler w fs g msg = Ret (fs', g', tr)
    /\ writer g' = Some bw'
    /\ Worker g' = Worker g
    /\ healthy bw' = true
    /\ Bufio.bw_wr bw' = Bufio.bw_wr bw
    /\ Forall (fun v => v.2 = true) (verdicts tr)
    /\ map fst (verdicts tr) ++ elems (batch g') = elems (batch g) ++ [msg]
    /\ fs_free fs' = fs_free fs - Z.of_nat (length (records_of (map fst (verdicts tr))))
    /\ file_content fs' (f_name (Bufio.bw_wr bw))
       = file_content fs (f_name (Bufio.bw_wr bw))
           ++ records_of (map fst (verdicts tr)).
Proof.
  intros Hw Hok Hh Hroom. unfold handler.
  change (threshold (set_batch g (append (growslice w) (batch g) msg)))
    with (threshold g).
  cbn [batch set_batch].
  destruct (threshold g <? len (append (growslice w) (batch g) msg)).
  - set (g1 := set_batch g (append (growslice w) (batch g) msg)).
    assert (Hel : elems (batch g1) = elems (batch g) ++ [msg])
      by (subst g1; cbn [batch set_batch]; apply elems_append).
    destruct (Flush_healthy fs g1 bw Hw Hok Hh)
      as (fs' & bw' & tr & Hfl & Hv & Hh' & Hwr' & Hfree & Hfile);
      [rewrite Hel; exact Hroom|].
    rewrite Hfl. cbn [bind]. eexists _, _, _, bw'. split; [reflexivity|].
    cbn [writer set_batch set_writer Worker batch elems].
    change (verdicts (EvDeliver msg :: tr)) with (verdicts tr).
    assert (Hfst : map fst (verdicts tr) = elems (batch g) ++ [msg]).
    { rewrite Hv, map_map, Hel. apply map_id. }
    rewrite Hfst, app_nil_r, <- Hel.
    repeat (split; [first [reflexivity | assumption]|]).
    split; [|split; [reflexivity|split; assumption]].
    rewrite Hv. apply Forall_map. apply Forall_forall. reflexivity.
  - eexists fs, _, _, bw. split; [reflexivity|].
    cbn [writer set_batch Worker batch verdicts omap list_omap verdict_of map app].
    rewrite elems_append. unfold records_of. cbn. rewrite app_nil_r.
    repeat (split; [first [reflexivity | assumption | constructor | lia]|]).
    reflexivity.
Qed.

Lemma run_handlers_healthy w : forall msgs fs g bw,
  writer g = Some bw ->
  threshold_ok g = true ->
  healthy bw = true ->
  Z.of_nat (length (records_of (elems (batch g) ++ msgs))) <= fs_free fs ->
  exists fs' g' tr bw',
    run_handlers w fs g msgs = Ret (fs', g', tr)
    /\ writer g' = Some bw'
    /\ Worker g' = Worker g
    /\ healthy bw' = true
    /\ Bufio.bw_wr bw' = Bufio.bw_wr bw
    /\ Forall (fun v => v.2 = true) (verdicts tr)
    /\ map fst (verdicts tr) ++ elems (batch g') = elems (batch g) ++ msgs
    /\ fs_free fs' = fs_free fs - Z.of_nat (length (records_of (map fst (verdicts tr))))
    /\ file_content fs' (f_name (Bufio.bw_wr bw))
       = file_content fs (f_name (Bufio.bw_wr bw))
           ++ records_of (map fst (verdicts tr)).
Proof.
  induction msgs as [|m rest IH]; intros fs g bw Hw Hok Hh Hroom.
  - exists fs, g, [], bw. cbn [run_handlers verdicts omap list_omap map app].
    unfold records_of at 1 2. cbn. rewrite !app_nil_r.
    repeat (split; [first [reflexivity | assumption | constructor | lia]|]).
    reflexivity.
  - assert (Hsplit : elems (batch g) ++ m :: rest = (elems (batch g) ++ [m]) ++ rest)
      by (rewrite <- app_assoc; reflexivity).
    rewrite Hsplit, records_of_app, length_app in Hroom.
    destruct (handler_healthy w fs g bw m Hw Hok Hh ltac:(lia))
      as (fs1 & g1 & tr1 & bw1 & Hh1 & Hw1 & Hwk1 & Hhl1 & Hwr1 & Hall1 & Hv1
          & Hfree1 & Hfile1).
    assert (Hok1 : threshold_ok g1 = true)
      by (unfold threshold_ok, threshold in *; rewrite Hwk1; exact Hok).
    assert (Hbytes : length (records_of (elems (batch g) ++ [m]))
                     = (length (records_of (map fst (verdicts tr1)))
                        + length (records_of (elems (batch g1))))%nat)
      by (rewrite <- Hv1, records_of_app, length_app; reflexivity).
    destruct (IH fs1 g1 bw1 Hw1 Hok1 Hhl1)
      as (fs2 & g2 & tr2 & bw2 & Hr & Hw2 & Hwk2 & Hhl2 & Hwr2 & Hall2 & Hv2
          & Hfree2 & Hfile2).
    { rewrite records_of_app, length_app. lia. }
    cbn [run_handlers]. rewrite Hh1. cbn [bind]. rewrite Hr. cbn [bind].
    exists fs2, g2, (tr1 ++ tr2), bw2. split; [reflexivity|].
    rewrite verdicts_app, map_app, records_of_app, length_app.
    split; [exact Hw2|]. split; [congruence|]. split; [exact Hhl2|].
    split; [congruence|]. split; [apply Forall_app; auto|].
    split.
    { rewrite <- app_assoc, Hv2, app_assoc, Hv1, Hsplit. reflexivity. }
    split; [lia|].
    rewrite Hwr1 in Hfile2. rewrite Hfile2, Hfile1, app_assoc. reflexivity.
Qed.

(** X9. What a session acknowledges is in the sink. When the logger leaves
    the sink file alone and the disk, once the start line is logged, has
    room for the records of the batch and of all delivered messages, every
    verdict of the session is [Ack], and when [Consume] returns the sink
    file holds what it held before followed by the records of the
    acknowledged messages, each payload with its newline, in the order of
    the acknowledgements. *)
Theorem Consume_stores_what_it_acknowledges w fs g lg fs2 g2 err tr :
  Consume w fs g = Ret (fs2, g2, err, tr) ->
  threshold_ok g = true ->
  Worker_logger_info (Worker g) = Some lg ->
  spares w lg (sink_path g) ->
  Z.of_nat (length (records_of (elems (batch g) ++ deliveries tr)))
  <= fs_free (log_Println w lg "Starting Receiver" fs) ->
  Forall (fun v => v.2 = true) (verdicts tr)
  /\ file_content fs2 (sink_path g)
     = file_content fs (sink_path g) ++ records_of (map fst (verdicts tr)).
Proof.
  intros Hc Hok Hl Hsp Hroom.
  apply Consume_cases in Hc as (lg' & Hl' & Hcase); [|exact Hok].
  rewrite Hl in Hl'. injection Hl' as <-.
  destruct Hcase as [(_ & -> & _ & ->)|Hs].
  - cbn. split; [constructor|]. unfold records_of. cbn. rewrite app_nil_r.
    apply spares_file_content. exact Hsp.
  - destruct Hs as (msgs & rerr & g1 & tr1 & bw1 & fs1 & _ & Hrun & -> & _ & _ & ->
                    & _ & _ & _ & _ & Hd & _).
    destruct (session_trace_reading lg (Subscription g) (session_timeout g) tr1
                (match rerr with
                 | Some _ => [EvClose (mkFile (sink_path g) sink_flags false)]
                 | None => [EvLog lg "Closing GCP Receiver";
                            EvClose (mkFile (sink_path g) sink_flags false)]
                 end)) as (Hv & _ & Hdl).
    { destruct rerr; repeat constructor. }
    rewrite Hdl, Hd in Hroom. rewrite Hv.
    destruct (run_handlers_healthy w msgs (log_Println w lg "Starting Receiver" fs)
                (set_writer g (Some (Bufio.NewWriter
                                       (mkFile (sink_path g) sink_flags false))))
                (Bufio.NewWriter (mkFile (sink_path g) sink_flags false))
                eq_refl Hok eq_refl Hroom)
      as (fs' & g' & tr' & bw' & Hrun' & _ & _ & _ & _ & Hall & _ & _ & Hfile).
    rewrite Hrun in Hrun'. injection Hrun' as <- <- <-.
    split; [exact Hall|].
    cbn [Bufio.bw_wr Bufio.NewWriter f_name] in Hfile.
    rewrite (spares_file_content w lg (sink_path g) "Starting Receiver" fs Hsp)
      in Hfile.
    rewrite <- Hfile. destruct rerr; [reflexivity|].
    apply spares_file_content. exact Hsp.
Qed.

Lemma Consume_stores_what_it_acknowledges_witness :
  exists fs2 g2 tr,
    Consume (Sample.world None None
               [Sample.msg_a; Sample.msg_b; Sample.msg_c; Sample.msg_a] None)
            (Sample.disk_with_sink 100) Sample.client
    = Ret (fs2, g2, None, tr)
    /\ verdicts tr = [(Sample.msg_a, true); (Sample.msg_b, true); (Sample.msg_c, true)]
    /\ (Forall (fun v => v.2 = true) (verdicts tr)
        /\ file_content fs2 (sink_path Sample.client)
           = file_content (Sample.disk_with_sink 100) (sink_path Sample.client)
               ++ records_of (map fst (verdicts tr))).
Proof.
  eexists _, _, _. split; [vm_compute; reflexivity|].
  split; [reflexivity|].
  eapply (Consume_stores_what_it_acknowledges
            (Sample.world None None
               [Sample.msg_a; Sample.msg_b; Sample.msg_c; Sample.msg_a] None)
            (Sample.disk_with_sink 100) Sample.client Sample.info_logger);
    [vm_compute; reflexivity | reflexivity | reflexivity
    | apply println_spares; discriminate | vm_compute; discriminate].
Defined.

(** ** The message log file, again *)

Lemma os_MkdirAll_keeps fs path :
  fs_files (os_MkdirAll fs path).1 = fs_files fs
  /\ fs_free (os_MkdirAll fs path).1 = fs_free fs
  /\ fs_refused (os_MkdirAll fs path).1 = fs_refused fs
  /\ fs_readonly (os_MkdirAll fs path).1 = fs_readonly fs.
Proof.
  unfold os_MkdirAll.
  repeat match goal with
         | |- context [bool_decide ?P] => destruct (bool_decide P)
         | |- context [fs_files fs !! path] => destruct (fs_files fs !! path)
         end; auto.
Qed.

(** [CreateMessageLogFiles], whatever it returns, keeps the files that
    exist with their content; the only file it can add is the empty log
    file; it uses no disk space. *)
Lemma CreateMessageLogFiles_keeps fs logpath filename fs' r :
  CreateMessageLogFiles fs logpath filename = (fs', r) ->
  (forall p c, fs_files fs !! p = Some c -> fs_files fs' !! p = Some c)
  /\ (forall p c, fs_files fs' !! p = Some c -> fs_files fs !! p = None ->
                  p = log_path logpath filename /\ c = [])
  /\ fs_free fs' = fs_free fs
  /\ fs_refused fs' = fs_refused fs.
Proof.
  unfold CreateMessageLogFiles.
  pose proof (os_MkdirAll_keeps fs logpath) as (Hfiles & Hfree & Hre & Hro).
  destruct (os_MkdirAll fs logpath) as [fs1 [e|]]; cbn [fst] in *.
  { intros [= ? ?]; subst. rewrite Hfiles. split; [auto|]. split; [congruence|auto]. }
  unfold os_Stat, os_Create, os_OpenFile. rewrite Hfiles, Hre, Hro.
  assert (Hsame : (forall p c, fs_files fs !! p = Some c -> fs_files fs1 !! p = Some c)
                  /\ (forall p c, fs_files fs1 !! p = Some c ->
                                  fs_files fs !! p = None ->
                                  p = log_path logpath filename /\ c = [])
                  /\ fs_free fs1 = fs_free fs
                  /\ fs_refused fs1 = fs_refused fs).
  { rewrite Hfiles. split; [auto|]. split; [congruence|auto]. }
  destruct (bool_decide (log_path logpath filename ∈ fs_refused fs));
    [cbn [os_IsNotExist]; intros [= ? ?]; subst; exact Hsame|].
  destruct (fs_files fs !! log_path logpath filename) as [c0|] eqn:Hf;
    [cbn [os_IsNotExist]; intros [= ? ?]; subst; exact Hsame|].
  destruct (bool_decide (log_path logpath filename ∈ fs_dirs fs1));
    [cbn [os_IsNotExist]; intros [= ? ?]; subst; exact Hsame|].
  cbn [os_IsNotExist].
  change (has_flag (Z.lor O_RDWR (Z.lor O_CREATE O_TRUNC)) O_CREATE) with true.
  cbn iota.
  destruct (bool_decide (log_path logpath filename ∈ fs_readonly fs));
    [intros [= ? ?]; subst; exact Hsame|].
  intros [= ? ?]; subst. cbn [set_files fs_files fs_free fs_refused].
  split; [|split; [|auto]].
  - intros p c Hp. rewrite lookup_insert_ne; [exact Hp|]. congruence.
  - intros p c Hp Hnone.
    destruct (decide (p = log_path logpath filename)) as [->|Hne].
    + rewrite lookup_insert_eq in Hp. split; congruence.
    + rewrite lookup_insert_ne in Hp by congruence. congruence.
Qed.

(** X10. [CreateMessageLogFiles] never truncates or removes anything:
    whatever it returns, every file that existed keeps its content (the log
    file itself included), the only file it can create is the log file,
    empty, and the free space of the disk is unchanged. *)
Theorem CreateMessageLogFiles_keeps_files fs logpath filename fs' r :
  CreateMessageLogFiles fs logpath filename = (fs', r) ->
  (forall p c, fs_files fs !! p = Some c -> fs_files fs' !! p = Some c)
  /\ (forall p c, fs_files fs' !! p = Some c -> fs_files fs !! p = None ->
                  p = log_path logpath filename /\ c = [])
  /\ fs_free fs' = fs_free fs.
Proof.
  intros H. apply CreateMessageLogFiles_keeps in H as (H1 & H2 & H3 & _). auto.
Qed.

Lemma CreateMessageLogFiles_keeps_files_witness :
  (forall p c, fs_files (Sample.disk 100) !! p = Some c ->
               fs_files (Sample.disk_with_sink 100) !! p = Some c)
  /\ (forall p c, fs_files (Sample.disk_with_sink 100) !! p = Some c ->
                  fs_files (Sample.disk 100) !! p = None ->
                  p = log_path "/var/log/events" "events" /\ c = [])
  /\ fs_free (Sample.disk_with_sink 100) = fs_free (Sample.disk 100).
Proof.
  apply (CreateMessageLogFiles_keeps_files (Sample.disk 100)
           "/var/log/events" "events" (Sample.disk_with_sink 100) None).
  vm_compute. reflexivity.
Defined.

(** X11. [CreateMessageLogFiles] can be repeated: once it has returned nil,
    calling it again with the same arguments returns nil and changes
    nothing. *)
Theorem CreateMessageLogFiles_idempotent fs logpath filename fs' :
  CreateMessageLogFiles fs logpath filename = (fs', None) ->
  CreateMessageLogFiles fs' logpath filename = (fs', None).
Proof.
  unfold CreateMessageLogFiles.
  destruct (os_MkdirAll fs logpath) as [fs1 [e|]] eqn:Hm; [discriminate|].
  apply os_MkdirAll_nil in Hm
    as (Hl & Hnr & Hdir & Hfiles & Hre & Hro & _ & _ & _ & Hne).
  assert (Hagain : forall fs2,
             fs_files fs2 !! logpath = None ->
             fs_refused fs2 = fs_refused fs ->
             logpath ∈ fs_dirs fs2 ->
             os_MkdirAll fs2 logpath = (fs2, None)).
  { intros fs2 Hl2 Hre2 Hd2. unfold os_MkdirAll.
    rewrite (bool_decide_eq_false_2 _ Hne), Hre2, (bool_decide_eq_false_2 _ Hnr), Hl2.
    rewrite (bool_decide_eq_true_2 _ Hd2). reflexivity. }
  unfold os_Stat, os_Create, os_OpenFile. rewrite Hfiles, Hre, Hro.
  destruct (bool_decide (log_path logpath filename ∈ fs_refused fs)) eqn:Hr.
  { cbn [os_IsNotExist]. intros [= <-].
    rewrite Hagain by (rewrite ?Hfiles; assumption).
    rewrite Hre, Hr. reflexivity. }
  destruct (fs_files fs !! log_path logpath filename) as [c0|] eqn:Hf.
  { cbn [os_IsNotExist]. intros [= <-].
    rewrite Hagain by (rewrite ?Hfiles; assumption).
    rewrite Hre, Hr, Hfiles, Hf. reflexivity. }
  destruct (bool_decide (log_path logpath filename ∈ fs_dirs fs1)) eqn:Hd.
  { cbn [os_IsNotExist]. intros [= <-].
    rewrite Hagain by (rewrite ?Hfiles; assumption).
    rewrite Hre, Hr, Hfiles, Hf, Hd. reflexivity. }
  cbn [os_IsNotExist].
  change (has_flag (Z.lor O_RDWR (Z.lor O_CREATE O_TRUNC)) O_CREATE) with true.
  cbn iota.
  destruct (bool_decide (log_path logpath filename ∈ fs_readonly fs));
    [discriminate|].
  intros [= <-].
  rewrite Hagain.
  - cbn [set_files fs_files fs_refused fs_dirs]. rewrite Hre, Hr, lookup_insert_eq.
    reflexivity.
  - cbn [set_files fs_files].
    rewrite lookup_insert_ne by (apply log_path_neq). exact Hl.
  - exact Hre.
  - exact Hdir.
Qed.

Lemma CreateMessageLogFiles_idempotent_witness :
  CreateMessageLogFiles (Sample.disk 100) "/var/log/events" "events"
  = (Sample.disk_with_sink 100, None)
  /\ CreateMessageLogFiles (Sample.disk_with_sink 100) "/var/log/events" "events"
     = (Sample.disk_with_sink 100, None).
Proof.
  split; [vm_compute; reflexivity|].
  apply (CreateMessageLogFiles_idempotent (Sample.disk 100)
           "/var/log/events" "events" (Sample.disk_with_sink 100)).
  vm_compute. reflexivity.
Defined.

(** ** Construction, then sessions *)

(** The account of a session: verdicts and pending messages against the
    batch before and the deliveries; the configuration is kept. *)
Lemma Consume_account w fs g fs2 g2 err tr :
  Consume w fs g = Ret (fs2, g2, err, tr) ->
  threshold_ok g = true ->
  map fst (verdicts tr) ++ elems (batch g2) = elems (batch g) ++ deliveries tr
  /\ (len (batch g) <= threshold g -> len (batch g2) <= threshold g)
  /\ Worker g2 = Worker g.
Proof.
  intros Hc Hok. apply Consume_inv in Hc as (lg & Hl & Hcase).
  destruct Hcase as [(_ & _ & -> & ->)|[(_ & _ & -> & -> & _)|Hs]];
    [cbn; rewrite app_nil_r; auto..|].
  destruct Hs as (msgs & rerr & g1 & tr1 & fs1 & _ & _ & Hrun & _ & -> & _ & ->).
  destruct (run_handlers_session w msgs (log_Println w lg "Starting Receiver" fs)
              (set_writer g (Some (Bufio.NewWriter
                                     (mkFile (sink_path g) sink_flags false))))
              (Bufio.NewWriter (mkFile (sink_path g) sink_flags false))
              eq_refl Hok)
    as (fs' & g' & tr' & bw' & Hrun' & Hw' & Hwk & _ & _ & _ & Hv & Hd & _ & _ & _
        & Hb & _).
  rewrite Hrun in Hrun'. injection Hrun' as <- <- <-.
  rewrite batch_close_writer_file.
  destruct (session_trace_reading lg (Subscription g) (session_timeout g) tr1
              (match rerr with
               | Some _ => [EvClose (mkFile (sink_path g) sink_flags false)]
               | None => [EvLog lg "Closing GCP Receiver";
                          EvClose (mkFile (sink_path g) sink_flags false)]
               end)) as (-> & _ & ->).
  { destruct rerr; repeat constructor. }
  rewrite Hd. split; [exact Hv|]. split; [exact Hb|].
  unfold close_writer_file. rewrite Hw'. exact Hwk.
Qed.

(** X12. A client fresh from [NewGCPclient] has no writer: calling [Flush]
    on it, before any [Consume] has opened the sink, panics on the nil
    pointer, whatever the disk. *)
Theorem NewGCPclient_then_Flush_panics w fs configfile fs' g fs0 :
  NewGCPclient w fs configfile = (fs', Ret (Some g, None)) ->
  exists reason, Flush fs0 g = Panic reason.
Proof.
  intros H. apply NewGCPclient_client in H
    as (_ & _ & _ & _ & _ & _ & _ & _ & _ & Hw & _).
  apply Flush_nil_writer. exact Hw.
Qed.

Lemma NewGCPclient_then_Flush_panics_witness :
  exists reason, Flush (Sample.disk_with_sink 100) Sample.client = Panic reason.
Proof.
  apply (NewGCPclient_then_Flush_panics
           (Sample.world (Some Sample.config) None [] None) (Sample.disk 100)
           "worker.json" (Sample.disk_with_sink 100) Sample.client
           (Sample.disk_with_sink 100)).
  vm_compute. reflexivity.
Defined.

(** X13. [NewGCPclient] panics exactly when the configuration was read and
    decoded, the message log file is in place, and the batch size converts
    to an integer [make] refuses as a capacity: a negative one, or one
    beyond the largest slice. The log directory and file it created
    before stay on the disk. *)
Theorem NewGCPclient_panics_iff w fs configfile fs' :
  (exists reason, NewGCPclient w fs configfile = (fs', Panic reason))
  <-> (exists content d,
         ioutil_ReadFile fs configfile = inl content
         /\ json_Unmarshal w content = Some d
         /\ CreateMessageLogFiles fs (Message_log_path (Worker d)) (Subscription d)
            = (fs', None)
         /\ (int_of_float32 (Batchsize (Worker d)) < 0
             \/ max_slice_cap < int_of_float32 (Batchsize (Worker d)))).
Proof.
  unfold NewGCPclient.
  destruct (ioutil_ReadFile fs configfile) as [content|e] eqn:Hr.
  2: { split; [intros [r H]; discriminate H|intros (c & d & H & _); discriminate H]. }
  destruct (json_Unmarshal w content) as [d|] eqn:Hd.
  2: { split; [intros [r H]; discriminate H|].
       intros (c & d & [= <-] & H & _). congruence. }
  cbn [Worker_log_path Message_log_path Batchsize Maxwaittime Worker
       Subscription decoded_into_zero set_writer set_batch].
  destruct (CreateMessageLogFiles fs (Message_log_path (Worker d)) (Subscription d))
    as [fs1 [err|]] eqn:Hc.
  { split; [intros [r H]; discriminate H|].
    intros (c & d' & [= <-] & Hd' & Hc' & _).
    rewrite Hd in Hd'. injection Hd' as <-. rewrite Hc in Hc'. discriminate Hc'. }
  unfold make_slice.
  destruct (Z.ltb_spec (int_of_float32 (Batchsize (Worker d))) 0) as [Hneg|Hpos];
    cbn [orb bind].
  { split.
    - intros [r [= <- _]]. exists content, d. auto.
    - intros (c & d' & [= <-] & Hd' & Hc' & _).
      rewrite Hd in Hd'. injection Hd' as <-. rewrite Hc in Hc'.
      injection Hc' as <-. eauto. }
  destruct (Z.ltb_spec max_slice_cap (int_of_float32 (Batchsize (Worker d))))
    as [Hbig|Hfit]; cbn [bind].
  { split.
    - intros [r [= <- _]]. exists content, d. auto.
    - intros (c & d' & [= <-] & Hd' & Hc' & _).
      rewrite Hd in Hd'. injection Hd' as <-. rewrite Hc in Hc'.
      injection Hc' as <-. eauto. }
  split; [intros [r H]; discriminate H|].
  intros (c & d' & [= <-] & Hd' & _ & Hbad).
  rewrite Hd in Hd'. injection Hd' as <-. lia.
Qed.

Lemma NewGCPclient_panics_iff_witness :
  exists reason,
    NewGCPclient (Sample.world (Some Sample.config_negative) None [] None)
                 (Sample.disk 100) "worker.json"
    = (Sample.disk_with_sink 100, Panic reason).
Proof.
  apply (proj2 (NewGCPclient_panics_iff
                  (Sample.world (Some Sample.config_negative) None [] None)
                  (Sample.disk 100) "worker.json" (Sample.disk_with_sink 100))).
  exists [], Sample.config_negative.
  split; [vm_compute; reflexivity|]. split; [reflexivity|].
  split; [vm_compute; reflexivity|]. left. vm_compute. reflexivity.
Defined.



(** X15. The message log path is required: when the configuration decodes
    without one, [NewGCPclient] returns the message-log error and a nil
    client, and the disk is untouched. *)
Theorem NewGCPclient_needs_message_log_path w fs configfile content d :
  ioutil_ReadFile fs configfile = inl content ->
  json_Unmarshal w content = Some d ->
  Message_log_path (Worker d) = "" ->
  NewGCPclient w fs configfile = (fs, Ret (None, Some err_msglog)).
Proof.
  intros Hr Hd Hp. unfold NewGCPclient. rewrite Hr, Hd.
  cbn [Worker_log_path Message_log_path Batchsize Maxwaittime Worker
       Subscription decoded_into_zero set_writer set_batch].
  rewrite Hp. reflexivity.
Qed.

Lemma NewGCPclient_needs_message_log_path_witness :
  NewGCPclient (Sample.world (Some Sample.config_no_path) None [] None)
               (Sample.disk 100) "worker.json"
  = (Sample.disk 100, Ret (None, Some err_msglog)).
Proof.
  apply (NewGCPclient_needs_message_log_path
           (Sample.world (Some Sample.config_no_path) None [] None)
           (Sample.disk 100) "worker.json" [] Sample.config_no_path);
    reflexivity.
Defined.

(** X16. A restart keeps the log. When the logger leaves the sink file
    alone, from the disk [NewGCPclient] found to the disk a following
    [Consume] leaves the sink file only grew at its end: neither the
    construction nor the session truncates or rewrites what earlier
    sessions wrote. *)
Theorem restart_keeps_the_log w fs configfile fs1 g lg w' fs2 g2 err tr :
  NewGCPclient w fs configfile = (fs1, Ret (Some g, None)) ->
  Consume w' fs1 g = Ret (fs2, g2, err, tr) ->
  Worker_logger_info (Worker g) = Some lg ->
  spares w' lg (sink_path g) ->
  exists suffix,
    file_content fs2 (sink_path g) = file_content fs (sink_path g) ++ suffix.
Proof.
  intros Hnew Hc Hl Hsp.
  pose proof (NewGCPclient_threshold_ok _ _ _ _ _ Hnew) as Hok.
  apply NewGCPclient_client in Hnew
    as (content & d & _ & _ & Hcr & _ & _ & _ & _ & _ & Hsub & Hpath & _).
  apply CreateMessageLogFiles_keeps in Hcr as (Hkeep & Hnew & _).
  assert (Hsame : file_content fs1 (sink_path g) = file_content fs (sink_path g)).
  { unfold file_content.
    destruct (fs_files fs !! sink_path g) as [c|] eqn:Hf.
    - rewrite (Hkeep _ _ Hf). reflexivity.
    - destruct (fs_files fs1 !! sink_path g) as [c|] eqn:Hf1; [|reflexivity].
      destruct (Hnew _ _ Hf1 Hf) as [_ ->]. reflexivity. }
  apply Consume_cases in Hc as (lg' & Hl' & Hcase); [|exact Hok].
  rewrite Hl in Hl'. injection Hl' as <-.
  rewrite <- Hsame,
    <- (spares_file_content w' lg (sink_path g) "Starting Receiver" fs1 Hsp).
  destruct Hcase as [(_ & -> & _)|Hs]; [exists []; symmetry; apply app_nil_r|].
  destruct Hs as (msgs & rerr & g1 & tr1 & bw1 & fs3 & _ & _ & -> & _ & _ & _ & _ & _
                  & _ & Ha & _).
  destruct Ha as ([suffix Hs] & _). exists suffix. rewrite <- Hs.
  destruct rerr; [reflexivity|]. apply spares_file_content. exact Hsp.
Qed.

Lemma restart_keeps_the_log_witness :
  NewGCPclient (Sample.world (Some Sample.config) None [] None)
               Sample.disk_with_old_sink "worker.json"
  = (Sample.disk_with_old_sink, Ret (Some Sample.client, None))
  /\ exists fs2 g2 tr,
       Consume (Sample.world None None
                  [Sample.msg_a; Sample.msg_b; Sample.msg_c] None)
               Sample.disk_with_old_sink Sample.client
       = Ret (fs2, g2, None, tr)
       /\ exists suffix,
            file_content fs2 (sink_path Sample.client)
            = file_content Sample.disk_with_old_sink (sink_path Sample.client)
                ++ suffix.
Proof.
  split; [vm_compute; reflexivity|].
  eexists _, _, _. split; [vm_compute; reflexivity|].
  eapply (restart_keeps_the_log
            (Sample.world (Some Sample.config) None [] None)
            Sample.disk_with_old_sink "worker.json"
            Sample.disk_with_old_sink Sample.client Sample.info_logger
            (Sample.world None None [Sample.msg_a; Sample.msg_b; Sample.msg_c] None));
    [vm_compute; reflexivity | vm_compute; reflexivity | reflexivity
    | apply println_spares; discriminate].
Defined.

(** X17. The time limit of a constructed client. For a configured waiting
    time of at most 153722867 minutes in absolute value, the duration
    [Consume] computes for [Receive] is that many minutes in nanoseconds,
    and ten minutes when the configuration gives none or 0; a negative
    waiting time is kept as a negative duration. *)
Theorem NewGCPclient_session_timeout w fs configfile fs' g content d :
  NewGCPclient w fs configfile = (fs', Ret (Some g, None)) ->
  ioutil_ReadFile fs configfile = inl content ->
  json_Unmarshal w content = Some d ->
  - 153722867 <= Maxwaittime (Worker d) <= 153722867 ->
  session_timeout g
  = (if Maxwaittime (Worker d) =? 0 then 10 else Maxwaittime (Worker d))
    * 60000000000.
Proof.
  intros H Hc Hd Hrange. apply NewGCPclient_client in H
    as (content' & d' & Hc' & Hd' & _ & _ & _ & _ & Hm & _).
  rewrite Hc in Hc'. injection Hc' as <-. rewrite Hd in Hd'. injection Hd' as <-.
  rewrite session_timeout_minutes; rewrite Hm; [reflexivity|].
  destruct (Z.eqb_spec (Maxwaittime (Worker d)) 0); lia.
Qed.

Lemma NewGCPclient_session_timeout_witness :
  session_timeout Sample.client = 10 * 60000000000.
Proof.
  apply (NewGCPclient_session_timeout
           (Sample.world (Some Sample.config) None [] None) (Sample.disk 100)
           "worker.json" (Sample.disk_with_sink 100) Sample.client [] Sample.config);
    [vm_compute; reflexivity | reflexivity | reflexivity | vm_compute; split; discriminate].
Defined.

(** X18. Pending messages are carried into the next session of the same
    client: over two calls of [Consume] in a row, the messages with a
    verdict followed by those pending at the end are the batch before
    followed by the deliveries of the first and of the second session. *)
Theorem Consume_twice_loses_no_message w1 w2 fs g fs1 g1 err1 tr1 fs2 g2 err2 tr2 :
  Consume w1 fs g = Ret (fs1, g1, err1, tr1) ->
  Consume w2 fs1 g1 = Ret (fs2, g2, err2, tr2) ->
  threshold_ok g = true ->
  map fst (verdicts (tr1 ++ tr2)) ++ elems (batch g2)
  = elems (batch g) ++ deliveries tr1 ++ deliveries tr2.
Proof.
  intros H1 H2 Hok.
  destruct (Consume_account _ _ _ _ _ _ _ H1 Hok) as (Hv1 & _ & Hwk).
  assert (Hok1 : threshold_ok g1 = true)
    by (unfold threshold_ok, threshold in *; rewrite Hwk; exact Hok).
  destruct (Consume_account _ _ _ _ _ _ _ H2 Hok1) as (Hv2 & _ & _).
  rewrite verdicts_app, map_app, <- app_assoc, Hv2, app_assoc, Hv1, <- app_assoc.
  reflexivity.
Qed.

Lemma Consume_twice_loses_no_message_witness :
  exists fs1 g1 tr1 fs2 g2 tr2,
    Consume (Sample.world None None [Sample.msg_a; Sample.msg_b] None)
            (Sample.disk_with_sink 100) Sample.client
    = Ret (fs1, g1, None, tr1)
    /\ Consume (Sample.world None None [Sample.msg_c] None) fs1 g1
       = Ret (fs2, g2, None, tr2)
    /\ verdicts tr1 = []
    /\ map fst (verdicts tr2) = [Sample.msg_a; Sample.msg_b; Sample.msg_c]
    /\ map fst (verdicts (tr1 ++ tr2)) ++ elems (batch g2)
       = elems (batch Sample.client) ++ deliveries tr1 ++ deliveries tr2.
Proof.
  eexists _, _, _, _, _, _. split; [vm_compute; reflexivity|].
  split; [vm_compute; reflexivity|]. split; [reflexivity|]. split; [reflexivity|].
  eapply (Consume_twice_loses_no_message
            (Sample.world None None [Sample.msg_a; Sample.msg_b] None)
            (Sample.world None None [Sample.msg_c] None)
            (Sample.disk_with_sink 100) Sample.client);
    [vm_compute; reflexivity | vm_compute; reflexivity | reflexivity].
Defined.

(** ** After the first rejection *)

Lemma Bufio_Flush_keeps_err fs b :
  is_Some (Bufio.bw_err b) -> is_Some (Bufio.bw_err (Bufio.Flush fs b).1.2).
Proof.
  intros [e He]. unfold Bufio.Flush. rewrite He. cbn [fst snd]. eauto.
Qed.

(** In the loop of [Flush] the acknowledgements come first: once a message
    is rejected the writer holds an error, and the rest is rejected. *)
Lemma Flush_loop_verdict_shape : forall msgs fs bw,
  exists n k,
    map snd (verdicts (Flush_loop fs bw msgs).2)
    = replicate n true ++ replicate k false
    /\ (is_Some (Bufio.bw_err bw) ->
        n = 0%nat /\ is_Some (Bufio.bw_err (Flush_loop fs bw msgs).1.2))
    /\ (k <> 0%nat -> is_Some (Bufio.bw_err (Flush_loop fs bw msgs).1.2)).
Proof.
  induction msgs as [|m rest IH]; intros fs bw.
  - exists 0%nat, 0%nat. cbn.
    split; [reflexivity|]. split; [auto|]. intros H. contradiction.
  - cbn [Flush_loop].
    pose proof (WriteString_result_err fs bw (record_of m)) as Hres.
    pose proof (WriteString_err fs bw (record_of m)) as Hsticky.
    destruct (Bufio.WriteString fs bw (record_of m)) as [[[fs1 bw1] n0] err].
    cbn [fst snd] in Hres.
    destruct (IH fs1 bw1) as (n & k & Hv & Hpre & Hpost).
    destruct (Flush_loop fs1 bw1 rest) as [[fs2 bw2] evs]. cbn [fst snd] in *.
    destruct err as [e|].
    + destruct (Hpre ltac:(rewrite (Hres e eq_refl); eauto)) as [-> Hsome].
      exists 0%nat, (S k). cbn [verdicts omap list_omap verdict_of map snd].
      fold (verdicts evs). rewrite Hv. cbn. auto.
    + exists (S n), k. cbn [verdicts omap list_omap verdict_of map snd].
      fold (verdicts evs). rewrite Hv. split; [reflexivity|]. split; [|exact Hpost].
      intros [e He]. specialize (Hsticky e He). discriminate Hsticky.
Qed.

Lemma handler_verdict_shape w fs g bw msg :
  writer g = Some bw ->
  threshold_ok g = true ->
  exists fs' g' tr bw' n k,
    handler w fs g msg = Ret (fs', g', tr)
    /\ writer g' = Some bw'
    /\ Worker g' = Worker g
    /\ map snd (verdicts tr) = replicate n true ++ replicate k false
    /\ (is_Some (Bufio.bw_err bw) -> n = 0%nat /\ is_Some (Bufio.bw_err bw'))
    /\ (k <> 0%nat -> is_Some (Bufio.bw_err bw')).
Proof.
  intros Hw Hok. unfold handler.
  change (threshold (set_batch g (append (growslice w) (batch g) msg)))
    with (threshold g).
  destruct (threshold g <? len (batch (set_batch g (append (growslice w) (batch g) msg)))).
  - set (g1 := set_batch g (append (growslice w) (batch g) msg)).
    rewrite (Flush_ret fs g1 bw Hw Hok). cbv zeta. cbn [bind].
    destruct (Flush_loop_verdict_shape (elems (batch g1)) fs bw)
      as (n & k & Hv & Hpre & Hpost).
    eexists _, _, _, _, n, k. split; [reflexivity|].
    cbn [writer set_batch set_writer Worker].
    split; [reflexivity|]. split; [reflexivity|].
    change (verdicts (EvDeliver msg :: ?t)) with (verdicts t).
    rewrite verdicts_app. cbn [verdicts omap list_omap verdict_of].
    rewrite app_nil_r. split; [exact Hv|].
    split.
    + intros Hsome. destruct (Hpre Hsome) as [-> Hs]. split; [reflexivity|].
      apply Bufio_Flush_keeps_err. exact Hs.
    + intros Hk. apply Bufio_Flush_keeps_err. apply Hpost. exact Hk.
  - eexists fs, _, _, bw, 0%nat, 0%nat. split; [reflexivity|].
    cbn [writer set_batch Worker]. split; [exact Hw|]. split; [reflexivity|].
    split; [reflexivity|]. split; [auto|]. intros H. contradiction.
Qed.

Lemma run_handlers_verdict_shape w : forall msgs fs g bw,
  writer g = Some bw ->
  threshold_ok g = true ->
  exists fs' g' tr bw' n k,
    run_handlers w fs g msgs = Ret (fs', g', tr)
    /\ writer g' = Some bw'
    /\ map snd (verdicts tr) = replicate n true ++ replicate k false
    /\ (is_Some (Bufio.bw_err bw) -> n = 0%nat /\ is_Some (Bufio.bw_err bw'))
    /\ (k <> 0%nat -> is_Some (Bufio.bw_err bw')).
Proof.
  induction msgs as [|m rest IH]; intros fs g bw Hw Hok.
  - exists fs, g, [], bw, 0%nat, 0%nat. cbn. repeat split; auto. intros H. contradiction.
  - destruct (handler_verdict_shape w fs g bw m Hw Hok)
      as (fs1 & g1 & tr1 & bw1 & n1 & k1 & Hh & Hw1 & Hwk & Hv1 & Hpre1 & Hpost1).
    assert (Hok1 : threshold_ok g1 = true)
      by (unfold threshold_ok, threshold in *; rewrite Hwk; exact Hok).
    destruct (IH fs1 g1 bw1 Hw1 Hok1)
      as (fs2 & g2 & tr2 & bw2 & n2 & k2 & Hr & Hw2 & Hv2 & Hpre2 & Hpost2).
    cbn [run_handlers]. rewrite Hh. cbn [bind]. rewrite Hr. cbn [bind].
    destruct k1 as [|k1].
    + exists fs2, g2, (tr1 ++ tr2), bw2, (n1 + n2)%nat, k2.
      split; [reflexivity|]. split; [exact Hw2|].
      rewrite verdicts_app, map_app, Hv1, Hv2. cbn [replicate].
      rewrite app_nil_r, replicate_add, <- app_assoc.
      split; [reflexivity|]. split; [|exact Hpost2].
      intros Hsome. destruct (Hpre1 Hsome) as [-> Hs1].
      destruct (Hpre2 Hs1) as [-> Hs2]. auto.
    + destruct (Hpre2 (Hpost1 ltac:(discriminate))) as [-> Hs2].
      exists fs2, g2, (tr1 ++ tr2), bw2, n1, (S k1 + k2)%nat.
      split; [reflexivity|]. split; [exact Hw2|].
      rewrite verdicts_app, map_app, Hv1, Hv2. cbn [replicate app].
      rewrite (replicate_add (S k1) k2), <- app_assoc.
      split; [reflexivity|]. split; [|auto].
      intros Hsome. destruct (Hpre1 Hsome) as [-> _]. auto.
Qed.

(** X19. Within a session a rejection is final: the verdicts of a session,
    in order, are acknowledgements followed by rejections. After the first
    [Nack] the writer holds the error of the failed write, and every later
    message of that session is rejected as well. *)
Theorem Consume_rejects_after_first_rejection w fs g fs2 g2 err tr :
  Consume w fs g = Ret (fs2, g2, err, tr) ->
  threshold_ok g = true ->
  exists n k, map snd (verdicts tr) = replicate n true ++ replicate k false.
Proof.
  intros Hc Hok. apply Consume_cases in Hc as (lg & _ & Hcase); [|exact Hok].
  destruct Hcase as [(_ & _ & _ & ->)|Hs]; [exists 0%nat, 0%nat; reflexivity|].
  destruct Hs as (msgs & rerr & g1 & tr1 & bw1 & fs1 & _ & Hrun & _ & _ & _ & -> & _).
  destruct (session_trace_reading lg (Subscription g) (session_timeout g) tr1
              (match rerr with
               | Some _ => [EvClose (mkFile (sink_path g) sink_flags false)]
               | None => [EvLog lg "Closing GCP Receiver";
                          EvClose (mkFile (sink_path g) sink_flags false)]
               end)) as (-> & _).
  { destruct rerr; repeat constructor. }
  destruct (run_handlers_verdict_shape w msgs (log_Println w lg "Starting Receiver" fs)
              (set_writer g (Some (Bufio.NewWriter
                                     (mkFile (sink_path g) sink_flags false))))
              (Bufio.NewWriter (mkFile (sink_path g) sink_flags false))
              eq_refl Hok)
    as (fs' & g' & tr' & bw' & n & k & Hrun' & _ & Hv & _).
  rewrite Hrun in Hrun'. injection Hrun' as <- <- <-. eauto.
Qed.

Lemma Consume_rejects_after_first_rejection_witness :
  exists fs2 g2 tr,
    Consume (Sample.world None None
               [Sample.msg_a; Sample.msg_b; Sample.msg_c; Sample.msg_a;
                Sample.msg_b; Sample.msg_c; Sample.msg_a; Sample.msg_b;
                Sample.msg_c] None)
            Sample.disk_with_old_sink Sample.client
    = Ret (fs2, g2, None, tr)
    /\ map snd (verdicts tr)
       = [true; true; true; false; false; false; false; false; false]
    /\ exists n k, map snd (verdicts tr) = replicate n true ++ replicate k false.
Proof.
  eexists _, _, _. split; [vm_compute; reflexivity|].
  split; [reflexivity|].
  eapply (Consume_rejects_after_first_rejection
            (Sample.world None None
               [Sample.msg_a; Sample.msg_b; Sample.msg_c; Sample.msg_a;
                Sample.msg_b; Sample.msg_c; Sample.msg_a; Sample.msg_b;
                Sample.msg_c] None)
            Sample.disk_with_old_sink Sample.client);
    [vm_compute; reflexivity | reflexivity].
Defined.

(** ** Sessions of a constructed client *)

(** X20. A client built by [NewGCPclient] never makes [Consume] panic: on
    every world and every disk [Consume] returns, with an error or with
    nil, and so does a further [Consume] on the client it returns, since a
    session keeps the loggers and the batch size of the client. *)
Theorem constructed_client_sessions_return w0 fs0 configfile fs' g w fs :
  NewGCPclient w0 fs0 configfile = (fs', Ret (Some g, None)) ->
  exists fs2 g2 err tr,
    Consume w fs g = Ret (fs2, g2, err, tr)
    /\ forall w' fs3, exists fs4 g4 err' tr',
         Consume w' fs3 g2 = Ret (fs4, g4, err', tr').
Proof.
  intros Hnew. pose proof (NewGCPclient_threshold_ok _ _ _ _ _ Hnew) as Hok.
  assert (Hlog : is_Some (Worker_logger_info (Worker g))).
  { apply NewGCPclient_client in Hnew
      as (_ & _ & _ & _ & _ & _ & _ & _ & _ & _ & _ & _ & Hl). exact Hl. }
  assert (Hreturns : forall w1 fs1 g1,
             Worker g1 = Worker g ->
             exists fs2 g2 err tr, Consume w1 fs1 g1 = Ret (fs2, g2, err, tr)).
  { intros w1 fs1 g1 Hwk. destruct Hlog as [lg Hl]. rewrite <- Hwk in Hl.
    assert (Hok1 : threshold_ok g1 = true)
      by (unfold threshold_ok, threshold in *; rewrite Hwk; exact Hok).
    destruct (pubsub_NewClient w1 (Project g1) (Keyfile g1)) as [e|] eqn:Hc.
    - rewrite (Consume_client_unavailable w1 fs1 g1 lg e Hl Hc). eauto.
    - destruct (os_OpenFile (log_Println w1 lg "Starting Receiver" fs1)
                  (sink_path g1) sink_flags) as [fs2 [file|e]] eqn:Ho.
      + destruct (pubsub_Receive w1 (Subscription g1) (session_timeout g1))
          as [msgs rerr] eqn:Hr.
        destruct (Consume_session w1 fs1 g1 lg fs2 file msgs rerr Hl Hok1 Hc Ho Hr)
          as (fs3 & g3 & tr & Hcons & _).
        eauto.
      + rewrite (Consume_sink_unopenable w1 fs1 g1 lg fs2 e Hl Hc Ho). eauto. }
  destruct (Hreturns w fs g eq_refl) as (fs2 & g2 & err & tr & Hc).
  exists fs2, g2, err, tr. split; [exact Hc|].
  intros w' fs3. apply Hreturns.
  destruct (Consume_account w fs g fs2 g2 err tr Hc Hok) as (_ & _ & Hwk). exact Hwk.
Qed.

Lemma constructed_client_sessions_return_witness :
  exists fs2 g2 err tr,
    Consume (Sample.world None None [Sample.msg_a] (Some (ErrExternal "gone")))
            (Sample.disk 0) Sample.client
    = Ret (fs2, g2, err, tr)
    /\ forall w' fs3, exists fs4 g4 err' tr',
         Consume w' fs3 g2 = Ret (fs4, g4, err', tr').
Proof.
  apply (constructed_client_sessions_return
           (Sample.world (Some Sample.config) None [] None) (Sample.disk 100)
           "worker.json" (Sample.disk_with_sink 100) Sample.client
           (Sample.world None None [Sample.msg_a] (Some (ErrExternal "gone")))
           (Sample.disk 0)).
  vm_compute. reflexivity.
Defined.

(** X21. With a batch size in the configuration (any value other than
    zero), a successful [NewGCPclient] creates the batch empty with the
    threshold as its capacity, the threshold being the integer the batch
    size converts to, between 0 and the largest capacity [make] accepts. *)
Theorem NewGCPclient_configured_batch w fs configfile fs' g content d :
  NewGCPclient w fs configfile = (fs', Ret (Some g, None)) ->
  ioutil_ReadFile fs configfile = inl content ->
  json_Unmarshal w content = Some d ->
  float32_eq_zero (Batchsize (Worker d)) = false ->
  elems (batch g) = []
  /\ cap (batch g) = threshold g
  /\ threshold g = int_of_float32 (Batchsize (Worker d))
  /\ 0 <= threshold g <= max_slice_cap.
Proof.
  intros H Hc Hd Hz. apply NewGCPclient_client in H
    as (content' & d' & Hc' & Hd' & _ & Hbatch & Hrange & Hb & _).
  rewrite Hc in Hc'. injection Hc' as <-. rewrite Hd in Hd'. injection Hd' as <-.
  unfold threshold. rewrite Hb, Hz, Hbatch. cbn [elems cap]. auto.
Qed.

Lemma NewGCPclient_configured_batch_witness :
  elems (batch Sample.client) = []
  /\ cap (batch Sample.client) = threshold Sample.client
  /\ threshold Sample.client = int_of_float32 Sample.float32_two
  /\ 0 <= threshold Sample.client <= max_slice_cap.
Proof.
  apply (NewGCPclient_configured_batch
           (Sample.world (Some Sample.config) None [] None) (Sample.disk 100)
           "worker.json" (Sample.disk_with_sink 100) Sample.client [] Sample.config);
    [vm_compute; reflexivity | reflexivity | reflexivity | reflexivity].
Defined.

(** X22. The second error of [CreateMessageLogFiles]. When the directory is
    there or can be made, and the log file is missing at a path the system
    lets the process look at but not create, [Stat] reports that the file
    does not exist, [Create] fails, and [CreateMessageLogFiles] returns the
    error for the file. The directory it made on the way stays; no file and
    no free space changed; [NewGCPclient] reports the message-log error
    with a nil client. *)
Theorem CreateMessageLogFiles_refused_creation fs logpath filename :
  logpath <> "" ->
  logpath ∉ fs_refused fs ->
  fs_files fs !! logpath = None ->
  logpath ∈ fs_dirs fs \/ logpath ∉ fs_readonly fs ->
  log_path logpath filename ∉ fs_refused fs ->
  fs_files fs !! log_path logpath filename = None ->
  log_path logpath filename ∉ fs_dirs fs ->
  log_path logpath filename ∈ fs_readonly fs ->
  exists fs',
    CreateMessageLogFiles fs logpath filename = (fs', Some err_create)
    /\ fs_files fs' = fs_files fs
    /\ logpath ∈ fs_dirs fs'
    /\ fs_free fs' = fs_free fs
    /\ forall w configfile content d,
         ioutil_ReadFile fs configfile = inl content ->
         json_Unmarshal w content = Some d ->
         Message_log_path (Worker d) = logpath ->
         Subscription d = filename ->
         NewGCPclient w fs configfile = (fs', Ret (None, Some err_msglog)).
Proof.
  intros Hne Hnr Hl Hdir Hfr Hf Hfd Hfro.
  assert (Hmk : exists fs1,
             os_MkdirAll fs logpath = (fs1, None)
             /\ fs_files fs1 = fs_files fs /\ fs_refused fs1 = fs_refused fs
             /\ fs_readonly fs1 = fs_readonly fs /\ fs_free fs1 = fs_free fs
             /\ logpath ∈ fs_dirs fs1
             /\ (log_path logpath filename ∉ fs_dirs fs1)).
  { unfold os_MkdirAll.
    rewrite (bool_decide_eq_false_2 _ Hne), (bool_decide_eq_false_2 _ Hnr), Hl.
    destruct (bool_decide (logpath ∈ fs_dirs fs)) eqn:Hd.
    - apply bool_decide_eq_true in Hd. exists fs. auto 10.
    - apply bool_decide_eq_false in Hd. destruct Hdir as [Hdir|Hdir]; [contradiction|].
      rewrite (bool_decide_eq_false_2 _ Hdir). eexists. split; [reflexivity|].
      cbn [fs_files fs_refused fs_readonly fs_free fs_dirs].
      repeat (split; [reflexivity|]).
      split; [apply elem_of_union_l, elem_of_singleton; reflexivity|].
      intros [Hin|Hin]%elem_of_union; [|contradiction].
      apply elem_of_singleton in Hin. apply log_path_neq in Hin. exact Hin. }
  destruct Hmk as (fs1 & Hmk & Hfiles & Hre & Hro & Hfree & Hd1 & Hnd1).
  assert (Hcreate : CreateMessageLogFiles fs logpath filename = (fs1, Some err_create)).
  { unfold CreateMessageLogFiles. rewrite Hmk.
    unfold os_Stat, os_Create, os_OpenFile. rewrite Hfiles, Hre, Hro.
    rewrite (bool_decide_eq_false_2 _ Hfr), Hf, (bool_decide_eq_false_2 _ Hnd1).
    cbn [os_IsNotExist].
    change (has_flag (Z.lor O_RDWR (Z.lor O_CREATE O_TRUNC)) O_CREATE) with true.
    cbn iota. rewrite (bool_decide_eq_true_2 _ Hfro). reflexivity. }
  exists fs1. split; [exact Hcreate|]. split; [exact Hfiles|].
  split; [exact Hd1|]. split; [exact Hfree|].
  intros w configfile content d Hr Hj Hp Hs. unfold NewGCPclient. rewrite Hr, Hj.
  cbn [Worker_log_path Message_log_path Batchsize Maxwaittime Worker
       Subscription decoded_into_zero set_writer set_batch].
  rewrite Hp, Hs, Hcreate. reflexivity.
Qed.

Lemma CreateMessageLogFiles_refused_creation_witness :
  exists fs',
    CreateMessageLogFiles Sample.disk_readonly "/var/log/events" "events"
    = (fs', Some err_create)
    /\ fs_files fs' = fs_files Sample.disk_readonly
    /\ "/var/log/events" ∈ fs_dirs fs'
    /\ fs_free fs' = fs_free Sample.disk_readonly
    /\ forall w configfile content d,
         ioutil_ReadFile Sample.disk_readonly configfile = inl content ->
         json_Unmarshal w content = Some d ->
         Message_log_path (Worker d) = "/var/log/events" ->
         Subscription d = "events" ->
         NewGCPclient w Sample.disk_readonly configfile
         = (fs', Ret (None, Some err_msglog)).
Proof.
  apply (CreateMessageLogFiles_refused_creation Sample.disk_readonly
           "/var/log/events" "events");
    [ discriminate | vm_compute; discriminate | reflexivity
    | left; vm_compute; reflexivity | vm_compute; discriminate | reflexivity
    | vm_compute; discriminate | vm_compute; reflexivity ].
Defined.
